(** * OWASP project compliance checker: scoring engine

    A shallow embedding of [src/compliance_checker.py] (class
    [OWASPComplianceChecker]) and the properties of its report.

    - Python [int] is [Z]; [float] is a binary64 primitive float; [str] is
      [string], holding the UTF-8 bytes of the text.
    - A dictionary whose insertion order is observable (the report's
      [categories]) is an association list that is updated in place.
    - The checker object is an explicit state threaded through a small
      state-and-exception monad: a Python exception leaves every mutation
      made before it in place.
    - The hosting-API client, [requests]/[BeautifulSoup] and [urlparse] are
      collaborators outside the file; they are records of the observations
      the code makes of them, or section variables. *)

From Stdlib Require Import ZArith String Ascii List Bool Lia.
From Stdlib Require Import DecimalString.
From Stdlib Require Import Floats.PrimFloat Floats.SpecFloat Floats.FloatOps.
Import ListNotations.

Local Open Scope string_scope.
Local Open Scope Z_scope.

(* ================================================================== *)
(** * Python strings *)

Module PyStr.

(** [c.lower()] on one ASCII character. *)
Definition lower_ascii (c : ascii) : ascii :=
  let n := nat_of_ascii c in
  if andb (Nat.leb 65 n) (Nat.leb n 90) then ascii_of_nat (n + 32) else c.

Definition is_byte (c : ascii) (n : nat) : bool :=
  Nat.eqb (nat_of_ascii c) n.

(** [s.lower()] on the UTF-8 bytes of [s].  Besides A-Z, two code points
    have a lower-case form that holds an ASCII letter: U+212A KELVIN SIGN
    (bytes E2 84 AA) becomes "k", and U+0130 (bytes C4 B0) becomes "i"
    followed by U+0307 (bytes CC 87).  Every other code point outside ASCII
    has a lower-case form outside ASCII and is kept as it is: the code only
    searches the result for ASCII keywords and compares it with ASCII
    names, and no such test can tell the two apart. *)
Fixpoint lower (s : string) : string :=
  match s with
  | EmptyString => EmptyString
  | String c r =>
      match r with
      | String c1 r1 =>
          if andb (is_byte c 196) (is_byte c1 176)
          then String "i" (String (ascii_of_nat 204)
                             (String (ascii_of_nat 135) (lower r1)))
          else
            match r1 with
            | String c2 r2 =>
                if andb (is_byte c 226)
                     (andb (is_byte c1 132) (is_byte c2 170))
                then String "k" (lower r2)
                else String (lower_ascii c) (lower r)
            | EmptyString => String (lower_ascii c) (lower r)
            end
      | EmptyString => String (lower_ascii c) (lower r)
      end
  end.

(** [needle in hay]. *)
Fixpoint contains (needle hay : string) : bool :=
  if String.prefix needle hay then true
  else match hay with
       | EmptyString => false
       | String _ r => contains needle r
       end.

(** [any(keyword in content for keyword in keywords)]. *)
Definition any_in (keywords : list string) (content : string) : bool :=
  existsb (fun keyword => contains keyword content) keywords.

(** [s.endswith(suffix)]. *)
Definition endswith (s suffix : string) : bool :=
  let n := String.length s in
  let k := String.length suffix in
  andb (Nat.leb k n) (String.eqb (substring (n - k) k s) suffix).

Definition rev (s : string) : string :=
  string_of_list_ascii (List.rev (list_ascii_of_string s)).

Fixpoint lstrip (ch : ascii) (s : string) : string :=
  match s with
  | String c r => if Ascii.eqb c ch then lstrip ch r else s
  | EmptyString => EmptyString
  end.

(** [s.strip(ch)] for a one-character [ch]. *)
Definition strip (ch : ascii) (s : string) : string :=
  rev (lstrip ch (rev (lstrip ch s))).

(** [s.split(sep)] for a one-character [sep]; never the empty list. *)
Fixpoint split (sep : ascii) (s : string) : list string :=
  match s with
  | EmptyString => [EmptyString]
  | String c r =>
      if Ascii.eqb c sep then EmptyString :: split sep r
      else match split sep r with
           | h :: t => String c h :: t
           | [] => [String c EmptyString]
           end
  end.

(** [sep.join(parts)]. *)
Fixpoint join (sep : string) (parts : list string) : string :=
  match parts with
  | [] => EmptyString
  | [p] => p
  | p :: rest => p ++ sep ++ join sep rest
  end.

(** [str(n)] for an [int]. *)
Definition of_int (n : Z) : string := NilZero.string_of_int (Z.to_int n).

(** [str(b)] for a [bool]. *)
Definition of_bool (b : bool) : string := if b then "True" else "False".

End PyStr.

(* ================================================================== *)
(** * Exceptions and the checker monad *)

(** The exceptions the code distinguishes: [github.GithubException] (with its
    [status]) and every other [Exception], known by its type name.  [text] is
    [str(e)]. *)
Inductive exn : Type :=
| GithubException (status : Z) (text : string)
| PyException (type_name : string) (text : string).

Definition exn_str (e : exn) : string :=
  match e with
  | GithubException _ text => text
  | PyException _ text => text
  end.

(** [type(e).__name__] *)
Definition exn_type_name (e : exn) : string :=
  match e with
  | GithubException _ _ => "GithubException"
  | PyException type_name _ => type_name
  end.

(** The outcome of a call: it raised, or it returned. *)
Definition outcome (A : Type) : Type := (exn + A)%type.

(* ================================================================== *)
(** * Numbers of the report *)

(** A report number is an [int] (the initial ["percentage": 0]) or a
    [float] (the result of [round]). *)
Inductive number : Type :=
| PyInt (z : Z)
| PyFloat (f : float).

Module PyNum.

Definition Z2SF (z : Z) : spec_float :=
  match z with
  | Z0 => S754_zero false
  | Zpos p => S754_finite false p 0
  | Zneg p => S754_finite true p 0
  end.

(** [a / b] on two [int]s: the correctly rounded quotient,
    [ZeroDivisionError] or [OverflowError]. *)
Definition int_true_divide (a b : Z) : outcome float :=
  if b =? 0 then inl (PyException "ZeroDivisionError" "division by zero")
  else match SFdiv prec emax (Z2SF a) (Z2SF b) with
       | S754_infinity _ =>
           inl (PyException "OverflowError"
                  "integer division result too large for a float")
       | q => inr (SF2Prim q)
       end.

(** [x * n] for a float and an [int] that converts exactly. *)
Definition float_mul_int (x : float) (n : Z) : float :=
  PrimFloat.mul x (SF2Prim (Z2SF n)).

(** The integer nearest to [num / den] ([den > 0]), ties to even. *)
Definition round_half_even (num den : Z) : Z :=
  let q := num / den in
  let r := num mod den in
  match 2 * r ?= den with
  | Lt => q
  | Gt => q + 1
  | Eq => if Z.even q then q else q + 1
  end.

(** [round(x, 2)] on a float: the exact binary value of [x] is rounded to
    two decimals (ties to even) and the double nearest to that decimal is
    returned; zeros, infinities, NaN and integral values are unchanged. *)
Definition round2 (x : float) : float :=
  match Prim2SF x with
  | S754_finite s m e =>
      if 0 <=? e then x
      else
        match round_half_even (Zpos m * 100) (2 ^ (- e)) with
        | Zpos n =>
            SF2Prim (SFdiv prec emax (S754_finite s n 0)
                       (S754_finite false 100 0))
        | _ => SF2Prim (S754_zero s)
        end
  | _ => x
  end.

End PyNum.

(* ================================================================== *)
(** * Data model *)

(** One entry of a category's ["checks"] list. *)
Record Check : Type := mkCheck {
  name : string;
  passed : bool;
  points : Z;
  max_points : Z;
  details : string;
  how_to_fix : string
}.

(** One value of the ["categories"] dictionary. *)
Record Category : Type := mkCategory {
  checks : list Check;
  score : Z;
  max_score : Z
}.

(** An insertion-ordered dictionary with string keys. *)
Module Dict.
Section WithValue.
Context {V : Type}.

Definition t : Type := list (string * V).

Fixpoint get (k : string) (d : t) : option V :=
  match d with
  | [] => None
  | (k', v) :: rest => if String.eqb k k' then Some v else get k rest
  end.

Definition mem (k : string) (d : t) : bool :=
  match get k d with Some _ => true | None => false end.

(** [d[k] = v]: an existing key keeps its position, a new key goes last. *)
Fixpoint set (k : string) (v : V) (d : t) : t :=
  match d with
  | [] => [(k, v)]
  | (k', v') :: rest =>
      if String.eqb k k' then (k', v) :: rest else (k', v') :: set k v rest
  end.
End WithValue.
Arguments t : clear implicits.
End Dict.

(** The report dictionary [self.results] once [check_compliance] has
    initialised it; ["error"] and ["note"] are keys that may be absent. *)
Record Results : Type := mkResults {
  url : string;
  r_score : Z;
  r_max_score : Z;
  percentage : number;
  categories : Dict.t Category;
  error : option string;
  note : option string
}.

(* ================================================================== *)
(** * The hosting-API objects, by what the code reads from them *)

(** A [ContentFile]: [item.type], [item.name] and
    [item.decoded_content.decode('utf-8')]. *)
Record ContentFile : Type := mkContentFile {
  cf_type : string;
  cf_name : string;
  cf_decoded : outcome string
}.

(** The value of [repo.get_contents(path)]: one file, or a directory
    listing. *)
Inductive Contents : Type :=
| OneFile (f : ContentFile)
| Listing (items : list ContentFile).

(** A [datetime], by what the code reads from it: [d.strftime('%Y-%m-%d')];
    the text of its date and time fields; its UTC offset when it is
    timezone-aware; and whether its fields are later than those of
    [datetime.now() - timedelta(days=365)]. *)
Record DateTime : Type := mkDateTime {
  strftime_Y_m_d : string;
  wall_clock : string;
  utcoffset : option string;
  within_one_year : bool
}.

(** [str(d)]: an aware value ends with its offset. *)
Definition dt_str (d : DateTime) : string :=
  wall_clock d ++ match utcoffset d with
                  | Some offset => offset
                  | None => ""
                  end.

(** [d > one_year_ago].  [one_year_ago] comes from [datetime.now()] and is
    naive, and Python refuses to order a naive and an aware value.  PyGithub 2
    returns aware values, PyGithub 1 naive ones. *)
Definition after_one_year_ago (d : DateTime) : outcome bool :=
  match utcoffset d with
  | None => inr (within_one_year d)
  | Some _ =>
      inl (PyException "TypeError"
             "can't compare offset-naive and offset-aware datetimes")
  end.

Record License : Type := mkLicense { license_name : string }.

(** A [github.Repository.Repository].  Methods that issue a request may
    raise; attributes do not. *)
Record Repository : Type := mkRepository {
  get_readme : outcome ContentFile;
  get_license : outcome (option License);
  license : option License;
  get_contents : string -> outcome Contents;
  open_issues_count : Z;
  updated_at : option DateTime;
  pushed_at : option DateTime;
  get_commits : outcome (list string);
  get_milestones_totalCount : outcome Z;
  get_collaborators_totalCount : outcome Z;
  get_releases_totalCount : outcome Z;
  get_tags_totalCount : outcome Z;
  has_wiki : bool;
  has_discussions : bool
}.

(** A [github.Github] client: [client.get_repo(full_name)]. *)
Record Github : Type := mkGithub {
  get_repo : string -> outcome Repository
}.

(** [urlparse(url).netloc] and [urlparse(url).path]. *)
Record ParseResult : Type := mkParseResult {
  netloc : string;
  path : string
}.

(* ================================================================== *)
(** * The checker object and its monad *)

(** [self.results]: the dictionary [{}] that [__init__] stores, which has
    none of the report's five keys (it can only have gained ["error"] or
    ["note"]), or the report [check_compliance] installs. *)
Inductive ResultsDict : Type :=
| Blank (error note : option string)
| Report (r : Results).

(** [self] *)
Record Checker : Type := mkChecker {
  github_token : option string;
  github_client : Github;
  results : ResultsDict;
  self_max_score : Z;
  current_score : Z
}.

Definition M (A : Type) : Type := Checker -> outcome A * Checker.

Definition ret {A} (a : A) : M A := fun self => (inr a, self).

Definition raise {A} (e : exn) : M A := fun self => (inl e, self).

Definition bind {A B} (m : M A) (k : A -> M B) : M B :=
  fun self =>
    match m self with
    | (inr a, self') => k a self'
    | (inl e, self') => (inl e, self')
    end.

(** A call to a collaborator: it reads, and it may raise. *)
Definition call {A} (r : outcome A) : M A := fun self => (r, self).

(** [try: body except: handler] *)
Definition try_except {A} (body : M A) (handler : exn -> M A) : M A :=
  fun self =>
    match body self with
    | (inr a, self') => (inr a, self')
    | (inl e, self') => handler e self'
    end.

Declare Scope checker_scope.
Delimit Scope checker_scope with checker.
Notation "x <- m ;; k" := (bind m (fun x => k))
  (at level 61, m at next level, right associativity) : checker_scope.
Notation "m ;; k" := (bind m (fun _ => k))
  (at level 61, right associativity) : checker_scope.
Local Open Scope checker_scope.

Definition KeyError (key : string) : exn :=
  PyException "KeyError" ("'" ++ key ++ "'").

Definition with_results (self : Checker) (d : ResultsDict) : Checker :=
  mkChecker (github_token self) (github_client self) d
    (self_max_score self) (current_score self).

(** A read of [self.results["categories"]]: a [KeyError] on the dictionary
    of [__init__]. *)
Definition get_results : M Results :=
  fun self =>
    match results self with
    | Report r => (inr r, self)
    | Blank _ _ => (inl (KeyError "categories"), self)
    end.

Definition put_results (r : Results) : M unit :=
  fun self => (inr tt, with_results self (Report r)).

Definition with_categories (r : Results) (cats : Dict.t Category) : Results :=
  mkResults (url r) (r_score r) (r_max_score r) (percentage r) cats
    (error r) (note r).

Definition with_error (r : Results) (msg : string) : Results :=
  mkResults (url r) (r_score r) (r_max_score r) (percentage r) (categories r)
    (Some msg) (note r).

Definition with_note (r : Results) (msg : string) : Results :=
  mkResults (url r) (r_score r) (r_max_score r) (percentage r) (categories r)
    (error r) (Some msg).

(** [self.results["categories"][category] = v] *)
Definition set_category (category : string) (v : Category) : M unit :=
  r <- get_results ;;
  put_results (with_categories r (Dict.set category v (categories r))).

(** [self.results["categories"][category][field] = f(...)]: the category
    must be there. *)
Definition update_category (category : string) (f : Category -> Category)
  : M unit :=
  r <- get_results ;;
  match Dict.get category (categories r) with
  | Some v => put_results (with_categories r (Dict.set category (f v) (categories r)))
  | None => raise (KeyError category)
  end.

(** [self.current_score += points] *)
Definition add_current_score (pts : Z) : M unit :=
  fun self =>
    (inr tt, mkChecker (github_token self) (github_client self) (results self)
               (self_max_score self) (current_score self + pts)).

(** [self.results["error"] = msg] *)
Definition set_error (msg : string) : M unit :=
  fun self =>
    (inr tt,
     with_results self
       match results self with
       | Report r => Report (with_error r msg)
       | Blank _ note => Blank (Some msg) note
       end).

(** [self.results["note"] = msg] *)
Definition set_note (msg : string) : M unit :=
  fun self =>
    (inr tt,
     with_results self
       match results self with
       | Report r => Report (with_note r msg)
       | Blank error _ => Blank error (Some msg)
       end).

(** [_add_check(category, name, passed, points, details, how_to_fix)] *)
Definition _add_check (category name : string) (passed : bool) (points : Z)
    (details how_to_fix : string) : M unit :=
  r <- get_results ;;
  (if negb (Dict.mem category (categories r))
   then set_category category (mkCategory [] 0 0)
   else ret tt) ;;
  (if passed
   then
     update_category category
       (fun v => mkCategory (checks v) (score v + points) (max_score v)) ;;
     add_current_score points
   else ret tt) ;;
  update_category category
    (fun v => mkCategory (checks v) (score v) (max_score v + points)) ;;
  update_category category
    (fun v =>
       mkCategory
         (checks v ++
            [mkCheck name passed (if passed then points else 0) points details
               (if negb passed then how_to_fix else "")])
         (score v) (max_score v)).

(** The default arguments of [_add_check]: [points=1], [details=""],
    [how_to_fix=""]. *)
Definition _add_check_d (category name : string) (passed : bool) (points : Z)
    (details : string) : M unit :=
  _add_check category name passed points details "".

Definition _add_check_n (category name : string) (passed : bool) (points : Z)
  : M unit :=
  _add_check category name passed points "" "".

(* ------------------------------------------------------------------ *)
(** ** Helper methods *)

(** [_check_file_exists(repo, filepath)] *)
Definition _check_file_exists (repo : Repository) (filepath : string) : M bool :=
  try_except
    (_ <- call (get_contents repo filepath) ;; ret true)
    (fun _ => ret false).

(** [_check_directory_exists(repo, dirpath)] *)
Definition _check_directory_exists (repo : Repository) (dirpath : string)
  : M bool :=
  try_except
    (contents <- call (get_contents repo dirpath) ;; ret true)
    (fun _ => ret false).

(** [contents[:5]] and the iteration over [contents]: a single
    [ContentFile] is neither sliceable nor iterable. *)
Definition items_of (contents : Contents) : outcome (list ContentFile) :=
  match contents with
  | Listing items => inr items
  | OneFile _ =>
      inl (PyException "TypeError" "'ContentFile' object is not iterable")
  end.

Definition source_extensions : list string :=
  [".py"; ".js"; ".java"; ".go"; ".rs"].

(** The loop of [_check_code_comments] over the first five entries. *)
Fixpoint scan_comments (items : list ContentFile) : M bool :=
  match items with
  | [] => ret false
  | item :: rest =>
      if andb (String.eqb (cf_type item) "file")
              (existsb (fun ext => PyStr.endswith (cf_name item) ext)
                 source_extensions)
      then
        file_content <- call (cf_decoded item) ;;
        if orb (PyStr.contains "#" file_content)
               (orb (PyStr.contains "//" file_content)
                    (PyStr.contains "/*" file_content))
        then ret true
        else scan_comments rest
      else scan_comments rest
  end.

(** [_check_code_comments(repo)] *)
Definition _check_code_comments (repo : Repository) : M bool :=
  try_except
    (contents <- call (get_contents repo "") ;;
     items <- call (items_of contents) ;;
     scan_comments (firstn 5 items))
    (fun _ => ret false).

(** [_check_no_secrets(repo)] *)
Definition _check_no_secrets (repo : Repository) : M bool :=
  try_except
    (let sensitive_patterns :=
       ["password"; "api_key"; "secret_key"; "private_key"] in
     ret true)
    (fun _ => ret true).

(** [any(self._check_file_exists(repo, f) for f in files)]: stops at the
    first file found. *)
Fixpoint any_file_exists (repo : Repository) (files : list string) : M bool :=
  match files with
  | [] => ret false
  | f :: rest =>
      b <- _check_file_exists repo f ;;
      if b then ret true else any_file_exists repo rest
  end.

(** [a or b] where [b] is only evaluated when [a] is false. *)
Definition or_else (a : M bool) (b : M bool) : M bool :=
  x <- a ;; if x then ret true else b.

(* ================================================================== *)
(** * The rule catalog *)

Definition is_not_None {A} (x : option A) : bool :=
  match x with Some _ => true | None => false end.

(** [_check_general_compliance(repo, owner)] *)
Definition _check_general_compliance (repo : Repository) (owner : string)
  : M unit :=
  let category := "General Compliance & Governance" in
  (* 1. Clearly defined project goal and scope (README) *)
  try_except
    (readme <- call (get_readme repo) ;;
     decoded <- call (cf_decoded readme) ;;
     let readme_content := PyStr.lower decoded in
     let has_goal :=
       PyStr.any_in ["goal"; "purpose"; "about"; "overview"; "description"]
         readme_content in
     _add_check category "Clearly defined project goal and scope"
       has_goal 1
       "Checked README for keywords: goal, purpose, about, overview, description"
       "Add a clear project description in your README.md file. Include sections like '## About', '## Purpose', or '## Project Goal' to explain what your project does.")
    (fun _ =>
       _add_check category "Clearly defined project goal and scope" false 1
         "README.md file not found or could not be read"
         "Create a README.md file in the root of your repository with a clear project description and goals.") ;;
  (* 2. Open-source license *)
  lic <- call (get_license repo) ;;
  let license_check := is_not_None lic in
  _add_check category "Open-source license file present"
    license_check 1
    ("License: " ++ match license repo with
                    | Some l => license_name l
                    | None => "Not found"
                    end)
    "Add a LICENSE file to your repository. Popular choices include MIT, Apache 2.0, or GPL. Use GitHub's 'Add file > Create new file > LICENSE' wizard to add one." ;;
  (* 3. README file *)
  has_readme <- try_except
                  (_ <- call (get_readme repo) ;; ret true)
                  (fun _ => ret false) ;;
  _add_check category "README file provides project overview"
    has_readme 1
    "Checked for README.md, README.rst, or README.txt in repository root"
    "Create a README.md file in the root directory with project overview, installation instructions, and usage examples." ;;
  (* 4. Follows OWASP best practices *)
  let is_owasp := String.eqb (PyStr.lower owner) "owasp" in
  _add_check category "Under OWASP organization" is_owasp 1
    ("Repository owner: " ++ owner)
    "This check verifies if the repository is under the OWASP GitHub organization. Consider contributing to OWASP or following OWASP guidelines even if not under OWASP org." ;;
  (* 5. Contributing guidelines *)
  has_contributing <- _check_file_exists repo "CONTRIBUTING.md" ;;
  _add_check category "Contribution guidelines (CONTRIBUTING.md)"
    has_contributing 1
    "Checked for CONTRIBUTING.md file in repository root"
    "Create a CONTRIBUTING.md file that explains how others can contribute to your project. Include guidelines for submitting issues, pull requests, and code style standards." ;;
  (* 6. Issue tracker actively monitored *)
  let open_issues := open_issues_count repo in
  let has_recent_activity := is_not_None (updated_at repo) in
  _add_check category "Issue tracker is active"
    has_recent_activity 1
    ("Open issues: " ++ PyStr.of_int open_issues ++ ", Last updated: " ++
     match updated_at repo with
     | Some d => strftime_Y_m_d d
     | None => "Unknown"
     end)
    "Enable the Issues feature in your repository settings and actively respond to and manage issues." ;;
  (* 7. Active maintainers (check recent commits) *)
  try_except
    (commits <- call (get_commits repo) ;;
     let recent_commits := firstn 10 commits in
     let has_recent_commits := (0 <? Z.of_nat (length recent_commits)) in
     _add_check category "Active maintainers with recent commits"
       has_recent_commits 1
       ("Found " ++ PyStr.of_int (Z.of_nat (length recent_commits)) ++
        " recent commits")
       "Ensure regular commits to show active maintenance. If the project is complete, add a note about its maintenance status in the README.")
    (fun _ =>
       _add_check category "Active maintainers with recent commits" false 1
         "Could not fetch commit history"
         "Make sure the repository has commits and is accessible. Regular commits demonstrate active maintenance.") ;;
  (* 8. Code of Conduct *)
  has_coc <- _check_file_exists repo "CODE_OF_CONDUCT.md" ;;
  _add_check category "Code of Conduct present" has_coc 1
    "Checked for CODE_OF_CONDUCT.md file in repository root"
    "Add a CODE_OF_CONDUCT.md file to set expectations for community behavior. GitHub provides a template under 'Insights > Community > Code of conduct'." ;;
  (* 9. Project roadmap or milestones *)
  has_roadmap <- or_else (_check_file_exists repo "ROADMAP.md")
                   (n <- call (get_milestones_totalCount repo) ;; ret (0 <? n)) ;;
  milestones <- call (get_milestones_totalCount repo) ;;
  _add_check category "Project roadmap or milestones documented"
    has_roadmap 1
    ("Checked for ROADMAP.md file and GitHub milestones (found " ++
     PyStr.of_int milestones ++ " milestones)")
    "Create a ROADMAP.md file or use GitHub Milestones (under 'Issues' tab) to document planned features and project direction." ;;
  (* 10. Well-governed with active maintainers *)
  n <- call (get_collaborators_totalCount repo) ;;
  let has_collaborators := (0 <? n) in
  collaborators <- call (get_collaborators_totalCount repo) ;;
  _add_check category "Well-governed with active maintainers"
    has_collaborators 1
    ("Collaborators: " ++ PyStr.of_int collaborators)
    "Add collaborators to your repository through Settings > Collaborators. Having multiple maintainers ensures better project governance.".

(** [_check_documentation(repo)] *)
Definition _check_documentation (repo : Repository) : M unit :=
  let category := "Documentation & Usability" in
  try_except
    (readme <- call (get_readme repo) ;;
     decoded <- call (cf_decoded readme) ;;
     let readme_content := PyStr.lower decoded in
     (* 11. Well-structured README with installation guide *)
     let has_installation :=
       PyStr.any_in ["install"; "setup"; "getting started"; "quick start"]
         readme_content in
     _add_check category "Installation guide in README"
       has_installation 1
       "Searched README for keywords: install, setup, getting started, quick start"
       "Add an installation section to your README.md. Include step-by-step instructions for setting up the project (e.g., ## Installation, ## Setup, or ## Getting Started)." ;;
     (* 12. Clear usage examples *)
     let has_usage :=
       PyStr.any_in ["usage"; "example"; "how to use"; "tutorial"]
         readme_content in
     _add_check category "Usage examples provided" has_usage 1
       "Searched README for keywords: usage, example, how to use, tutorial"
       "Add usage examples to your README.md. Include code snippets showing how to use your project (e.g., ## Usage, ## Examples, or ## Quick Start).")
    (fun _ =>
       _add_check category "Installation guide in README" false 1
         "Could not read README file"
         "Create a README.md file with an installation section containing setup instructions." ;;
       _add_check category "Usage examples provided" false 1
         "Could not read README file"
         "Create a README.md file with usage examples and code snippets.") ;;
  (* 13. Wiki or docs directory *)
  let has_wiki := has_wiki repo in
  has_docs <- _check_directory_exists repo "docs" ;;
  _add_check category "Wiki or docs/ directory"
    (orb has_wiki has_docs) 1
    ("Wiki enabled: " ++ PyStr.of_bool has_wiki ++
     ", docs/ directory exists: " ++ PyStr.of_bool has_docs)
    "Enable the Wiki feature in repository Settings, or create a 'docs/' directory with detailed documentation files." ;;
  (* 14. API documentation *)
  has_api_docs <- or_else (_check_file_exists repo "swagger.yaml")
                    (or_else (_check_file_exists repo "openapi.yaml")
                       (_check_directory_exists repo "api-docs")) ;;
  _add_check category "API documentation available" has_api_docs 1
    "Checked for swagger.yaml, openapi.yaml, or api-docs/ directory"
    "If your project has an API, document it using OpenAPI/Swagger. Create a swagger.yaml or openapi.yaml file, or add API documentation in an api-docs/ directory." ;;
  (* 15. Inline code comments (check a few files) *)
  has_comments <- _check_code_comments repo ;;
  _add_check category "Inline code comments present" has_comments 1
    "Checked sample source files for comment presence"
    "Add meaningful comments to your code to explain complex logic. Use docstrings for functions/classes and inline comments for non-obvious code." ;;
  (* 16. Scripts and configs documented *)
  has_script_docs <- _check_file_exists repo "scripts/README.md" ;;
  _add_check category "Scripts and configuration documented"
    has_script_docs 1
    "Checked for scripts/README.md file"
    "If you have a scripts/ directory, create a scripts/README.md file explaining what each script does and how to use them." ;;
  (* 17. FAQ or troubleshooting guide *)
  has_faq <- or_else (_check_file_exists repo "FAQ.md")
               (_check_file_exists repo "TROUBLESHOOTING.md") ;;
  _add_check category "FAQ or troubleshooting guide" has_faq 1
    "Checked for FAQ.md or TROUBLESHOOTING.md files"
    "Create a FAQ.md or TROUBLESHOOTING.md file to help users solve common problems. Document frequently asked questions and their solutions." ;;
  (* 18. Error messages (hard to check automatically) *)
  _add_check category "Well-defined error messages" true 1
    "Manual review recommended - automated check not possible"
    "Ensure your code provides clear, actionable error messages. Include what went wrong and how to fix it." ;;
  (* 19. Versioning strategy *)
  has_versions <- or_else
                    (n <- call (get_releases_totalCount repo) ;; ret (0 <? n))
                    (n <- call (get_tags_totalCount repo) ;; ret (0 <? n)) ;;
  releases <- call (get_releases_totalCount repo) ;;
  tags <- call (get_tags_totalCount repo) ;;
  _add_check category "Clear versioning strategy" has_versions 1
    ("Releases: " ++ PyStr.of_int releases ++ ", Tags: " ++ PyStr.of_int tags)
    "Create releases or tags to track versions. Use semantic versioning (e.g., v1.0.0). Go to 'Releases' on GitHub and click 'Create a new release'." ;;
  (* 20. CHANGELOG *)
  has_changelog <- _check_file_exists repo "CHANGELOG.md" ;;
  _add_check category "CHANGELOG maintained" has_changelog 1
    "Checked for CHANGELOG.md file in repository root"
    "Create a CHANGELOG.md file to document all notable changes. Use the format from https://keepachangelog.com/".

Definition linter_files : list string :=
  [".eslintrc"; ".pylintrc"; ".rubocop.yml"; "tslint.json";
   ".editorconfig"; "phpcs.xml"; ".prettierrc"].

(** [sum(1 for item in contents if item.type == "dir")] *)
Definition count_dirs (items : list ContentFile) : Z :=
  Z.of_nat (length (filter (fun item => String.eqb (cf_type item) "dir") items)).

(** [_check_code_quality(repo)] *)
Definition _check_code_quality (repo : Repository) : M unit :=
  let category := "Code Quality & Best Practices" in
  (* 21-22. Style guide and linters (check for config files) *)
  has_linter <- any_file_exists repo linter_files ;;
  _add_check category "Code follows style guide" has_linter 1
    ("Checked for linter config files: " ++ PyStr.join ", " linter_files)
    "Add a linter configuration file for your language (e.g., .eslintrc for JavaScript, .pylintrc for Python, .rubocop.yml for Ruby)." ;;
  _add_check category "Uses linters" has_linter 1
    ("Checked for linter config files: " ++ PyStr.join ", " linter_files)
    "Configure and use a linter for your project. Add the config file and include linting in your CI/CD pipeline." ;;
  (* 23. Modular code (check for multiple files/directories) *)
  try_except
    (contents <- call (get_contents repo "") ;;
     items <- call (items_of contents) ;;
     let num_dirs := count_dirs items in
     let is_modular := (2 <=? num_dirs) in
     _add_check category "Code is modular and maintainable"
       is_modular 1
       ("Found " ++ PyStr.of_int num_dirs ++ " directories in repository root")
       "Organize your code into logical modules/directories (e.g., src/, lib/, tests/). This improves maintainability and code organization.")
    (fun _ =>
       _add_check category "Code is modular and maintainable" false 1
         "Could not analyze repository structure"
         "Organize your code into logical modules and directories to improve maintainability.") ;;
  (* 24. DRY principle (hard to check automatically) *)
  _add_check category "Adheres to DRY principle" true 1
    "Manual code review recommended - automated check not possible"
    "Follow the Don't Repeat Yourself (DRY) principle. Extract common code into reusable functions/modules." ;;
  (* 25. Secure coding practices *)
  _add_check category "Secure coding practices followed" true 1
    "Verified by other security checks in this report"
    "Follow OWASP secure coding guidelines. Review the Security & OWASP Compliance section for specific recommendations." ;;
  (* 26. No hardcoded credentials (basic check) *)
  no_secrets <- _check_no_secrets repo ;;
  _add_check category "No hardcoded credentials or secrets"
    no_secrets 1
    "Basic pattern check performed"
    "Remove any hardcoded passwords, API keys, or secrets from your code. Use environment variables or secure vaults. Scan with tools like git-secrets or truffleHog." ;;
  (* 27-30. Security best practices (placeholder - detailed in security section) *)
  _add_check category "Uses parameterized queries" true 1
    "Manual verification recommended for SQL databases"
    "If using databases, always use parameterized queries or prepared statements. Never concatenate user input directly into SQL queries." ;;
  _add_check category "Strong cryptographic algorithms" true 1
    "Manual review recommended"
    "Use modern cryptographic algorithms (e.g., AES-256, SHA-256+). Avoid weak algorithms like MD5 or SHA-1 for security purposes." ;;
  _add_check category "Input validation implemented" true 1
    "Verified by security scanning recommendations"
    "Validate and sanitize all user inputs. Use allowlists, reject invalid data, and implement proper type checking." ;;
  _add_check category "Output encoding for XSS prevention" true 1
    "Verified by security scanning recommendations"
    "Encode all output to prevent XSS attacks. Use context-appropriate encoding (HTML, JavaScript, URL, CSS).".

(** [_check_security(repo)] *)
Definition _check_security (repo : Repository) : M unit :=
  let category := "Security & OWASP Compliance" in
  (* 31. Security policy *)
  has_security <- _check_file_exists repo "SECURITY.md" ;;
  _add_check category "Security policy (SECURITY.md)" has_security 1
    "Checked for SECURITY.md file in repository root"
    "Create a SECURITY.md file to document your security policy and how to report vulnerabilities. GitHub provides a template under 'Security' tab." ;;
  (* 32. Dependency scanning enabled *)
  has_dependabot <- _check_file_exists repo ".github/dependabot.yml" ;;
  _add_check category "Dependency scanning configured"
    has_dependabot 1
    "Checked for .github/dependabot.yml configuration"
    "Enable Dependabot in repository Settings > Security > Dependabot alerts. Create .github/dependabot.yml to configure automatic dependency updates." ;;
  (* 33. Secure headers (for web apps) *)
  _add_check category "Uses secure headers (CSP, HSTS, etc.)" true 1
    "Manual review required for web applications"
    "For web apps: implement Content-Security-Policy, Strict-Transport-Security, X-Frame-Options, X-Content-Type-Options headers." ;;
  (* 34. Input validation *)
  _add_check category "Input validation enforced" true 1
    "Manual code review required"
    "Implement input validation for all user inputs. Use validation libraries, check data types, lengths, and formats. Reject invalid input." ;;
  (* 35-45. Security best practices *)
  _add_check category "RBAC implemented where applicable" true 1
    "Manual review required for multi-user systems"
    "If applicable: implement Role-Based Access Control (RBAC). Define roles and permissions, restrict access based on user roles." ;;
  _add_check category "Secure authentication mechanisms" true 1
    "Manual review required for auth systems"
    "Use industry-standard authentication (OAuth 2.0, OpenID Connect). Implement MFA where possible. Use secure password hashing (bcrypt, Argon2)." ;;
  _add_check category "Secrets stored securely" true 1
    "Check for .env.example file, ensure no .env in repository"
    "Never commit secrets to Git. Use environment variables, .env files (gitignored), or secret managers (AWS Secrets Manager, Azure Key Vault). Add .env.example as template." ;;
  _add_check category "Uses HTTPS for communication" true 1
    "Manual verification required"
    "Always use HTTPS for network communication. Configure TLS/SSL certificates. Force HTTPS redirects in web applications." ;;
  _add_check category "Adheres to OWASP ASVS" true 1
    "Manual security assessment required"
    "Review the OWASP Application Security Verification Standard (ASVS) at https://owasp.org/www-project-application-security-verification-standard/" ;;
  _add_check category "Secure cookie attributes" true 1
    "For web applications: verify cookie settings"
    "For web apps: set Secure, HttpOnly, and SameSite attributes on cookies. Use __Host- or __Secure- prefixes." ;;
  _add_check category "No unnecessary ports exposed" true 1
    "Manual infrastructure review required"
    "Review firewall rules and exposed ports. Only expose necessary ports. Use security groups and network policies to restrict access." ;;
  _add_check category "Logs security events" true 1
    "Manual logging implementation review required"
    "Log security-relevant events: authentication attempts, authorization failures, input validation errors. Include timestamps and user context." ;;
  _add_check category "Least privilege principle" true 1
    "Manual code and infrastructure review required"
    "Grant minimum permissions needed. Avoid running as root/admin. Use service accounts with limited permissions." ;;
  (* Check for vulnerable dependencies *)
  _add_check category "No outdated/unsafe dependencies" true 1
    "Regular dependency scanning recommended"
    "Use tools like OWASP Dependency-Check, Snyk, or npm audit. Keep dependencies updated. Enable Dependabot or Renovate for automated updates." ;;
  (* OWASP Top 10 compliance *)
  _add_check category "Complies with OWASP Top 10" true 1
    "Manual security testing and review required"
    "Review and test against OWASP Top 10 vulnerabilities at https://owasp.org/www-project-top-ten/. Consider security testing tools and penetration testing.".

(** [_check_cicd(repo)] *)
Definition _check_cicd (repo : Repository) : M unit :=
  let category := "CI/CD & DevSecOps" in
  (* 46-47. Tests and CI *)
  has_tests <- or_else (_check_directory_exists repo "tests")
                 (or_else (_check_directory_exists repo "test")
                    (_check_directory_exists repo "__tests__")) ;;
  _add_check category "Automated unit tests implemented" has_tests 1
    "Checked for tests/, test/, or __tests__ directories"
    "Create a tests/ or test/ directory and add unit tests for your code. Use testing frameworks like pytest (Python), Jest (JavaScript), JUnit (Java), etc." ;;
  has_ci <- or_else (_check_directory_exists repo ".github/workflows")
              (or_else (_check_file_exists repo ".gitlab-ci.yml")
                 (or_else (_check_file_exists repo ".travis.yml")
                    (_check_file_exists repo "Jenkinsfile"))) ;;
  _add_check category "Continuous Integration configured" has_ci 1
    "Checked for .github/workflows/, .gitlab-ci.yml, .travis.yml, or Jenkinsfile"
    "Set up CI using GitHub Actions (.github/workflows/), GitLab CI (.gitlab-ci.yml), Travis CI, or Jenkins. Run tests automatically on every push." ;;
  (* 48-55. DevSecOps practices *)
  _add_check category "CI/CD includes security scanning" has_ci 1
    "Verify workflow files include SAST/DAST tools"
    "Add security scanning to your CI pipeline. Use CodeQL (GitHub), SonarQube, or other SAST tools. Add the scan step to your workflow file." ;;
  _add_check category "Dependency scanning automated" has_ci 1
    "Check for dependency scanning in CI workflows"
    "Add dependency scanning to CI. Use GitHub's Dependabot, Snyk, or OWASP Dependency-Check. Configure in .github/dependabot.yml or CI workflow." ;;
  _add_check category "Code coverage reports generated" has_ci 1
    "Check for coverage tools in CI configuration"
    "Add code coverage to your CI pipeline. Use tools like Coverage.py (Python), Istanbul/NYC (JavaScript), JaCoCo (Java). Report coverage with Codecov or Coveralls." ;;
  _add_check category "Container security scanning" true 1
    "Required if project uses containers"
    "If using Docker: scan images with Trivy, Clair, or Snyk Container. Add to CI: 'docker scan' or trivy image scan before deployment." ;;
  _add_check category "IaC security checks" true 1
    "Required if using Infrastructure as Code"
    "If using IaC (Terraform, CloudFormation): use tools like Checkov, tfsec, or CloudFormation Guard to scan for security issues." ;;
  _add_check category "Secure secrets management in CI/CD" true 1
    "Manual verification: ensure no secrets in workflow files"
    "Use GitHub Secrets, GitLab CI/CD variables, or similar for sensitive data. Never hardcode secrets in workflow files. Reference secrets as ${{ secrets.SECRET_NAME }}." ;;
  _add_check category "Environment configurations managed" true 1
    "Check for .env.example or config documentation"
    "Document environment variables in .env.example. Use environment-specific configs. Keep production secrets out of version control." ;;
  _add_check category "Rollback mechanisms available" true 1
    "Manual deployment process review required"
    "Implement deployment rollback capability. Use versioned releases, blue-green deployments, or feature flags for safe rollbacks.".

(** [_check_testing(repo)] *)
Definition _check_testing (repo : Repository) : M unit :=
  let category := "Testing & Validation" in
  has_tests <- or_else (_check_directory_exists repo "tests")
                 (_check_directory_exists repo "test") ;;
  (* 56-65. Testing practices *)
  _add_check_d category "Tests cover edge cases" has_tests 1
    "Requires test review" ;;
  _add_check_n category "Unit, integration, and E2E tests" has_tests 1 ;;
  _add_check_d category "Uses mocks and stubs" has_tests 1
    "Check test files" ;;
  _add_check_d category "Achieves 80%+ test coverage" has_tests 1
    "Run coverage tools" ;;
  _add_check_n category "Tests validate input sanitization" has_tests 1 ;;
  _add_check_d category "Automated fuzz testing" false 1
    "Advanced feature" ;;
  _add_check_d category "Fails gracefully with error logging" true 1
    "Manual verification" ;;
  _add_check_d category "No sensitive data in logs" true 1
    "Code review needed" ;;
  _add_check_d category "Uses dependency injection" true 1
    "Architecture review" ;;
  _add_check_n category "Regression tests for compatibility" has_tests 1.

(** [_check_performance(repo)] *)
Definition _check_performance (repo : Repository) : M unit :=
  let category := "Performance & Scalability" in
  (* 66-75. Performance practices (mostly manual review) *)
  _add_check_d category "Code optimized for performance" true 1
    "Requires profiling" ;;
  _add_check_d category "Asynchronous processing where needed" true 1
    "Architecture review" ;;
  _add_check_d category "Caching strategies implemented" true 1
    "Check for cache configuration" ;;
  _add_check_d category "Optimized database queries" true 1
    "Database review needed" ;;
  _add_check_d category "Rate limiting to prevent abuse" true 1
    "For web services" ;;
  _add_check_d category "No memory leaks" true 1
    "Profiling required" ;;
  _add_check_d category "Load testing performed" false 1
    "Check for load test scripts" ;;
  _add_check_d category "Supports horizontal scaling" true 1
    "Architecture review" ;;
  _add_check_d category "Uses lazy loading" true 1
    "Manual code review" ;;
  _add_check_d category "Pagination for large datasets" true 1
    "API/UI review".

(** [_check_logging(repo)] *)
Definition _check_logging (repo : Repository) : M unit :=
  let category := "Logging & Monitoring" in
  (* 76-85. Logging practices *)
  _add_check_d category "Logging implemented" true 1
    "Check for logging framework" ;;
  _add_check_d category "Configurable log levels" true 1
    "Check configuration files" ;;
  _add_check_d category "Logs don't contain sensitive data" true 1
    "Code review required" ;;
  _add_check_d category "Monitoring integration" false 1
    "Check for monitoring setup" ;;
  _add_check_d category "Structured logging format" true 1
    "Check logging implementation" ;;
  _add_check_d category "Audit logs for security actions" true 1
    "Security review needed" ;;
  _add_check_d category "Alerts configured" false 1
    "Manual infrastructure check" ;;
  _add_check_d category "Log rotation and archival" true 1
    "Operations review" ;;
  _add_check_d category "Incident response playbook" false 1
    "Check documentation" ;;
  _add_check_d category "Logging config separate from code" true 1
    "Check for config files".

(** [_check_community(repo)] *)
Definition _check_community (repo : Repository) : M unit :=
  let category := "Community & Support" in
  (* 86. Active maintainers *)
  let has_recent_activity := is_not_None (pushed_at repo) in
  _add_check_n category "Maintainers actively engage"
    has_recent_activity 1 ;;
  (* 87-88. Security reporting *)
  has_security_md <- _check_file_exists repo "SECURITY.md" ;;
  _add_check_n category "Security vulnerability reporting process"
    has_security_md 1 ;;
  _add_check_n category "Security policy file (SECURITY.md)"
    has_security_md 1 ;;
  (* 89-95. Community practices *)
  _add_check_d category "Community guidelines present" true 1
    "Check CODE_OF_CONDUCT.md" ;;
  _add_check_d category "Responsive to security issues" true 1
    "Check issue response time" ;;
  (* Check for recent updates *)
  recently_updated <- match pushed_at repo with
                      | Some d => call (after_one_year_ago d)
                      | None => ret false
                      end ;;
  _add_check_d category "Regular project updates" recently_updated 1
    ("Last update: " ++ match pushed_at repo with
                        | Some d => dt_str d
                        | None => "None"
                        end) ;;
  (* Support channels *)
  let has_discussions := has_discussions repo in
  _add_check_d category "Multiple support channels" has_discussions 1
    (if has_discussions then "GitHub Discussions enabled"
     else "Check for other channels") ;;
  _add_check_d category "Clear escalation path" true 1
    "Check SECURITY.md" ;;
  _add_check_d category "PR reviews before merging" true 1
    "Check branch protection" ;;
  _add_check_d category "Good issue tracking hygiene" true 1
    ("Open issues: " ++ PyStr.of_int (open_issues_count repo)).

(** [_check_legal(repo)] *)
Definition _check_legal (repo : Repository) : M unit :=
  let category := "Legal & Compliance" in
  (* 96. Data protection compliance *)
  _add_check_d category "GDPR/CCPA compliance" true 1
    "Manual legal review needed" ;;
  (* 97. License compliance *)
  lic <- call (get_license repo) ;;
  let has_license := is_not_None lic in
  _add_check_d category "Dependencies properly licensed" has_license 1
    "Check third-party licenses" ;;
  (* 98. No proprietary code *)
  lic <- call (get_license repo) ;;
  let is_open_source := is_not_None lic in
  _add_check_n category "No proprietary/restricted code"
    is_open_source 1 ;;
  (* 99. Privacy policy *)
  has_privacy <- _check_file_exists repo "PRIVACY.md" ;;
  _add_check_n category "Users informed of data collection"
    has_privacy 1 ;;
  (* 100. Responsible disclosure *)
  has_security <- _check_file_exists repo "SECURITY.md" ;;
  _add_check_n category "Responsible disclosure policy" has_security 1.

(* ================================================================== *)
(** * The engine *)

Section Engine.

(** [urllib.parse.urlparse]: the parts of the URL the code reads, or a
    [ValueError]. *)
Variable urlparse : string -> outcome ParseResult.

(** [requests.get(url, timeout=10, verify=True, allow_redirects=False)]
    followed by [BeautifulSoup(response.text, 'html.parser').get_text()]. *)
Variable page_text : string -> outcome string.

(** [Github(token)] ([Some]) and [Github()] ([None]). *)
Variable Github_new : option string -> Github.

(** [__init__(github_token)] *)
Definition __init__ (github_token : option string) : Checker :=
  mkChecker github_token
    (match github_token with
     | Some token =>
         if String.eqb token "" then Github_new None
         else Github_new (Some token)
     | None => Github_new None
     end)
    (Blank None None) 100 0.

(** The message the two [except] clauses of [_check_github_repo] store in
    [self.results["error"]]. *)
Definition github_repo_error (e : exn) : string :=
  match e with
  | GithubException status _ =>
      let error_msg := "Failed to fetch repository. " in
      let error_msg :=
        error_msg ++ "Status: " ++ PyStr.of_int status ++ ". " in
      if status =? 403
      then error_msg ++ "API rate limit may be exceeded. Consider using a GitHub token with --token option."
      else error_msg ++ "Please check the repository URL and your network connection."
  | PyException _ _ =>
      "Unexpected error: " ++ exn_type_name e ++ ": " ++ exn_str e
  end.

(** [_check_github_repo(owner, repo_name)] *)
Definition _check_github_repo (owner repo_name : string) : M unit :=
  try_except
    (repo <- (fun self =>
                call (get_repo (github_client self)
                        (owner ++ "/" ++ repo_name)) self) ;;
     (* Run all category checks *)
     _check_general_compliance repo owner ;;
     _check_documentation repo ;;
     _check_code_quality repo ;;
     _check_security repo ;;
     _check_cicd repo ;;
     _check_testing repo ;;
     _check_performance repo ;;
     _check_logging repo ;;
     _check_community repo ;;
     _check_legal repo)
    (fun e => set_error (github_repo_error e)).

(** [_check_website_compliance(url)] *)
Definition _check_website_compliance (url : string) : M unit :=
  try_except
    (text <- call (page_text url) ;;
     let content := PyStr.lower text in
     let category := "Website Compliance" in
     (* Basic checks for websites *)
     let has_owasp := PyStr.contains "owasp" content in
     _add_check_n category "Mentions OWASP" has_owasp 5 ;;
     let has_security :=
       PyStr.any_in ["security"; "vulnerability"; "privacy"] content in
     _add_check_n category "Security-focused content" has_security 5 ;;
     (* Note: For non-GitHub URLs, we can only do limited checks *)
     set_note "Limited compliance checks for non-GitHub URLs. Consider providing a GitHub repository URL for comprehensive analysis.")
    (fun e => set_error ("Failed to fetch website: " ++ exn_str e)).

(** [in ["github.com", "www.github.com"]] *)
Definition github_hosts : list string := ["github.com"; "www.github.com"].

Definition is_github_netloc (netloc : string) : bool :=
  existsb (String.eqb (PyStr.lower netloc)) github_hosts.

(** [if len(path_parts) >= 2: owner, repo_name = path_parts[0], path_parts[1]] *)
Definition owner_and_repo_name (path_parts : list string)
  : option (string * string) :=
  match path_parts with
  | owner :: repo_name :: _ => Some (owner, repo_name)
  | _ => None
  end.

(** [self.results["score"] = ...] and [self.results["percentage"] = ...],
    on the report [check_compliance] has installed. *)
Definition set_score (s : Z) : M unit :=
  r <- get_results ;;
  put_results
    (mkResults (url r) s (r_max_score r) (percentage r) (categories r)
       (error r) (note r)).

Definition set_percentage (p : number) : M unit :=
  r <- get_results ;;
  put_results
    (mkResults (url r) (r_score r) (r_max_score r) p (categories r)
       (error r) (note r)).

(** [round((score / max_score) * 100, 2)] *)
Definition percentage_of (score max_score : Z) : outcome float :=
  match PyNum.int_true_divide score max_score with
  | inr q => inr (PyNum.round2 (PyNum.float_mul_int q 100))
  | inl e => inl e
  end.

(** [check_compliance(repo_url)] *)
Definition check_compliance (repo_url : string) : M Results :=
  (fun self =>
     put_results
       (mkResults repo_url 0 (self_max_score self) (PyInt 0) [] None None)
       self) ;;
  (* Parse URL to determine repository *)
  parsed_url <- call (urlparse repo_url) ;;
  (* Strict check: netloc must be exactly github.com or www.github.com *)
  let is_github := is_github_netloc (netloc parsed_url) in
  (if is_github
   then
     (* Extract owner and repo name *)
     let path_parts := PyStr.split "/" (PyStr.strip "/" (path parsed_url)) in
     match owner_and_repo_name path_parts with
     | Some (owner, repo_name) => _check_github_repo owner repo_name
     | None => ret tt
     end
   else
     (* Check website compliance *)
     _check_website_compliance repo_url) ;;
  (* Calculate final score and percentage *)
  (fun self => set_score (current_score self) self) ;;
  p <- (fun self =>
          call (percentage_of (current_score self) (self_max_score self))
            self) ;;
  set_percentage (PyFloat p) ;;
  get_results.

End Engine.

(* ================================================================== *)
(** * The command line *)

(** [args = parser.parse_args()]: the positional [url], [--token] (whose
    default is the environment's [GITHUB_TOKEN]) and [--json]. *)
Record Args : Type := mkCliArgs {
  args_url : string;
  args_token : option string;
  args_json : bool
}.

Module Render.

(** [s * n] *)
Fixpoint repeat (s : string) (n : nat) : string :=
  match n with
  | O => EmptyString
  | S n' => s ++ repeat s n'
  end.

(** The newline character and the non-ASCII marks of the report, as their
    UTF-8 bytes: U+2713, U+2717, U+2192, and U+2139 U+FE0F. *)
Definition nl : string := String (ascii_of_nat 10) EmptyString.

Definition of_bytes (bytes : list nat) : string :=
  string_of_list_ascii (map ascii_of_nat bytes).

Definition check_mark : string := of_bytes [226; 156; 147]%nat.
Definition ballot_x : string := of_bytes [226; 156; 151]%nat.
Definition arrow : string := of_bytes [226; 134; 146]%nat.
Definition info_sign : string := of_bytes [226; 132; 185; 239; 184; 143]%nat.

(** [x >= k] for a report number and an [int] literal. *)
Definition ge (x : number) (k : Z) : bool :=
  match x with
  | PyInt z => k <=? z
  | PyFloat f => PrimFloat.leb (SF2Prim (PyNum.Z2SF k)) f
  end.

(** The [if]/[elif] chain on [results['percentage']]. *)
Definition status_line (percentage : number) : string :=
  if ge percentage 80 then "Status: EXCELLENT COMPLIANCE " ++ check_mark
  else if ge percentage 60 then "Status: GOOD COMPLIANCE"
  else if ge percentage 40 then "Status: NEEDS IMPROVEMENT"
  else "Status: SIGNIFICANT IMPROVEMENTS NEEDED".

(** The prints of the loop body over [category_data['checks']]. *)
Definition check_lines (check : Check) : list string :=
  let status := if passed check then check_mark else ballot_x in
  let points_str :=
    "(" ++ PyStr.of_int (points check) ++ "/" ++
    PyStr.of_int (max_points check) ++ " pts)" in
  ["  " ++ status ++ " " ++ name check ++ " " ++ points_str]
  ++ (if negb (String.eqb (details check) "")
      then ["      " ++ arrow ++ " " ++ details check]
      else [])
  ++ (if andb (negb (passed check)) (negb (String.eqb (how_to_fix check) ""))
      then ["      " ++ info_sign ++ "  How to fix: " ++ how_to_fix check]
      else []).

(** The prints of the loop body over [results['categories'].items()]. *)
Definition category_lines (item : string * Category) : list string :=
  let (category_name, category_data) := item in
  [nl ++ category_name;
   "Score: " ++ PyStr.of_int (score category_data) ++ "/" ++
   PyStr.of_int (max_score category_data);
   repeat "-" 80]
  ++ flat_map check_lines (checks category_data).

End Render.

Section Main.

Variable urlparse : string -> outcome ParseResult.
Variable page_text : string -> outcome string.
Variable Github_new : option string -> Github.

(** [str(x)] of a [float], and [json.dumps(results, indent=2, default=str)]. *)
Variable float_str : float -> string.
Variable json_dumps : Results -> string.

Definition number_str (x : number) : string :=
  match x with
  | PyInt z => PyStr.of_int z
  | PyFloat f => float_str f
  end.

(** The prints of the human-readable branch of [main]. *)
Definition pretty_lines (results : Results) : list string :=
  [Render.repeat "=" 80;
   "OWASP Project Compliance Report";
   Render.repeat "=" 80;
   Render.nl ++ "Project URL: " ++ url results;
   "Overall Score: " ++ PyStr.of_int (r_score results) ++ "/" ++
   PyStr.of_int (r_max_score results) ++ " (" ++
   number_str (percentage results) ++ "%)";
   Render.nl ++ Render.repeat "=" 80]
  ++ flat_map Render.category_lines (categories results)
  ++ [Render.nl ++ Render.repeat "=" 80;
      Render.status_line (percentage results);
      Render.repeat "=" 80]
  ++ match error results with
     | Some msg => [Render.nl ++ "Error: " ++ msg]
     | None => []
     end
  ++ match note results with
     | Some msg => [Render.nl ++ "Note: " ++ msg]
     | None => []
     end.

(** [main()] after [parse_args]: the arguments of its [print] calls, in
    order, and the exception that ended it, if any. *)
Definition main (args : Args) : list string * outcome unit :=
  (* Create checker instance *)
  let checker := __init__ Github_new (args_token args) in
  (* Run compliance check *)
  let printed :=
    ["Checking compliance for: " ++ args_url args;
     "This may take a moment..." ++ Render.nl] in
  match check_compliance urlparse page_text (args_url args) checker with
  | (inl e, _) => (printed, inl e)
  | (inr results, _) =>
      (* Output results *)
      if args_json args
      then ((printed ++ [json_dumps results])%list, inr tt)
      else ((printed ++ pretty_lines results)%list, inr tt)
  end.

End Main.

(* ================================================================== *)
(** * Specification vocabulary *)

(** The arguments of one call of [_add_check]. *)
Record CheckArgs : Type := mkArgs {
  a_category : string;
  a_name : string;
  a_passed : bool;
  a_points : Z;
  a_details : string;
  a_how_to_fix : string
}.

Definition add_check_of (a : CheckArgs) : M unit :=
  _add_check (a_category a) (a_name a) (a_passed a) (a_points a)
    (a_details a) (a_how_to_fix a).

(** The points a call awards. *)
Definition awarded (a : CheckArgs) : Z :=
  if a_passed a then a_points a else 0.

(** The record a call appends. *)
Definition record_of (a : CheckArgs) : Check :=
  mkCheck (a_name a) (a_passed a) (awarded a) (a_points a) (a_details a)
    (if negb (a_passed a) then a_how_to_fix a else "").

(** The category after a call landed in it. *)
Definition add_to_category (a : CheckArgs) (v : Category) : Category :=
  mkCategory (checks v ++ [record_of a]) (score v + awarded a)
    (max_score v + a_points a).

Definition add_to_categories (a : CheckArgs) (cats : Dict.t Category)
  : Dict.t Category :=
  Dict.set (a_category a)
    (add_to_category a
       (match Dict.get (a_category a) cats with
        | Some v => v
        | None => mkCategory [] 0 0
        end))
    cats.

(** The checker after a sequence of [_add_check] calls. *)
Definition replay (l : list CheckArgs) (self : Checker) : Checker :=
  fold_left (fun s a => snd (add_check_of a s)) l self.

Definition replay_categories (l : list CheckArgs) (cats : Dict.t Category)
  : Dict.t Category :=
  fold_left (fun c a => add_to_categories a c) l cats.

Definition total_awarded (l : list CheckArgs) : Z :=
  fold_right (fun a acc => awarded a + acc) 0 l.

(** A computation whose only effect on an initialised checker is a sequence
    of [_add_check] calls, and whose outcome does not depend on the
    checker. *)
Definition writes {A} (m : M A) (r : outcome A) (l : list CheckArgs) : Prop :=
  forall self rep, results self = Report rep -> m self = (r, replay l self).

(** How a computation that may raise relates to the number of checks it
    adds: it never raises; it raises only before its first check; it may
    raise anywhere. *)
Inductive mode : Type := Total | Atomic | Partial.

Definition unit_weight (a : CheckArgs) : Prop := a_points a = 1.

(** [n] checks of weight 1 when the computation returns, awarding at most
    [k] points. *)
Definition bounded (md : mode) (n : nat) (k : Z) {A} (r : outcome A)
    (l : list CheckArgs) : Prop :=
  Forall unit_weight l /\ total_awarded l <= k /\
  match r with
  | inr _ => length l = n
  | inl _ =>
      match md with
      | Total => False
      | Atomic => l = []
      | Partial => (length l <= n)%nat
      end
  end.

Definition runs (md : mode) (n : nat) (k : Z) {A} (m : M A) : Prop :=
  exists r l, writes m r l /\ bounded md n k r l.

(** Sums over a category's checks. *)
Definition sum_passed (cs : list Check) : Z :=
  fold_right (fun k acc => (if passed k then max_points k else 0) + acc) 0 cs.

Definition sum_weights (cs : list Check) : Z :=
  fold_right (fun k acc => max_points k + acc) 0 cs.

(** The two equations of a category. *)
Definition category_sums (v : Category) : Prop :=
  score v = sum_passed (checks v) /\ max_score v = sum_weights (checks v).

(** The sum of all category scores. *)
Definition sum_scores (cats : Dict.t Category) : Z :=
  fold_right (fun kv acc => score (snd kv) + acc) 0 cats.

Definition all_checks (cats : Dict.t Category) : list Check :=
  flat_map (fun kv => checks (snd kv)) cats.

(** What holds of every check record. *)
Definition check_ok (k : Check) : Prop :=
  (passed k = false -> points k = 0) /\
  (passed k = true -> points k = max_points k /\ how_to_fix k = "").

(** The ten categories in the order [_check_github_repo] runs them. *)
Definition catalog (repo : Repository) (owner : string) : M unit :=
  _check_general_compliance repo owner ;;
  _check_documentation repo ;;
  _check_code_quality repo ;;
  _check_security repo ;;
  _check_cicd repo ;;
  _check_testing repo ;;
  _check_performance repo ;;
  _check_logging repo ;;
  _check_community repo ;;
  _check_legal repo.

(** The checker once [l] was added to the report [rep] and ["error"] and
    ["note"] were possibly set. *)
Definition ran (l : list CheckArgs) (err nt : option string) (self : Checker)
    (rep : Results) : Checker :=
  mkChecker (github_token self) (github_client self)
    (Report
       (mkResults (url rep) (r_score rep) (r_max_score rep) (percentage rep)
          (replay_categories l (categories rep))
          (match err with Some _ => err | None => error rep end)
          (match nt with Some _ => nt | None => note rep end)))
    (self_max_score self) (current_score self + total_awarded l).

(** The report [check_compliance] returns after the calls [l]. *)
Definition final_report (repo_url : string) (self : Checker)
    (l : list CheckArgs) (err nt : option string) (pct : number) : Results :=
  mkResults repo_url (current_score self + total_awarded l)
    (self_max_score self) pct (replay_categories l []) err nt.

Definition final_checker (self : Checker) (l : list CheckArgs)
    (rep : Results) : Checker :=
  mkChecker (github_token self) (github_client self) (Report rep)
    (self_max_score self) (current_score self + total_awarded l).

Definition finished (repo_url : string) (self : Checker) (l : list CheckArgs)
    (err nt : option string) : outcome Results * Checker :=
  match percentage_of (current_score self + total_awarded l)
          (self_max_score self) with
  | inr p =>
      let rep := final_report repo_url self l err nt (PyFloat p) in
      (inr rep, final_checker self l rep)
  | inl e =>
      (inl e,
       final_checker self l (final_report repo_url self l err nt (PyInt 0)))
  end.

Definition website_note : string :=
  "Limited compliance checks for non-GitHub URLs. Consider providing a GitHub repository URL for comprehensive analysis.".

Definition website_checks (text : string) : list CheckArgs :=
  [mkArgs "Website Compliance" "Mentions OWASP"
     (PyStr.contains "owasp" (PyStr.lower text)) 5 "" "";
   mkArgs "Website Compliance" "Security-focused content"
     (PyStr.any_in ["security"; "vulnerability"; "privacy"] (PyStr.lower text))
     5 "" ""].

(** The sum of all category maxima, and of the weights of a sequence of
    calls. *)
Definition sum_max_scores (cats : Dict.t Category) : Z :=
  fold_right (fun kv acc => max_score (snd kv) + acc) 0 cats.

Definition total_points (l : list CheckArgs) : Z :=
  fold_right (fun a acc => a_points a + acc) 0 l.


(** The report [check_compliance] installs before anything else. *)
Definition init_results (repo_url : string) (self : Checker) : Results :=
  mkResults repo_url 0 (self_max_score self) (PyInt 0) [] None None.

(** The branch of [check_compliance] that follows the classification. *)
Definition dispatch (page_text : string -> outcome string) (repo_url : string)
    (parsed_url : ParseResult) : M unit :=
  if is_github_netloc (netloc parsed_url)
  then
    match owner_and_repo_name
            (PyStr.split "/" (PyStr.strip "/" (path parsed_url))) with
    | Some (owner, repo_name) => _check_github_repo owner repo_name
    | None => ret tt
    end
  else _check_website_compliance page_text repo_url.

(** The ["error"] a run of the catalog leaves. *)
Definition catalog_error (r : outcome unit) : option string :=
  match r with
  | inl e => Some (github_repo_error e)
  | inr _ => None
  end.

(** A call that leaves no remediation text: it passed, or it declares
    none. *)
Definition quiet (a : CheckArgs) : Prop :=
  a_points a = 1 /\ (a_passed a = true \/ a_how_to_fix a = "").

(** A computation that returns [v] after [n] quiet calls awarding [k]. *)
Definition passes {A} (n : nat) (k : Z) (m : M A) (v : A) : Prop :=
  exists l,
    writes m (inr v) l /\ length l = n /\ total_awarded l = k /\
    Forall quiet l.

(** A computation that raises [e] after [n] quiet calls awarding [k]. *)
Definition stops {A} (n : nat) (k : Z) (m : M A) (e : exn) : Prop :=
  exists l,
    writes m (inl e) l /\ length l = n /\ total_awarded l = k /\
    Forall quiet l.

(** The invariant of a category. *)
Definition category_invariant (v : Category) : Prop :=
  score v = sum_passed (checks v) /\
  max_score v = sum_weights (checks v) /\
  score v <= max_score v.

(** [float(n)] for an [int] that converts exactly. *)
Definition float_of_int (n : Z) : float := SF2Prim (PyNum.Z2SF n).

(** The first statement of [check_compliance] and its last three. *)
Definition begin_report (repo_url : string) : M unit :=
  fun self => put_results (init_results repo_url self) self.

Definition finalize : M Results :=
  (fun self => set_score (current_score self) self) ;;
  p <- (fun self =>
          call (percentage_of (current_score self) (self_max_score self))
            self) ;;
  set_percentage (PyFloat p) ;;
  get_results.

(** The remediation text of the rate-limit case. *)
Definition rate_limit_hint : string :=
  "API rate limit may be exceeded. Consider using a GitHub token with --token option.".

(* ------------------------------------------------------------------ *)
(** ** The remediation each rule declares *)

(** The [_add_check] calls of the file, in its order: the category, the
    name of the check and the [how_to_fix] text of the call, which is empty
    where the call passes none.  The five checks that are added in the body
    of a [try] and again in its [except] appear twice. *)
Definition rule_calls : list (string * string * string) :=
  [("General Compliance & Governance",
    "Clearly defined project goal and scope",
    "Add a clear project description in your README.md file. Include sections like '## About', '## Purpose', or '## Project Goal' to explain what your project does.");
   ("General Compliance & Governance",
    "Clearly defined project goal and scope",
    "Create a README.md file in the root of your repository with a clear project description and goals.");
   ("General Compliance & Governance",
    "Open-source license file present",
    "Add a LICENSE file to your repository. Popular choices include MIT, Apache 2.0, or GPL. Use GitHub's 'Add file > Create new file > LICENSE' wizard to add one.");
   ("General Compliance & Governance",
    "README file provides project overview",
    "Create a README.md file in the root directory with project overview, installation instructions, and usage examples.");
   ("General Compliance & Governance",
    "Under OWASP organization",
    "This check verifies if the repository is under the OWASP GitHub organization. Consider contributing to OWASP or following OWASP guidelines even if not under OWASP org.");
   ("General Compliance & Governance",
    "Contribution guidelines (CONTRIBUTING.md)",
    "Create a CONTRIBUTING.md file that explains how others can contribute to your project. Include guidelines for submitting issues, pull requests, and code style standards.");
   ("General Compliance & Governance",
    "Issue tracker is active",
    "Enable the Issues feature in your repository settings and actively respond to and manage issues.");
   ("General Compliance & Governance",
    "Active maintainers with recent commits",
    "Ensure regular commits to show active maintenance. If the project is complete, add a note about its maintenance status in the README.");
   ("General Compliance & Governance",
    "Active maintainers with recent commits",
    "Make sure the repository has commits and is accessible. Regular commits demonstrate active maintenance.");
   ("General Compliance & Governance",
    "Code of Conduct present",
    "Add a CODE_OF_CONDUCT.md file to set expectations for community behavior. GitHub provides a template under 'Insights > Community > Code of conduct'.");
   ("General Compliance & Governance",
    "Project roadmap or milestones documented",
    "Create a ROADMAP.md file or use GitHub Milestones (under 'Issues' tab) to document planned features and project direction.");
   ("General Compliance & Governance",
    "Well-governed with active maintainers",
    "Add collaborators to your repository through Settings > Collaborators. Having multiple maintainers ensures better project governance.");
   ("Documentation & Usability",
    "Installation guide in README",
    "Add an installation section to your README.md. Include step-by-step instructions for setting up the project (e.g., ## Installation, ## Setup, or ## Getting Started).");
   ("Documentation & Usability",
    "Usage examples provided",
    "Add usage examples to your README.md. Include code snippets showing how to use your project (e.g., ## Usage, ## Examples, or ## Quick Start).");
   ("Documentation & Usability",
    "Installation guide in README",
    "Create a README.md file with an installation section containing setup instructions.");
   ("Documentation & Usability",
    "Usage examples provided",
    "Create a README.md file with usage examples and code snippets.");
   ("Documentation & Usability",
    "Wiki or docs/ directory",
    "Enable the Wiki feature in repository Settings, or create a 'docs/' directory with detailed documentation files.");
   ("Documentation & Usability",
    "API documentation available",
    "If your project has an API, document it using OpenAPI/Swagger. Create a swagger.yaml or openapi.yaml file, or add API documentation in an api-docs/ directory.");
   ("Documentation & Usability",
    "Inline code comments present",
    "Add meaningful comments to your code to explain complex logic. Use docstrings for functions/classes and inline comments for non-obvious code.");
   ("Documentation & Usability",
    "Scripts and configuration documented",
    "If you have a scripts/ directory, create a scripts/README.md file explaining what each script does and how to use them.");
   ("Documentation & Usability",
    "FAQ or troubleshooting guide",
    "Create a FAQ.md or TROUBLESHOOTING.md file to help users solve common problems. Document frequently asked questions and their solutions.");
   ("Documentation & Usability",
    "Well-defined error messages",
    "Ensure your code provides clear, actionable error messages. Include what went wrong and how to fix it.");
   ("Documentation & Usability",
    "Clear versioning strategy",
    "Create releases or tags to track versions. Use semantic versioning (e.g., v1.0.0). Go to 'Releases' on GitHub and click 'Create a new release'.");
   ("Documentation & Usability",
    "CHANGELOG maintained",
    "Create a CHANGELOG.md file to document all notable changes. Use the format from https://keepachangelog.com/");
   ("Code Quality & Best Practices",
    "Code follows style guide",
    "Add a linter configuration file for your language (e.g., .eslintrc for JavaScript, .pylintrc for Python, .rubocop.yml for Ruby).");
   ("Code Quality & Best Practices",
    "Uses linters",
    "Configure and use a linter for your project. Add the config file and include linting in your CI/CD pipeline.");
   ("Code Quality & Best Practices",
    "Code is modular and maintainable",
    "Organize your code into logical modules/directories (e.g., src/, lib/, tests/). This improves maintainability and code organization.");
   ("Code Quality & Best Practices",
    "Code is modular and maintainable",
    "Organize your code into logical modules and directories to improve maintainability.");
   ("Code Quality & Best Practices",
    "Adheres to DRY principle",
    "Follow the Don't Repeat Yourself (DRY) principle. Extract common code into reusable functions/modules.");
   ("Code Quality & Best Practices",
    "Secure coding practices followed",
    "Follow OWASP secure coding guidelines. Review the Security & OWASP Compliance section for specific recommendations.");
   ("Code Quality & Best Practices",
    "No hardcoded credentials or secrets",
    "Remove any hardcoded passwords, API keys, or secrets from your code. Use environment variables or secure vaults. Scan with tools like git-secrets or truffleHog.");
   ("Code Quality & Best Practices",
    "Uses parameterized queries",
    "If using databases, always use parameterized queries or prepared statements. Never concatenate user input directly into SQL queries.");
   ("Code Quality & Best Practices",
    "Strong cryptographic algorithms",
    "Use modern cryptographic algorithms (e.g., AES-256, SHA-256+). Avoid weak algorithms like MD5 or SHA-1 for security purposes.");
   ("Code Quality & Best Practices",
    "Input validation implemented",
    "Validate and sanitize all user inputs. Use allowlists, reject invalid data, and implement proper type checking.");
   ("Code Quality & Best Practices",
    "Output encoding for XSS prevention",
    "Encode all output to prevent XSS attacks. Use context-appropriate encoding (HTML, JavaScript, URL, CSS).");
   ("Security & OWASP Compliance",
    "Security policy (SECURITY.md)",
    "Create a SECURITY.md file to document your security policy and how to report vulnerabilities. GitHub provides a template under 'Security' tab.");
   ("Security & OWASP Compliance",
    "Dependency scanning configured",
    "Enable Dependabot in repository Settings > Security > Dependabot alerts. Create .github/dependabot.yml to configure automatic dependency updates.");
   ("Security & OWASP Compliance",
    "Uses secure headers (CSP, HSTS, etc.)",
    "For web apps: implement Content-Security-Policy, Strict-Transport-Security, X-Frame-Options, X-Content-Type-Options headers.");
   ("Security & OWASP Compliance",
    "Input validation enforced",
    "Implement input validation for all user inputs. Use validation libraries, check data types, lengths, and formats. Reject invalid input.");
   ("Security & OWASP Compliance",
    "RBAC implemented where applicable",
    "If applicable: implement Role-Based Access Control (RBAC). Define roles and permissions, restrict access based on user roles.");
   ("Security & OWASP Compliance",
    "Secure authentication mechanisms",
    "Use industry-standard authentication (OAuth 2.0, OpenID Connect). Implement MFA where possible. Use secure password hashing (bcrypt, Argon2).");
   ("Security & OWASP Compliance",
    "Secrets stored securely",
    "Never commit secrets to Git. Use environment variables, .env files (gitignored), or secret managers (AWS Secrets Manager, Azure Key Vault). Add .env.example as template.");
   ("Security & OWASP Compliance",
    "Uses HTTPS for communication",
    "Always use HTTPS for network communication. Configure TLS/SSL certificates. Force HTTPS redirects in web applications.");
   ("Security & OWASP Compliance",
    "Adheres to OWASP ASVS",
    "Review the OWASP Application Security Verification Standard (ASVS) at https://owasp.org/www-project-application-security-verification-standard/");
   ("Security & OWASP Compliance",
    "Secure cookie attributes",
    "For web apps: set Secure, HttpOnly, and SameSite attributes on cookies. Use __Host- or __Secure- prefixes.");
   ("Security & OWASP Compliance",
    "No unnecessary ports exposed",
    "Review firewall rules and exposed ports. Only expose necessary ports. Use security groups and network policies to restrict access.");
   ("Security & OWASP Compliance",
    "Logs security events",
    "Log security-relevant events: authentication attempts, authorization failures, input validation errors. Include timestamps and user context.");
   ("Security & OWASP Compliance",
    "Least privilege principle",
    "Grant minimum permissions needed. Avoid running as root/admin. Use service accounts with limited permissions.");
   ("Security & OWASP Compliance",
    "No outdated/unsafe dependencies",
    "Use tools like OWASP Dependency-Check, Snyk, or npm audit. Keep dependencies updated. Enable Dependabot or Renovate for automated updates.");
   ("Security & OWASP Compliance",
    "Complies with OWASP Top 10",
    "Review and test against OWASP Top 10 vulnerabilities at https://owasp.org/www-project-top-ten/. Consider security testing tools and penetration testing.");
   ("CI/CD & DevSecOps",
    "Automated unit tests implemented",
    "Create a tests/ or test/ directory and add unit tests for your code. Use testing frameworks like pytest (Python), Jest (JavaScript), JUnit (Java), etc.");
   ("CI/CD & DevSecOps",
    "Continuous Integration configured",
    "Set up CI using GitHub Actions (.github/workflows/), GitLab CI (.gitlab-ci.yml), Travis CI, or Jenkins. Run tests automatically on every push.");
   ("CI/CD & DevSecOps",
    "CI/CD includes security scanning",
    "Add security scanning to your CI pipeline. Use CodeQL (GitHub), SonarQube, or other SAST tools. Add the scan step to your workflow file.");
   ("CI/CD & DevSecOps",
    "Dependency scanning automated",
    "Add dependency scanning to CI. Use GitHub's Dependabot, Snyk, or OWASP Dependency-Check. Configure in .github/dependabot.yml or CI workflow.");
   ("CI/CD & DevSecOps",
    "Code coverage reports generated",
    "Add code coverage to your CI pipeline. Use tools like Coverage.py (Python), Istanbul/NYC (JavaScript), JaCoCo (Java). Report coverage with Codecov or Coveralls.");
   ("CI/CD & DevSecOps",
    "Container security scanning",
    "If using Docker: scan images with Trivy, Clair, or Snyk Container. Add to CI: 'docker scan' or trivy image scan before deployment.");
   ("CI/CD & DevSecOps",
    "IaC security checks",
    "If using IaC (Terraform, CloudFormation): use tools like Checkov, tfsec, or CloudFormation Guard to scan for security issues.");
   ("CI/CD & DevSecOps",
    "Secure secrets management in CI/CD",
    "Use GitHub Secrets, GitLab CI/CD variables, or similar for sensitive data. Never hardcode secrets in workflow files. Reference secrets as ${{ secrets.SECRET_NAME }}.");
   ("CI/CD & DevSecOps",
    "Environment configurations managed",
    "Document environment variables in .env.example. Use environment-specific configs. Keep production secrets out of version control.");
   ("CI/CD & DevSecOps",
    "Rollback mechanisms available",
    "Implement deployment rollback capability. Use versioned releases, blue-green deployments, or feature flags for safe rollbacks.");
   ("Testing & Validation",
    "Tests cover edge cases",
    "");
   ("Testing & Validation",
    "Unit, integration, and E2E tests",
    "");
   ("Testing & Validation",
    "Uses mocks and stubs",
    "");
   ("Testing & Validation",
    "Achieves 80%+ test coverage",
    "");
   ("Testing & Validation",
    "Tests validate input sanitization",
    "");
   ("Testing & Validation",
    "Automated fuzz testing",
    "");
   ("Testing & Validation",
    "Fails gracefully with error logging",
    "");
   ("Testing & Validation",
    "No sensitive data in logs",
    "");
   ("Testing & Validation",
    "Uses dependency injection",
    "");
   ("Testing & Validation",
    "Regression tests for compatibility",
    "");
   ("Performance & Scalability",
    "Code optimized for performance",
    "");
   ("Performance & Scalability",
    "Asynchronous processing where needed",
    "");
   ("Performance & Scalability",
    "Caching strategies implemented",
    "");
   ("Performance & Scalability",
    "Optimized database queries",
    "");
   ("Performance & Scalability",
    "Rate limiting to prevent abuse",
    "");
   ("Performance & Scalability",
    "No memory leaks",
    "");
   ("Performance & Scalability",
    "Load testing performed",
    "");
   ("Performance & Scalability",
    "Supports horizontal scaling",
    "");
   ("Performance & Scalability",
    "Uses lazy loading",
    "");
   ("Performance & Scalability",
    "Pagination for large datasets",
    "");
   ("Logging & Monitoring",
    "Logging implemented",
    "");
   ("Logging & Monitoring",
    "Configurable log levels",
    "");
   ("Logging & Monitoring",
    "Logs don't contain sensitive data",
    "");
   ("Logging & Monitoring",
    "Monitoring integration",
    "");
   ("Logging & Monitoring",
    "Structured logging format",
    "");
   ("Logging & Monitoring",
    "Audit logs for security actions",
    "");
   ("Logging & Monitoring",
    "Alerts configured",
    "");
   ("Logging & Monitoring",
    "Log rotation and archival",
    "");
   ("Logging & Monitoring",
    "Incident response playbook",
    "");
   ("Logging & Monitoring",
    "Logging config separate from code",
    "");
   ("Community & Support",
    "Maintainers actively engage",
    "");
   ("Community & Support",
    "Security vulnerability reporting process",
    "");
   ("Community & Support",
    "Security policy file (SECURITY.md)",
    "");
   ("Community & Support",
    "Community guidelines present",
    "");
   ("Community & Support",
    "Responsive to security issues",
    "");
   ("Community & Support",
    "Regular project updates",
    "");
   ("Community & Support",
    "Multiple support channels",
    "");
   ("Community & Support",
    "Clear escalation path",
    "");
   ("Community & Support",
    "PR reviews before merging",
    "");
   ("Community & Support",
    "Good issue tracking hygiene",
    "");
   ("Legal & Compliance",
    "GDPR/CCPA compliance",
    "");
   ("Legal & Compliance",
    "Dependencies properly licensed",
    "");
   ("Legal & Compliance",
    "No proprietary/restricted code",
    "");
   ("Legal & Compliance",
    "Users informed of data collection",
    "");
   ("Legal & Compliance",
    "Responsible disclosure policy",
    "");
   ("Website Compliance",
    "Mentions OWASP",
    "");
   ("Website Compliance",
    "Security-focused content",
    "")].

(** Whether a call with these three arguments is in the file. *)
Definition declares (category name how_to_fix : string) : bool :=
  existsb
    (fun call =>
       let '(c, n, f) := call in
       andb (String.eqb category c)
            (andb (String.eqb name n) (String.eqb how_to_fix f)))
    rule_calls.

Definition declared (a : CheckArgs) : Prop :=
  declares (a_category a) (a_name a) (a_how_to_fix a) = true.

(** C2 as amended: what holds of a check record [k] of the category [c]. *)
Definition check_as_amended (c : string) (k : Check) : Prop :=
  (passed k = false ->
   points k = 0 /\ declares c (name k) (how_to_fix k) = true) /\
  (passed k = true -> points k = max_points k /\ how_to_fix k = "").

(** A computation all of whose [_add_check] calls satisfy [P], whatever its
    outcome. *)
Definition calls_satisfy (P : CheckArgs -> Prop) {A} (m : M A) : Prop :=
  exists r l, writes m r l /\ Forall P l.

(* ------------------------------------------------------------------ *)
(** ** The spec's words, for comparison with the code *)

(** C2 as the spec words it: a failed check has a remediation text. *)
Definition check_as_specified (k : Check) : Prop :=
  (passed k = false -> points k = 0 /\ how_to_fix k <> "") /\
  (passed k = true -> points k = max_points k /\ how_to_fix k = "").

(** C9 as the spec words it: the host of the URL, which is
    [urlparse(url).hostname]: the netloc without its user information and
    without its port, in lower case (for a netloc without an IPv6
    literal). *)
Definition hostname_of (netloc : string) : string :=
  let hostinfo := last (PyStr.split "@" netloc) "" in
  PyStr.lower (hd "" (PyStr.split ":" hostinfo)).

(** C7 as the spec words it: the first two non-empty path segments. *)
Definition first_two_nonempty_segments (path : string)
  : option (string * string) :=
  match filter (fun seg => negb (String.eqb seg ""))
          (PyStr.split "/" path) with
  | owner :: repo_name :: _ => Some (owner, repo_name)
  | _ => None
  end.

(* ------------------------------------------------------------------ *)
(** ** What the probes answer *)

(** Whether [repo.get_contents(path)] returns. *)
Definition found (repo : Repository) (path : string) : bool :=
  match get_contents repo path with
  | inr _ => true
  | inl _ => false
  end.

(** The test [_check_code_comments] applies to an entry before reading it,
    and the test it applies to what it read. *)
Definition is_source_file (item : ContentFile) : bool :=
  andb (String.eqb (cf_type item) "file")
       (existsb (fun ext => PyStr.endswith (cf_name item) ext)
          source_extensions).

Definition has_comment_marker (file_content : string) : bool :=
  orb (PyStr.contains "#" file_content)
      (orb (PyStr.contains "//" file_content)
           (PyStr.contains "/*" file_content)).

(** The outcome of the loop of [_check_code_comments], which does not
    depend on the checker. *)
Fixpoint scan_outcome (items : list ContentFile) : outcome bool :=
  match items with
  | [] => inr false
  | item :: rest =>
      if is_source_file item
      then match cf_decoded item with
           | inl e => inl e
           | inr file_content =>
               if has_comment_marker file_content then inr true
               else scan_outcome rest
           end
      else scan_outcome rest
  end.

Definition comments_found (repo : Repository) : bool :=
  match get_contents repo "" with
  | inr (Listing items) =>
      match scan_outcome (firstn 5 items) with
      | inr b => b
      | inl _ => false
      end
  | _ => false
  end.

(* ------------------------------------------------------------------ *)
(** ** Every rule's fact is favorable *)

(** The facts the rules look for, rule by rule: every request a rule makes
    is answered, and the answer is the one that lets the rule pass.  Where a
    rule accepts one of several facts (a file under one of several names, a
    roadmap file or a milestone), one of them is enough. *)
Definition favorable_facts (repo : Repository) (owner : string) : Prop :=
  (exists readme text,
      get_readme repo = inr readme /\ cf_decoded readme = inr text /\
      PyStr.any_in ["goal"; "purpose"; "about"; "overview"; "description"]
        (PyStr.lower text) = true /\
      PyStr.any_in ["install"; "setup"; "getting started"; "quick start"]
        (PyStr.lower text) = true /\
      PyStr.any_in ["usage"; "example"; "how to use"; "tutorial"]
        (PyStr.lower text) = true) /\
  (exists lic, get_license repo = inr (Some lic)) /\
  String.eqb (PyStr.lower owner) "owasp" = true /\
  found repo "CONTRIBUTING.md" = true /\
  (exists d, updated_at repo = Some d) /\
  (exists c cs, get_commits repo = inr (c :: cs)) /\
  found repo "CODE_OF_CONDUCT.md" = true /\
  (exists n, get_milestones_totalCount repo = inr n /\
             (found repo "ROADMAP.md" || (0 <? n))%bool = true) /\
  (exists n, get_collaborators_totalCount repo = inr n /\ 0 < n) /\
  (has_wiki repo || found repo "docs")%bool = true /\
  (found repo "swagger.yaml"
   || (found repo "openapi.yaml" || found repo "api-docs"))%bool = true /\
  comments_found repo = true /\
  found repo "scripts/README.md" = true /\
  (found repo "FAQ.md" || found repo "TROUBLESHOOTING.md")%bool = true /\
  (exists releases tags,
      get_releases_totalCount repo = inr releases /\
      get_tags_totalCount repo = inr tags /\
      ((0 <? releases) || (0 <? tags))%bool = true) /\
  found repo "CHANGELOG.md" = true /\
  existsb (found repo) linter_files = true /\
  (exists items,
      get_contents repo "" = inr (Listing items) /\ 2 <= count_dirs items) /\
  found repo "SECURITY.md" = true /\
  found repo ".github/dependabot.yml" = true /\
  (found repo "tests" || found repo "test")%bool = true /\
  (found repo ".github/workflows"
   || (found repo ".gitlab-ci.yml"
       || (found repo ".travis.yml" || found repo "Jenkinsfile")))%bool
  = true /\
  has_discussions repo = true /\
  found repo "PRIVACY.md" = true.

(** All of them, and a last push within the year whose timestamp the code
    can compare: a naive one. *)
Definition favorable (repo : Repository) (owner : string) : Prop :=
  favorable_facts repo owner /\
  exists d,
    pushed_at repo = Some d /\ utcoffset d = None /\
    within_one_year d = true.

(** The same facts with a timezone-aware timestamp of the last push. *)
Definition favorable_but_aware (repo : Repository) (owner : string) : Prop :=
  favorable_facts repo owner /\
  exists d offset, pushed_at repo = Some d /\ utcoffset d = Some offset.

(* ------------------------------------------------------------------ *)
(** ** Sample collaborators *)

Module Sample.

(** The last push: a naive timestamp, as PyGithub 1 returns it, and the
    same instant as PyGithub 2 returns it. *)
Definition last_push : DateTime :=
  mkDateTime "2026-10-01" "2026-10-01 12:00:00" None true.

Definition last_push_aware : DateTime :=
  mkDateTime "2026-10-01" "2026-10-01 12:00:00" (Some "+00:00") true.

Definition as_dir (entry_name : string) : ContentFile :=
  mkContentFile "dir" entry_name
    (inl (PyException "AssertionError" "unsupported encoding: None")).

Definition as_file (entry_name content : string) : ContentFile :=
  mkContentFile "file" entry_name (inr content).

(** The root of the repository, in the order of its git tree. *)
Definition root_listing : list ContentFile :=
  [as_file ".editorconfig" "root = true";
   as_file ".eslintrc.js" "module.exports = { root: true }; // lint rules";
   as_dir ".github";
   as_file "CHANGELOG.md" "## 1.0.0";
   as_file "CODE_OF_CONDUCT.md" "Be kind.";
   as_file "CONTRIBUTING.md" "Open a pull request.";
   as_file "FAQ.md" "Q: ... A: ...";
   as_file "LICENSE" "MIT License";
   as_file "PRIVACY.md" "No data is collected.";
   as_file "README.md" "About this project. Installation. Usage examples.";
   as_file "SECURITY.md" "Report vulnerabilities by e-mail.";
   as_dir "docs";
   as_file "index.js" "exports.main = main;";
   as_file "openapi.yaml" "openapi: 3.0.0";
   as_file "package.json" "{}";
   as_dir "scripts";
   as_dir "src";
   as_dir "test"].

Definition not_found : exn := GithubException 404 "404 Not Found".

(** [get_contents]: the root, its entries and the paths below them that
    are listed in [nested]; every other path is answered 404. *)
Definition contents_of (listing : list ContentFile)
    (nested : list (string * Contents)) (filepath : string)
  : outcome Contents :=
  if String.eqb filepath "" then inr (Listing listing)
  else
    match find (fun entry => String.eqb (fst entry) filepath) nested with
    | Some entry => inr (snd entry)
    | None =>
        match find (fun item => String.eqb (cf_name item) filepath) listing
        with
        | Some item =>
            if String.eqb (cf_type item) "dir" then inr (Listing [])
            else inr (OneFile item)
        | None => inl not_found
        end
    end.

Definition below_root : list (string * Contents) :=
  [(".github/workflows", Listing [as_file "ci.yml" "on: push"]);
   (".github/dependabot.yml",
    OneFile (as_file "dependabot.yml" "version: 2"));
   ("scripts/README.md",
    OneFile (as_file "README.md" "release.sh cuts a release."))].

Definition repo_pushed (pushed : DateTime) : Repository :=
  mkRepository
    (inr (as_file "README.md"
            "About this project. Installation. Usage examples."))
    (inr (Some (mkLicense "MIT License")))
    (Some (mkLicense "MIT License"))
    (contents_of root_listing below_root)
    3 (Some pushed) (Some pushed) (inr ["4f2a91c"]) (inr 2) (inr 4) (inr 1)
    (inr 1) false true.

(** A repository in which every rule finds a fact it accepts: there is no
    ROADMAP.md but there are milestones, no wiki but a docs directory, the
    API description is openapi.yaml, the linter file .editorconfig and the
    tests are in test. *)
Definition favorable_repo : Repository := repo_pushed last_push.

(** The same repository as PyGithub 2 shows it. *)
Definition aware_repo : Repository := repo_pushed last_push_aware.

(** The client: one repository exists; a request for the name ["a/"] is
    answered 403 and every other request 404. *)
Definition client_of (repo : Repository) : Github :=
  mkGithub
    (fun full_name =>
       if String.eqb full_name "OWASP/BLT" then inr repo
       else if String.eqb full_name "a/"
            then inl (GithubException 403 "403 Forbidden")
            else inl not_found).

Definition client : Github := client_of favorable_repo.

Definition Github_new (token : option string) : Github := client.

(** [urlparse] on the URLs used below. *)
Definition urlparse (u : string) : outcome ParseResult :=
  if String.eqb u "https://github.com/OWASP/BLT"
  then inr (mkParseResult "github.com" "/OWASP/BLT")
  else if String.eqb u "https://github.com/a//b"
  then inr (mkParseResult "github.com" "/a//b")
  else if String.eqb u "https://GitHub.com/OWASP/missing"
  then inr (mkParseResult "GitHub.com" "/OWASP/missing")
  else if String.eqb u "https://www.github.com/OWASP/"
  then inr (mkParseResult "www.github.com" "/OWASP/")
  else if String.eqb u "https://owasp.example.org/"
  then inr (mkParseResult "owasp.example.org" "/")
  else if String.eqb u "https://example.org/"
  then inr (mkParseResult "example.org" "/")
  else inl (PyException "ValueError" "Invalid URL").

(** The text of the two pages used below. *)
Definition page_text (u : string) : outcome string :=
  if String.eqb u "https://owasp.example.org/"
  then inr "Welcome to the OWASP chapter page"
  else if String.eqb u "https://example.org/"
  then inr "Example Domain"
  else inl (PyException "ConnectionError" "Max retries exceeded").

Definition checker : Checker := __init__ Github_new None.

Definition run (repo_url : string) (self : Checker)
  : outcome Results * Checker :=
  check_compliance urlparse page_text repo_url self.

(** The reports of the sample runs, evaluated. *)
Definition report_of (r : outcome Results * Checker) : Results :=
  match fst r with
  | inr report => report
  | inl _ => mkResults "" 0 0 (PyInt 0) [] None None
  end.

Definition repository_report : Results :=
  Eval vm_compute in report_of (run "https://github.com/OWASP/BLT" checker).

(** The report of the same run when the timestamps are aware. *)
Definition aware_checker : Checker :=
  __init__ (fun _ => client_of aware_repo) None.

Definition aware_report : Results :=
  Eval vm_compute in
    report_of (run "https://github.com/OWASP/BLT" aware_checker).

Definition logging_category : Category :=
  Eval vm_compute in
    match Dict.get "Logging & Monitoring" (categories repository_report) with
    | Some v => v
    | None => mkCategory [] 0 0
    end.

Definition website_report : Results :=
  Eval vm_compute in report_of (run "https://owasp.example.org/" checker).

(** The checker after the run on the website, and what it returns when it is
    used again: for the same page, and for a repository that cannot be
    resolved. *)
Definition used_checker : Checker :=
  snd (run "https://owasp.example.org/" checker).

Definition second_website_report : Results :=
  Eval vm_compute in report_of (run "https://owasp.example.org/" used_checker).

Definition unresolved_after_use_report : Results :=
  Eval vm_compute in report_of (run "https://github.com/a//b" used_checker).

End Sample.

(* ================================================================== *)
(** * Vocabulary for the rest of the code *)

(** The keys of a dictionary, in order. *)
Definition keys {V} (d : Dict.t V) : list string := map fst d.

(** A call into the category [c], of weight 1. *)
Definition in_category (c : string) (a : CheckArgs) : Prop :=
  a_category a = c /\ a_points a = 1.

(** A computation all of whose calls go into the category [c]: when it
    returns it made [n] of them, awarding between [lo] and [hi] points. *)
Definition filled (md : mode) (c : string) (n : nat) (lo hi : Z) {A}
    (r : outcome A) (l : list CheckArgs) : Prop :=
  Forall (in_category c) l /\
  match r with
  | inr _ => length l = n /\ lo <= total_awarded l <= hi
  | inl _ =>
      match md with
      | Total => False
      | Atomic => l = []
      | Partial => True
      end
  end.

Definition fills (md : mode) (c : string) (n : nat) (lo hi : Z) {A}
    (m : M A) : Prop :=
  exists r l, writes m r l /\ filled md c n lo hi r l.

(** The category a sequence of calls into [c] builds from nothing. *)
Definition category_of (l : list CheckArgs) : Category :=
  mkCategory (map record_of l) (total_awarded l) (total_points l).

(** The catalog as its docstrings describe it: the name of each category and
    its number of points, with the least and the most the code can award in
    it. *)
Definition catalog_layout : list (string * nat * Z * Z) :=
  [("General Compliance & Governance", 10%nat, 0, 10);
   ("Documentation & Usability", 10%nat, 1, 10);
   ("Code Quality & Best Practices", 10%nat, 7, 10);
   ("Security & OWASP Compliance", 15%nat, 13, 15);
   ("CI/CD & DevSecOps", 10%nat, 5, 10);
   ("Testing & Validation", 10%nat, 3, 9);
   ("Performance & Scalability", 10%nat, 9, 9);
   ("Logging & Monitoring", 10%nat, 7, 7);
   ("Community & Support", 10%nat, 5, 10);
   ("Legal & Compliance", 5%nat, 1, 5)].

(** A category of the report matches a row of the layout. *)
Definition matches_row (kv : string * Category) (row : string * nat * Z * Z)
  : Prop :=
  let '(cname, n, lo, hi) := row in
  fst kv = cname /\
  length (checks (snd kv)) = n /\
  max_score (snd kv) = Z.of_nat n /\
  lo <= score (snd kv) <= hi.

(** The least and the most a list of layout rows can award. *)
Definition least_total (rows : list (string * nat * Z * Z)) : Z :=
  fold_right (fun row acc => let '(_, _, lo, _) := row in lo + acc) 0 rows.

Definition most_total (rows : list (string * nat * Z * Z)) : Z :=
  fold_right (fun row acc => let '(_, _, _, hi) := row in hi + acc) 0 rows.

(** The points of a list of pass/fail flags of weight 1. *)
Definition count_passed (flags : list bool) : Z :=
  fold_right (fun (p : bool) acc => (if p then 1 else 0) + acc) 0 flags.

(** The status line by integer score. *)
Definition band (s : Z) : string :=
  if 80 <=? s then "Status: EXCELLENT COMPLIANCE " ++ Render.check_mark
  else if 60 <=? s then "Status: GOOD COMPLIANCE"
  else if 40 <=? s then "Status: NEEDS IMPROVEMENT"
  else "Status: SIGNIFICANT IMPROVEMENTS NEEDED".

(** The three prints of [main] around the status: the rule after a blank
    line, the status, the rule. *)
Definition status_block (status : string) : list string :=
  [Render.nl ++ Render.repeat "=" 80; status; Render.repeat "=" 80].

(** The two prints of [main] before it calls [check_compliance]. *)
Definition progress_lines (url : string) : list string :=
  ["Checking compliance for: " ++ url; "This may take a moment..." ++ Render.nl].

Module Sample2.

(** [Sample.favorable_repo] with another [get_license] and another
    [get_contents]. *)
Definition repo_with (lic : outcome (option License))
    (contents : string -> outcome Contents) : Repository :=
  mkRepository (get_readme Sample.favorable_repo) lic
    (license Sample.favorable_repo) contents
    (open_issues_count Sample.favorable_repo)
    (updated_at Sample.favorable_repo) (pushed_at Sample.favorable_repo)
    (get_commits Sample.favorable_repo)
    (get_milestones_totalCount Sample.favorable_repo)
    (get_collaborators_totalCount Sample.favorable_repo)
    (get_releases_totalCount Sample.favorable_repo)
    (get_tags_totalCount Sample.favorable_repo)
    (has_wiki Sample.favorable_repo) (has_discussions Sample.favorable_repo).

Definition not_found : exn := GithubException 404 "404 Not Found".

Definition plain (file_name : string) : ContentFile :=
  mkContentFile "file" file_name (inr "").

Definition folder (dir_name : string) : ContentFile :=
  mkContentFile "dir" dir_name
    (inl (PyException "AssertionError" "unsupported encoding: none")).

(** A root whose source file comes sixth. *)
Definition late_source_listing : list ContentFile :=
  [plain "README.md"; plain "LICENSE"; folder ".github"; folder "docs";
   folder "assets"; mkContentFile "file" "main.py" (inr "# entry point")].

Definition late_source_repo : Repository :=
  repo_with (get_license Sample.favorable_repo)
    (fun p => if String.eqb p "" then inr (Listing late_source_listing)
              else inl not_found).

(** A root whose first source file is not valid UTF-8. *)
Definition undecodable_listing : list ContentFile :=
  [plain "README.md";
   mkContentFile "file" "blob.py"
     (inl (PyException "UnicodeDecodeError" "invalid start byte"));
   mkContentFile "file" "main.py" (inr "# entry point")].

Definition undecodable_repo : Repository :=
  repo_with (get_license Sample.favorable_repo)
    (fun p => if String.eqb p "" then inr (Listing undecodable_listing)
              else inl not_found).

(** A repository whose root is answered with a single file. *)
Definition single_file_repo : Repository :=
  repo_with (get_license Sample.favorable_repo)
    (fun p => inr (OneFile (plain p))).

(** A repository without a license: the request is answered 404. *)
Definition unlicensed_repo : Repository :=
  repo_with (inl not_found) (get_contents Sample.favorable_repo).

Definition unlicensed_client : Github :=
  mkGithub (fun _ => inr unlicensed_repo).

Definition unlicensed_checker : Checker :=
  __init__ (fun _ => unlicensed_client) None.

Definition unlicensed_report : Results :=
  Eval vm_compute in
    Sample.report_of
      (check_compliance Sample.urlparse Sample.page_text
         "https://github.com/OWASP/BLT" unlicensed_checker).

(** A repository that holds a license, a README and one source file. *)
Definition sparse_listing : list ContentFile :=
  [Sample.as_file "LICENSE" "MIT License";
   Sample.as_file "README.md"
     "About this project. Installation. Usage examples.";
   Sample.as_file "main.py" "print(1)"].

Definition sparse_repo : Repository :=
  repo_with (get_license Sample.favorable_repo)
    (Sample.contents_of sparse_listing []).

Definition sparse_checker : Checker :=
  __init__ (fun _ => Sample.client_of sparse_repo) None.

Definition sparse_report : Results :=
  Eval vm_compute in
    Sample.report_of
      (check_compliance Sample.urlparse Sample.page_text
         "https://github.com/OWASP/BLT" sparse_checker).

Definition sparse_general : Category :=
  Eval vm_compute in
    match Dict.get "General Compliance & Governance"
            (categories sparse_report) with
    | Some v => v
    | None => mkCategory [] 0 0
    end.

(** Its failed check for CONTRIBUTING.md. *)
Definition sparse_contributing : Check :=
  mkCheck "Contribution guidelines (CONTRIBUTING.md)" false 0 1
    "Checked for CONTRIBUTING.md file in repository root"
    "Create a CONTRIBUTING.md file that explains how others can contribute to your project. Include guidelines for submitting issues, pull requests, and code style standards.".

(** [Sample.urlparse] and two more URLs of the sample repository: a deep
    link into its tree, and its address with [www.] and a trailing slash. *)
Definition urlparse (u : string) : outcome ParseResult :=
  if String.eqb u "https://github.com/OWASP/BLT/tree/main/docs"
  then inr (mkParseResult "github.com" "/OWASP/BLT/tree/main/docs")
  else if String.eqb u "https://www.github.com/OWASP/BLT/"
  then inr (mkParseResult "www.github.com" "/OWASP/BLT/")
  else if String.eqb u "https://github.com:443/OWASP"
  then inr (mkParseResult "github.com:443" "/OWASP")
  else Sample.urlparse u.

(** [Sample.page_text] and the page of the organisation on GitHub. *)
Definition page_text (u : string) : outcome string :=
  if String.eqb u "https://github.com:443/OWASP"
  then inr "OWASP - GitHub. Terms Privacy Security Status"
  else Sample.page_text u.

(** The report for the address of the organisation with its port. *)
Definition with_port_report : Results :=
  Eval vm_compute in
    Sample.report_of
      (check_compliance urlparse page_text "https://github.com:443/OWASP"
         Sample.checker).

Definition float_str (f : float) : string := "<float>".
Definition json_dumps (r : Results) : string := "<json>".

End Sample2.

(* ================================================================== *)
(** * Dictionaries *)

Lemma Dict_get_set_same {V} (k : string) (v : V) (d : Dict.t V) :
  Dict.get k (Dict.set k v d) = Some v.
Proof.
  induction d as [|[k' v'] d IH]; simpl.
  - now rewrite String.eqb_refl.
  - destruct (String.eqb k k') eqn:E; simpl; rewrite E; auto.
Qed.

Lemma Dict_set_set {V} (k : string) (v1 v2 : V) (d : Dict.t V) :
  Dict.set k v2 (Dict.set k v1 d) = Dict.set k v2 d.
Proof.
  induction d as [|[k' v'] d IH]; simpl.
  - now rewrite String.eqb_refl.
  - destruct (String.eqb k k') eqn:E; simpl; rewrite E; congruence.
Qed.

Lemma Dict_set_Forall {V} (P : string * V -> Prop) (k : string) (v : V)
    (d : Dict.t V) :
  Forall P d -> (forall k', P (k', v)) -> Forall P (Dict.set k v d).
Proof.
  intros Hd Hv. induction Hd as [|[k' v'] d Hx Hd IH]; simpl.
  - constructor; auto.
  - destruct (String.eqb k k'); constructor; auto.
Qed.

Lemma Dict_get_In {V} (k : string) (v : V) (d : Dict.t V) :
  Dict.get k d = Some v -> In (k, v) d.
Proof.
  induction d as [|[k' v'] d IH]; simpl; [discriminate|].
  destruct (String.eqb k k') eqn:E.
  - apply String.eqb_eq in E. intros [= ->]. left. now subst.
  - intros H. right. auto.
Qed.

(* ================================================================== *)
(** * One call of [_add_check] *)

Lemma add_check_run (a : CheckArgs) (self : Checker) (rep : Results) :
  results self = Report rep ->
  add_check_of a self =
  (inr tt,
   mkChecker (github_token self) (github_client self)
     (Report (with_categories rep (add_to_categories a (categories rep))))
     (self_max_score self) (current_score self + awarded a)).
Proof.
  destruct a as [cat nm p pts dt fx]. destruct self as [tok cl res mx cur].
  simpl. intros ->.
  cbv [add_check_of _add_check add_to_categories add_to_category awarded
       record_of bind get_results set_category update_category
       add_current_score put_results with_results with_categories ret raise
       Dict.mem a_category a_name a_passed a_points a_details a_how_to_fix
       results categories github_token github_client self_max_score
       current_score url r_score r_max_score percentage error note negb].
  destruct (Dict.get cat _) as [v|] eqn:G; destruct p;
    cbv beta iota;
    repeat (rewrite ?G, ?Dict_get_set_same; cbv beta iota);
    cbv [checks score max_score app];
    rewrite ?Dict_set_set, ?Z.add_0_r; reflexivity.
Qed.

(* ================================================================== *)
(** * Sequences of [_add_check] calls *)

Lemma replay_run (l : list CheckArgs) :
  forall (self : Checker) (rep : Results),
    results self = Report rep ->
    replay l self =
    mkChecker (github_token self) (github_client self)
      (Report (with_categories rep (replay_categories l (categories rep))))
      (self_max_score self) (current_score self + total_awarded l).
Proof.
  induction l as [|a l IH]; intros self rep Hres.
  - destruct self, rep; simpl in *. subst. now rewrite Z.add_0_r.
  - unfold replay in *. simpl.
    rewrite (add_check_run a self rep Hres). simpl.
    erewrite IH by reflexivity. simpl.
    unfold with_categories; simpl. now rewrite Z.add_assoc.
Qed.

Lemma replay_results (l : list CheckArgs) (self : Checker) (rep : Results) :
  results self = Report rep ->
  results (replay l self) =
  Report (with_categories rep (replay_categories l (categories rep))).
Proof. intros H. now rewrite (replay_run l self rep H). Qed.

Lemma replay_app (l1 l2 : list CheckArgs) (self : Checker) :
  replay (l1 ++ l2) self = replay l2 (replay l1 self).
Proof. unfold replay. apply fold_left_app. Qed.

Lemma total_awarded_app (l1 l2 : list CheckArgs) :
  total_awarded (l1 ++ l2) = total_awarded l1 + total_awarded l2.
Proof.
  induction l1 as [|a l1 IH]; simpl; [reflexivity|].
  rewrite IH. lia.
Qed.

(** ** Rules for [writes] *)

Lemma writes_ret {A} (a : A) : writes (ret a) (inr a) [].
Proof. now intros self rep _. Qed.

Lemma writes_call {A} (x : outcome A) : writes (call x) x [].
Proof. now intros self rep _. Qed.

Lemma writes_add (c n : string) (p : bool) (pts : Z) (d f : string) :
  writes (_add_check c n p pts d f) (inr tt) [mkArgs c n p pts d f].
Proof.
  intros self rep H.
  change (_add_check c n p pts d f) with (add_check_of (mkArgs c n p pts d f)).
  unfold replay; simpl.
  now rewrite (add_check_run _ self rep H).
Qed.

Lemma writes_bind_ok {A B} (m : M A) (k : A -> M B) a l1 r l2 :
  writes m (inr a) l1 -> writes (k a) r l2 -> writes (bind m k) r (l1 ++ l2).
Proof.
  intros Hm Hk self rep H. unfold bind.
  rewrite (Hm self rep H), replay_app.
  exact (Hk _ _ (replay_results l1 self rep H)).
Qed.

Lemma writes_bind_exn {A B} (m : M A) (k : A -> M B) e l :
  writes m (inl e) l -> writes (bind m k) (inl e) l.
Proof. intros Hm self rep H. unfold bind. now rewrite (Hm self rep H). Qed.

Lemma writes_try_ok {A} (body : M A) (h : exn -> M A) a l :
  writes body (inr a) l -> writes (try_except body h) (inr a) l.
Proof. intros Hm self rep H. unfold try_except. now rewrite (Hm self rep H). Qed.

Lemma writes_try_exn {A} (body : M A) (h : exn -> M A) e l1 r l2 :
  writes body (inl e) l1 -> writes (h e) r l2 ->
  writes (try_except body h) r (l1 ++ l2).
Proof.
  intros Hm Hh self rep H. unfold try_except.
  rewrite (Hm self rep H), replay_app.
  exact (Hh _ _ (replay_results l1 self rep H)).
Qed.

(** ** Rules for [runs] *)

Lemma runs_ret {A} (a : A) : runs Total 0 0 (ret a).
Proof.
  exists (inr a), []. split; [apply writes_ret|].
  repeat split; simpl; [constructor|lia].
Qed.

Lemma runs_call {A} (x : outcome A) : runs Atomic 0 0 (call x).
Proof.
  exists x, []. split; [apply writes_call|].
  repeat split; simpl; [constructor|lia|]. destruct x; reflexivity.
Qed.

Lemma runs_add (c n : string) (p : bool) (d f : string) :
  runs Total 1 1 (_add_check c n p 1 d f).
Proof.
  eexists _, _. split; [apply writes_add|].
  repeat split; [repeat constructor|].
  unfold total_awarded, awarded; simpl. destruct p; lia.
Qed.

Lemma runs_add_false (c n : string) (d f : string) :
  runs Total 1 0 (_add_check c n false 1 d f).
Proof.
  eexists _, _. split; [apply writes_add|].
  repeat split; [repeat constructor|].
  unfold total_awarded, awarded; simpl. lia.
Qed.

Lemma runs_total_atomic {A} n k (m : M A) :
  runs Total n k m -> runs Atomic n k m.
Proof.
  intros (r & l & Hw & Hu & Hk & Hb). exists r, l. repeat split; auto.
  destruct r; [contradiction|assumption].
Qed.

Lemma runs_atomic_partial {A} n k (m : M A) :
  runs Atomic n k m -> runs Partial n k m.
Proof.
  intros (r & l & Hw & Hu & Hk & Hb). exists r, l. repeat split; auto.
  destruct r; [subst; simpl; lia|assumption].
Qed.

Lemma runs_bind_total {A B} n1 k1 n2 k2 (m : M A) (f : A -> M B) :
  runs Total n1 k1 m -> (forall a, runs Total n2 k2 (f a)) ->
  runs Total (n1 + n2) (k1 + k2) (bind m f).
Proof.
  intros (r & l & Hw & Hu & Hk & Hb) Hf. destruct r as [e|a]; [contradiction|].
  destruct (Hf a) as (r2 & l2 & Hw2 & Hu2 & Hk2 & Hb2).
  exists r2, (l ++ l2)%list. split; [eapply writes_bind_ok; eauto|].
  split; [apply Forall_app; auto|]. rewrite total_awarded_app.
  split; [lia|].
  destruct r2; [contradiction|]. rewrite length_app. lia.
Qed.

Lemma runs_bind_atomic {A B} n k (m : M A) (f : A -> M B) :
  0 <= k ->
  runs Atomic 0 0 m -> (forall a, runs Atomic n k (f a)) ->
  runs Atomic n k (bind m f).
Proof.
  intros Hk0 (r & l & Hw & Hu & Hk & Hb) Hf. destruct r as [e|a].
  - subst l. exists (inl e), []. split; [now apply writes_bind_exn|].
    repeat split; simpl; [constructor|lia].
  - destruct l; [|discriminate].
    destruct (Hf a) as (r2 & l2 & Hw2 & Hb2).
    exists r2, l2. split; [|assumption].
    exact (writes_bind_ok m f a [] r2 l2 Hw Hw2).
Qed.

Lemma runs_bind_partial {A B} n1 k1 n2 k2 (m : M A) (f : A -> M B) :
  0 <= k2 ->
  runs Partial n1 k1 m -> (forall a, runs Partial n2 k2 (f a)) ->
  runs Partial (n1 + n2) (k1 + k2) (bind m f).
Proof.
  intros Hk0 (r & l & Hw & Hu & Hk & Hb) Hf. destruct r as [e|a].
  - exists (inl e), l. split; [now apply writes_bind_exn|].
    repeat split; [assumption|lia|]. simpl in *. lia.
  - destruct (Hf a) as (r2 & l2 & Hw2 & Hu2 & Hk2 & Hb2).
    exists r2, (l ++ l2)%list. split; [eapply writes_bind_ok; eauto|].
    split; [apply Forall_app; auto|]. rewrite total_awarded_app.
    split; [lia|].
    destruct r2; rewrite length_app; simpl in *; lia.
Qed.

Lemma runs_try {A} n k (body : M A) (h : exn -> M A) :
  runs Atomic n k body -> (forall e, runs Total n k (h e)) ->
  runs Total n k (try_except body h).
Proof.
  intros (r & l & Hw & Hu & Hk & Hb) Hh. destruct r as [e|a].
  - subst l. destruct (Hh e) as (r2 & l2 & Hw2 & Hb2).
    exists r2, l2. split; [|assumption].
    exact (writes_try_exn body h e [] r2 l2 Hw Hw2).
  - exists (inr a), l. split; [now apply writes_try_ok|].
    repeat split; assumption.
Qed.

Lemma runs_le {A} md n n' k k' (m : M A) :
  runs md n k m -> n = n' -> k <= k' -> runs md n' k' m.
Proof.
  intros (r & l & Hw & Hu & Hk & Hb) <- Hle. exists r, l.
  repeat split; auto. lia.
Qed.

(** ** Symbolic execution of the catalog *)

Ltac runs_side :=
  first [ apply Z.le_refl | vm_compute; discriminate ].

Ltac run_total :=
  eapply runs_le;
  [ lazymatch goal with
    | |- runs Total _ _ (ret _) => apply runs_ret
    | |- runs Total _ _ (_add_check _ _ false _ _ _) => apply runs_add_false
    | |- runs Total _ _ (_add_check_d _ _ false _ _) => apply runs_add_false
    | |- runs Total _ _ (_add_check_n _ _ false _) => apply runs_add_false
    | |- runs Total _ _ (_add_check _ _ _ _ _ _) => apply runs_add
    | |- runs Total _ _ (_add_check_d _ _ _ _ _) => apply runs_add
    | |- runs Total _ _ (_add_check_n _ _ _ _) => apply runs_add
    | |- runs Total _ _ (try_except _ _) =>
        eapply runs_try; [run_atomic | intro; run_total]
    | |- runs Total _ _ (bind _ _) =>
        eapply runs_bind_total; [run_total | intro; run_total]
    | |- runs Total _ _ (if ?b then _ else _) => destruct b; run_total
    | |- runs Total _ _ (match ?x with _ => _ end) => destruct x; run_total
    | |- runs Total _ _ _ => solve [auto with runs]
    end
  | reflexivity | runs_side ]
with run_atomic :=
  eapply runs_le;
  [ lazymatch goal with
    | |- runs Atomic _ _ (call _) => apply runs_call
    | |- runs Atomic _ _ (bind (call _) _) =>
        eapply runs_bind_atomic;
        [ | apply runs_call | intro; run_atomic ]; [runs_side]
    | |- runs Atomic _ _ (if ?b then _ else _) => destruct b; run_atomic
    | |- runs Atomic _ _ _ =>
        first [ solve [auto with runs] | apply runs_total_atomic; run_total ]
    end
  | reflexivity | runs_side ].

Ltac run_partial :=
  eapply runs_le;
  [ lazymatch goal with
    | |- runs Partial _ _ (bind _ _) =>
        eapply runs_bind_partial;
        [ | run_partial | intro; run_partial ]; [runs_side]
    | |- runs Partial _ _ (if ?b then _ else _) => destruct b; run_partial
    | |- runs Partial _ _ (match ?x with _ => _ end) => destruct x; run_partial
    | |- runs Partial _ _ _ =>
        first [ solve [auto with runs] | apply runs_atomic_partial; run_atomic ]
    end
  | reflexivity | runs_side ].

Create HintDb runs.

Lemma runs_check_file_exists (repo : Repository) (filepath : string) :
  runs Total 0 0 (_check_file_exists repo filepath).
Proof. unfold _check_file_exists. run_total. Qed.

Lemma runs_check_directory_exists (repo : Repository) (dirpath : string) :
  runs Total 0 0 (_check_directory_exists repo dirpath).
Proof. unfold _check_directory_exists. run_total. Qed.

Lemma runs_scan_comments (items : list ContentFile) :
  runs Atomic 0 0 (scan_comments items).
Proof.
  induction items as [|item rest IH]; simpl.
  - run_atomic.
  - destruct (_ && _)%bool; [|exact IH].
    apply runs_bind_atomic; [lia|apply runs_call|].
    intros file_content. destruct (_ || _)%bool; [run_atomic|exact IH].
Qed.

#[local] Hint Resolve runs_check_file_exists runs_check_directory_exists
  runs_scan_comments : runs.

Lemma runs_check_code_comments (repo : Repository) :
  runs Total 0 0 (_check_code_comments repo).
Proof. unfold _check_code_comments. run_total. Qed.

Lemma runs_check_no_secrets (repo : Repository) :
  runs Total 0 0 (_check_no_secrets repo).
Proof. unfold _check_no_secrets. run_total. Qed.

Lemma runs_any_file_exists (repo : Repository) (files : list string) :
  runs Total 0 0 (any_file_exists repo files).
Proof.
  induction files as [|f rest IH]; simpl; [run_total|].
  apply (runs_bind_total 0 0 0 0); [auto with runs|].
  intros [|]; [run_total|exact IH].
Qed.

#[local] Hint Resolve runs_check_code_comments runs_check_no_secrets
  runs_any_file_exists : runs.

Lemma runs_general_compliance (repo : Repository) (owner : string) :
  runs Partial 10 10 (_check_general_compliance repo owner).
Proof. unfold _check_general_compliance, or_else; cbv zeta. run_partial. Qed.

Lemma runs_documentation (repo : Repository) :
  runs Partial 10 10 (_check_documentation repo).
Proof. unfold _check_documentation, or_else; cbv zeta. run_partial. Qed.

Lemma runs_code_quality (repo : Repository) :
  runs Total 10 10 (_check_code_quality repo).
Proof. unfold _check_code_quality; cbv zeta. run_total. Qed.

Lemma runs_security (repo : Repository) :
  runs Total 15 15 (_check_security repo).
Proof. unfold _check_security; cbv zeta. run_total. Qed.

Lemma runs_cicd (repo : Repository) : runs Total 10 10 (_check_cicd repo).
Proof. unfold _check_cicd, or_else; cbv zeta. run_total. Qed.

Lemma runs_testing (repo : Repository) : runs Total 10 9 (_check_testing repo).
Proof. unfold _check_testing, or_else; cbv zeta. run_total. Qed.

Lemma runs_performance (repo : Repository) :
  runs Total 10 9 (_check_performance repo).
Proof. unfold _check_performance; cbv zeta. run_total. Qed.

Lemma runs_logging (repo : Repository) : runs Total 10 7 (_check_logging repo).
Proof. unfold _check_logging; cbv zeta. run_total. Qed.

Lemma runs_community (repo : Repository) :
  runs Partial 10 10 (_check_community repo).
Proof. unfold _check_community; cbv zeta. run_partial. Qed.

Lemma runs_legal (repo : Repository) : runs Partial 5 5 (_check_legal repo).
Proof. unfold _check_legal; cbv zeta. run_partial. Qed.

#[local] Hint Resolve runs_general_compliance runs_documentation
  runs_code_quality runs_security runs_cicd runs_testing runs_performance
  runs_logging runs_community runs_legal : runs.

Lemma runs_catalog (repo : Repository) (owner : string) :
  runs Partial 100 95 (catalog repo owner).
Proof.
  unfold catalog. run_partial.
Qed.

(* ================================================================== *)
(** * What a sequence of calls does to the categories *)

Lemma add_to_categories_Forall (Q : Category -> Prop) (a : CheckArgs)
    (cats : Dict.t Category) :
  Q (mkCategory [] 0 0) ->
  (forall v, Q v -> Q (add_to_category a v)) ->
  Forall (fun kv => Q (snd kv)) cats ->
  Forall (fun kv => Q (snd kv)) (add_to_categories a cats).
Proof.
  intros Q0 Qadd Hcats. unfold add_to_categories.
  apply Dict_set_Forall; [assumption|]. intros k'. simpl. apply Qadd.
  destruct (Dict.get (a_category a) cats) as [v|] eqn:G; [|assumption].
  apply Dict_get_In in G.
  rewrite Forall_forall in Hcats. exact (Hcats _ G).
Qed.

Lemma replay_categories_Forall (Q : Category -> Prop) (R : CheckArgs -> Prop)
    (l : list CheckArgs) :
  Q (mkCategory [] 0 0) ->
  (forall a v, R a -> Q v -> Q (add_to_category a v)) ->
  Forall R l ->
  forall cats,
    Forall (fun kv => Q (snd kv)) cats ->
    Forall (fun kv => Q (snd kv)) (replay_categories l cats).
Proof.
  intros Q0 Qadd Hl. induction Hl as [|a l Ha Hl IH]; intros cats Hcats.
  - exact Hcats.
  - unfold replay_categories in *. simpl. apply IH.
    apply add_to_categories_Forall; auto.
Qed.

Lemma sum_passed_app (cs1 cs2 : list Check) :
  sum_passed (cs1 ++ cs2) = sum_passed cs1 + sum_passed cs2.
Proof.
  induction cs1 as [|k cs1 IH]; simpl; [reflexivity|]. rewrite IH. lia.
Qed.

Lemma sum_weights_app (cs1 cs2 : list Check) :
  sum_weights (cs1 ++ cs2) = sum_weights cs1 + sum_weights cs2.
Proof.
  induction cs1 as [|k cs1 IH]; simpl; [reflexivity|]. rewrite IH. lia.
Qed.

Lemma category_sums_add (a : CheckArgs) (v : Category) :
  category_sums v -> category_sums (add_to_category a v).
Proof.
  intros [Hs Hm]. unfold category_sums, add_to_category; simpl.
  rewrite sum_passed_app, sum_weights_app, Hs, Hm.
  unfold awarded; simpl. destruct (a_passed a); split; lia.
Qed.

Lemma check_ok_record (a : CheckArgs) : check_ok (record_of a).
Proof.
  unfold check_ok, record_of, awarded; simpl.
  destruct (a_passed a); simpl; split; intros; try discriminate; auto.
Qed.

Lemma checks_ok_add (a : CheckArgs) (v : Category) :
  Forall check_ok (checks v) -> Forall check_ok (checks (add_to_category a v)).
Proof.
  intros Hv. unfold add_to_category; simpl. apply Forall_app.
  split; [assumption|]. constructor; [apply check_ok_record|constructor].
Qed.

Lemma sum_scores_set (k : string) (v : Category) (d : Dict.t Category) :
  sum_scores (Dict.set k v d) =
  sum_scores d + score v -
  match Dict.get k d with Some o => score o | None => 0 end.
Proof.
  induction d as [|[k' v'] d IH]; simpl; [lia|].
  destruct (String.eqb k k'); simpl; [lia|]. rewrite IH. lia.
Qed.

Lemma sum_scores_replay (l : list CheckArgs) :
  forall cats,
    sum_scores (replay_categories l cats) = sum_scores cats + total_awarded l.
Proof.
  induction l as [|a l IH]; intros cats; simpl; [lia|].
  unfold replay_categories in *; simpl. rewrite IH.
  unfold add_to_categories. rewrite sum_scores_set.
  destruct (Dict.get (a_category a) cats); simpl; lia.
Qed.

Lemma sum_max_scores_set (k : string) (v : Category) (d : Dict.t Category) :
  sum_max_scores (Dict.set k v d) =
  sum_max_scores d + max_score v -
  match Dict.get k d with Some o => max_score o | None => 0 end.
Proof.
  induction d as [|[k' v'] d IH]; simpl; [lia|].
  destruct (String.eqb k k'); simpl; [lia|]. rewrite IH. lia.
Qed.

Lemma sum_max_scores_replay (l : list CheckArgs) :
  forall cats,
    sum_max_scores (replay_categories l cats) =
    sum_max_scores cats + total_points l.
Proof.
  induction l as [|a l IH]; intros cats; simpl; [lia|].
  unfold replay_categories in *; simpl. rewrite IH.
  unfold add_to_categories. rewrite sum_max_scores_set.
  destruct (Dict.get (a_category a) cats); simpl; lia.
Qed.

Lemma unit_weight_total_points (l : list CheckArgs) :
  Forall unit_weight l -> total_points l = Z.of_nat (length l).
Proof.
  induction 1 as [|a l Ha Hl IH]; [reflexivity|].
  cbn [total_points fold_right length]. fold (total_points l).
  rewrite IH, Ha. lia.
Qed.

Lemma total_awarded_bounds (l : list CheckArgs) :
  Forall (fun a => 0 <= a_points a) l -> 0 <= total_awarded l <= total_points l.
Proof.
  induction 1 as [|a l Ha Hl IH]; simpl; [lia|].
  unfold awarded. destruct (a_passed a); lia.
Qed.

(* ================================================================== *)
(** * The engine, one branch at a time *)

Lemma replay_ran (l : list CheckArgs) (self : Checker) (rep : Results) :
  results self = Report rep -> replay l self = ran l None None self rep.
Proof. intros H. now rewrite (replay_run l self rep H). Qed.

Lemma check_github_repo_unresolved (owner repo_name : string) (self : Checker)
    (rep : Results) (e : exn) :
  results self = Report rep ->
  get_repo (github_client self) (owner ++ "/" ++ repo_name) = inl e ->
  _check_github_repo owner repo_name self =
  (inr tt, ran [] (Some (github_repo_error e)) None self rep).
Proof.
  intros Hres Hrepo.
  unfold _check_github_repo, try_except. unfold bind at 1. unfold call.
  rewrite Hrepo. unfold set_error, with_results, ran, with_error.
  rewrite Hres. simpl. now rewrite Z.add_0_r.
Qed.

Lemma check_github_repo_catalog (owner repo_name : string) (self : Checker)
    (rep : Results) (repo : Repository) (r : outcome unit)
    (l : list CheckArgs) :
  results self = Report rep ->
  get_repo (github_client self) (owner ++ "/" ++ repo_name) = inr repo ->
  writes (catalog repo owner) r l ->
  _check_github_repo owner repo_name self =
  (inr tt, ran l (catalog_error r) None self rep).
Proof.
  intros Hres Hrepo Hw.
  unfold _check_github_repo, try_except. unfold bind at 1. unfold call.
  rewrite Hrepo. fold (catalog repo owner).
  rewrite (Hw self rep Hres), (replay_ran l self rep Hres).
  destruct r as [e|[]]; [|reflexivity].
  unfold set_error, with_results, ran, with_error; simpl. reflexivity.
Qed.

Lemma check_github_repo_resolved (owner repo_name : string) (self : Checker)
    (rep : Results) (repo : Repository) :
  results self = Report rep ->
  get_repo (github_client self) (owner ++ "/" ++ repo_name) = inr repo ->
  exists r l,
    writes (catalog repo owner) r l /\ bounded Partial 100 95 r l /\
    _check_github_repo owner repo_name self =
    (inr tt, ran l (catalog_error r) None self rep).
Proof.
  intros Hres Hrepo.
  destruct (runs_catalog repo owner) as (r & l & Hw & Hb).
  exists r, l. split; [assumption|]. split; [assumption|].
  now apply (check_github_repo_catalog owner repo_name self rep repo).
Qed.

Lemma check_website_fetched (page_text : string -> outcome string)
    (url : string) (self : Checker) (rep : Results) (text : string) :
  results self = Report rep ->
  page_text url = inr text ->
  _check_website_compliance page_text url self =
  (inr tt, ran (website_checks text) None (Some website_note) self rep).
Proof.
  intros Hres Htext.
  unfold _check_website_compliance, try_except. unfold bind at 1. unfold call.
  rewrite Htext. cbv zeta.
  unfold bind at 1. unfold _add_check_n at 1.
  rewrite (writes_add _ _ _ _ _ _ self rep Hres).
  pose proof (replay_results [mkArgs "Website Compliance" "Mentions OWASP"
                (PyStr.contains "owasp" (PyStr.lower text)) 5 "" ""]
                self rep Hres) as Hres1.
  unfold bind at 1. unfold _add_check_n at 1.
  rewrite (writes_add _ _ _ _ _ _ _ _ Hres1).
  rewrite <- replay_app. simpl app. fold (website_checks text).
  rewrite (replay_ran _ self rep Hres).
  reflexivity.
Qed.

Lemma check_website_failed (page_text : string -> outcome string)
    (url : string) (self : Checker) (rep : Results) (e : exn) :
  results self = Report rep ->
  page_text url = inl e ->
  _check_website_compliance page_text url self =
  (inr tt,
   ran [] (Some ("Failed to fetch website: " ++ exn_str e)) None self rep).
Proof.
  intros Hres Htext.
  unfold _check_website_compliance, try_except. unfold bind at 1. unfold call.
  rewrite Htext. unfold set_error, with_results, ran, with_error.
  rewrite Hres. simpl. now rewrite Z.add_0_r.
Qed.

(** [check_compliance] is: install the report, classify, run the branch,
    finalize. *)
Lemma check_compliance_finish (urlparse : string -> outcome ParseResult)
    (page_text : string -> outcome string) (repo_url : string)
    (self : Checker) (parsed_url : ParseResult) (l : list CheckArgs)
    (err nt : option string) :
  let self0 := with_results self (Report (init_results repo_url self)) in
  urlparse repo_url = inr parsed_url ->
  dispatch page_text repo_url parsed_url self0 =
  (inr tt, ran l err nt self0 (init_results repo_url self)) ->
  check_compliance urlparse page_text repo_url self =
  finished repo_url self l err nt.
Proof.
  intros self0 Hparse Hrun.
  unfold check_compliance. unfold bind at 1. unfold put_results at 1.
  unfold bind at 1. unfold call at 1. rewrite Hparse.
  cbv zeta. fold (dispatch page_text repo_url parsed_url).
  fold (init_results repo_url self). fold self0.
  unfold bind at 1. rewrite Hrun.
  unfold finished, final_report, final_checker, ran, init_results.
  unfold bind, set_score, set_percentage, get_results, put_results, call,
    with_results; simpl.
  destruct (percentage_of _ _); destruct err, nt; reflexivity.
Qed.

Lemma check_compliance_unparsed (urlparse : string -> outcome ParseResult)
    (page_text : string -> outcome string) (repo_url : string)
    (self : Checker) (e : exn) :
  urlparse repo_url = inl e ->
  check_compliance urlparse page_text repo_url self =
  (inl e, with_results self (Report (init_results repo_url self))).
Proof.
  intros Hparse.
  unfold check_compliance. unfold bind at 1. unfold put_results at 1.
  unfold bind at 1. unfold call at 1. now rewrite Hparse.
Qed.

Section Branches.

Variable urlparse : string -> outcome ParseResult.
Variable page_text : string -> outcome string.
Variables (repo_url : string) (self : Checker) (parsed_url : ParseResult).
Hypothesis Hparse : urlparse repo_url = inr parsed_url.

Let self0 := with_results self (Report (init_results repo_url self)).

Lemma check_compliance_website_fetched (text : string) :
  is_github_netloc (netloc parsed_url) = false ->
  page_text repo_url = inr text ->
  check_compliance urlparse page_text repo_url self =
  finished repo_url self (website_checks text) None (Some website_note).
Proof.
  intros Hhost Htext. apply (check_compliance_finish _ _ _ _ _ _ _ _ Hparse).
  unfold dispatch. rewrite Hhost.
  now apply check_website_fetched.
Qed.

Lemma check_compliance_website_failed (e : exn) :
  is_github_netloc (netloc parsed_url) = false ->
  page_text repo_url = inl e ->
  check_compliance urlparse page_text repo_url self =
  finished repo_url self []
    (Some ("Failed to fetch website: " ++ exn_str e)) None.
Proof.
  intros Hhost Htext. apply (check_compliance_finish _ _ _ _ _ _ _ _ Hparse).
  unfold dispatch. rewrite Hhost.
  now apply check_website_failed.
Qed.

Lemma check_compliance_short_path :
  is_github_netloc (netloc parsed_url) = true ->
  owner_and_repo_name (PyStr.split "/" (PyStr.strip "/" (path parsed_url)))
  = None ->
  check_compliance urlparse page_text repo_url self =
  finished repo_url self [] None None.
Proof.
  intros Hhost Hparts. apply (check_compliance_finish _ _ _ _ _ _ _ _ Hparse).
  unfold dispatch. rewrite Hhost, Hparts.
  unfold ret, ran, with_results, init_results; simpl.
  now rewrite Z.add_0_r.
Qed.

Lemma check_compliance_unresolved (owner repo_name : string) (e : exn) :
  is_github_netloc (netloc parsed_url) = true ->
  owner_and_repo_name (PyStr.split "/" (PyStr.strip "/" (path parsed_url)))
  = Some (owner, repo_name) ->
  get_repo (github_client self) (owner ++ "/" ++ repo_name) = inl e ->
  check_compliance urlparse page_text repo_url self =
  finished repo_url self [] (Some (github_repo_error e)) None.
Proof.
  intros Hhost Hparts Hrepo.
  apply (check_compliance_finish _ _ _ _ _ _ _ _ Hparse).
  unfold dispatch. rewrite Hhost, Hparts.
  now apply check_github_repo_unresolved.
Qed.

Lemma check_compliance_catalog (owner repo_name : string)
    (repo : Repository) (r : outcome unit) (l : list CheckArgs) :
  is_github_netloc (netloc parsed_url) = true ->
  owner_and_repo_name (PyStr.split "/" (PyStr.strip "/" (path parsed_url)))
  = Some (owner, repo_name) ->
  get_repo (github_client self) (owner ++ "/" ++ repo_name) = inr repo ->
  writes (catalog repo owner) r l ->
  check_compliance urlparse page_text repo_url self =
  finished repo_url self l (catalog_error r) None.
Proof.
  intros Hhost Hparts Hrepo Hw.
  apply (check_compliance_finish _ _ _ _ _ _ _ _ Hparse).
  unfold dispatch. rewrite Hhost, Hparts.
  now apply (check_github_repo_catalog owner repo_name self0 _ repo).
Qed.

Lemma check_compliance_resolved (owner repo_name : string)
    (repo : Repository) :
  is_github_netloc (netloc parsed_url) = true ->
  owner_and_repo_name (PyStr.split "/" (PyStr.strip "/" (path parsed_url)))
  = Some (owner, repo_name) ->
  get_repo (github_client self) (owner ++ "/" ++ repo_name) = inr repo ->
  exists r l,
    writes (catalog repo owner) r l /\ bounded Partial 100 95 r l /\
    check_compliance urlparse page_text repo_url self =
    finished repo_url self l (catalog_error r) None.
Proof.
  intros Hhost Hparts Hrepo.
  destruct (check_github_repo_resolved owner repo_name self0
              (init_results repo_url self) repo eq_refl Hrepo)
    as (r & l & Hw & Hb & Hrun).
  exists r, l. split; [assumption|]. split; [assumption|].
  apply (check_compliance_finish _ _ _ _ _ _ _ _ Hparse).
  unfold dispatch. rewrite Hhost, Hparts. exact Hrun.
Qed.

(** Every run that gets past [urlparse] is a sequence of calls with
    positive weights; on a repository target they weigh 1 each, are at
    most 100 and award at most 95. *)
Lemma check_compliance_shape :
  exists l err nt,
    check_compliance urlparse page_text repo_url self =
    finished repo_url self l err nt /\
    Forall (fun a => 0 < a_points a) l /\
    (is_github_netloc (netloc parsed_url) = true ->
     Forall unit_weight l /\ (length l <= 100)%nat /\ total_awarded l <= 95 /\
     (err = None -> l = [] \/ length l = 100%nat)).
Proof.
  destruct (is_github_netloc (netloc parsed_url)) eqn:Hhost.
  - destruct (owner_and_repo_name
                (PyStr.split "/" (PyStr.strip "/" (path parsed_url))))
      as [[owner repo_name]|] eqn:Hparts.
    + destruct (get_repo (github_client self) (owner ++ "/" ++ repo_name))
        as [e|repo] eqn:Hrepo.
      * exists [], (Some (github_repo_error e)), None.
        split; [now apply (check_compliance_unresolved owner repo_name)|].
        split; [constructor|]. intros _. simpl. repeat split; auto; lia.
      * destruct (check_compliance_resolved owner repo_name repo
                    Hhost Hparts Hrepo) as (r & l & Hw & (Hu & Hk & Hb) & Hrun).
        exists l, (catalog_error r), None. split; [assumption|].
        split.
        { eapply Forall_impl; [|exact Hu]. unfold unit_weight. intros; lia. }
        intros _. repeat split; auto.
        -- destruct r; simpl in Hb; lia.
        -- destruct r; simpl; [discriminate|]. intros _. now right.
    + exists [], None, None.
      split; [now apply check_compliance_short_path|].
      split; [constructor|]. intros _. simpl. repeat split; auto; lia.
  - destruct (page_text repo_url) as [e|text] eqn:Htext.
    + exists [], (Some ("Failed to fetch website: " ++ exn_str e)), None.
      split; [now apply check_compliance_website_failed|].
      split; [constructor|]. discriminate.
    + exists (website_checks text), None, (Some website_note).
      split; [now apply check_compliance_website_fetched|].
      split; [|discriminate].
      repeat constructor.
Qed.

End Branches.

Lemma finished_report (repo_url : string) (self : Checker)
    (l : list CheckArgs) (err nt : option string) (report : Results)
    (self' : Checker) :
  finished repo_url self l err nt = (inr report, self') ->
  exists p,
    percentage_of (current_score self + total_awarded l) (self_max_score self)
    = inr p /\
    report = final_report repo_url self l err nt (PyFloat p) /\
    self' = final_checker self l report.
Proof.
  unfold finished. destruct (percentage_of _ _) as [e|p]; [discriminate|].
  intros [= <- <-]. exists p. auto.
Qed.

Lemma category_invariant_add (a : CheckArgs) (v : Category) :
  0 <= a_points a -> category_invariant v ->
  category_invariant (add_to_category a v).
Proof.
  intros Ha (Hs & Hm & Hle).
  destruct (category_sums_add a v (conj Hs Hm)) as [Hs' Hm'].
  repeat split; [assumption|assumption|].
  unfold add_to_category, awarded; simpl. destruct (a_passed a); lia.
Qed.

Lemma category_invariant_empty : category_invariant (mkCategory [] 0 0).
Proof. repeat split; simpl; lia. Qed.

Lemma Forall_snd_In {V} (Q : V -> Prop) (d : Dict.t V) :
  Forall (fun kv => Q (snd kv)) d <-> (forall k v, In (k, v) d -> Q v).
Proof.
  rewrite Forall_forall. split.
  - intros H k v Hin. exact (H (k, v) Hin).
  - intros H [k v] Hin. exact (H k v Hin).
Qed.

(** On scores from 0 to 100 the percentage is the score itself, as a
    float. *)
Lemma percentage_of_score (s : Z) :
  0 <= s <= 100 -> percentage_of s 100 = inr (float_of_int s).
Proof.
  intros H.
  assert (exists n, s = Z.of_nat n /\ (n <= 100)%nat) as (n & -> & Hn).
  { exists (Z.to_nat s). lia. }
  clear H. do 101 (destruct n as [|n]; [vm_compute; reflexivity|]). lia.
Qed.

(* ================================================================== *)
(** * C1: the category invariant *)

(** C1. In every report [check_compliance] returns, each category's score
    is the sum of the weights of its passed checks, its max_score is the sum
    of the weights of all its checks, and score <= max_score.  Every
    [_add_check] call preserves the two equations, and preserves the whole
    invariant when its weight is not negative (the code only ever passes the
    weights 1 and 5). *)
Theorem category_score_invariant
    (urlparse : string -> outcome ParseResult)
    (page_text : string -> outcome string) (repo_url : string)
    (self : Checker) :
  (forall report self',
      check_compliance urlparse page_text repo_url self = (inr report, self') ->
      forall cname v,
        In (cname, v) (categories report) ->
        score v = sum_passed (checks v) /\
        max_score v = sum_weights (checks v) /\
        score v <= max_score v) /\
  (forall rep category name passed points details how_to_fix,
      results self = Report rep ->
      exists self' rep',
        _add_check category name passed points details how_to_fix self
        = (inr tt, self') /\
        results self' = Report rep' /\
        ((forall cname v, In (cname, v) (categories rep) -> category_sums v) ->
         (forall cname v, In (cname, v) (categories rep') -> category_sums v)) /\
        (0 <= points ->
         (forall cname v,
             In (cname, v) (categories rep) -> category_invariant v) ->
         (forall cname v,
             In (cname, v) (categories rep') -> category_invariant v))).
Proof.
  split.
  - intros report self' Hrun.
    destruct (urlparse repo_url) as [e|parsed_url] eqn:Hparse.
    { rewrite (check_compliance_unparsed _ _ _ _ e Hparse) in Hrun.
      discriminate. }
    destruct (check_compliance_shape urlparse page_text repo_url self
                parsed_url Hparse) as (l & err & nt & Heq & Hpos & _).
    rewrite Heq in Hrun.
    apply finished_report in Hrun. destruct Hrun as (p & _ & -> & _).
    unfold final_report; simpl.
    apply (Forall_snd_In category_invariant).
    apply (replay_categories_Forall category_invariant
             (fun a => 0 <= a_points a)).
    + apply category_invariant_empty.
    + intros a v Ha Hv. now apply category_invariant_add.
    + eapply Forall_impl; [|exact Hpos]. intros a Ha; simpl in Ha. lia.
    + constructor.
  - intros rep category name passed points details how_to_fix Hres.
    pose (a := mkArgs category name passed points details how_to_fix).
    eexists _, _. split; [exact (add_check_run a self rep Hres)|].
    split; [reflexivity|]. simpl. split.
    + intros H. apply (Forall_snd_In category_sums).
      apply add_to_categories_Forall.
      * split; reflexivity.
      * intros v. apply category_sums_add.
      * now apply (Forall_snd_In category_sums).
    + intros Hp H. apply (Forall_snd_In category_invariant).
      apply add_to_categories_Forall.
      * apply category_invariant_empty.
      * intros v. now apply category_invariant_add.
      * now apply (Forall_snd_In category_invariant).
Qed.

(** The invariant, read off the report of the sample repository for its
    Logging category, which passes 7 of its 10 checks. *)
Lemma category_score_invariant_witness :
  score Sample.logging_category = 7 /\
  max_score Sample.logging_category = 10 /\
  score Sample.logging_category = sum_passed (checks Sample.logging_category) /\
  max_score Sample.logging_category
  = sum_weights (checks Sample.logging_category) /\
  score Sample.logging_category <= max_score Sample.logging_category.
Proof.
  split; [reflexivity|]. split; [reflexivity|].
  refine (proj1 (category_score_invariant Sample.urlparse Sample.page_text
                   "https://github.com/OWASP/BLT" Sample.checker)
            Sample.repository_report
            (snd (Sample.run "https://github.com/OWASP/BLT" Sample.checker))
            _ "Logging & Monitoring" Sample.logging_category _).
  - vm_compute. reflexivity.
  - vm_compute. do 7 right. left. reflexivity.
Defined.

(* ================================================================== *)
(** * What the probes return *)

Lemma check_file_exists_run (repo : Repository) (filepath : string)
    (self : Checker) :
  _check_file_exists repo filepath self = (inr (found repo filepath), self).
Proof.
  unfold _check_file_exists, try_except, bind, call, ret, found.
  destruct (get_contents repo filepath); reflexivity.
Qed.

Lemma scan_comments_cons (item : ContentFile) (rest : list ContentFile) :
  scan_comments (item :: rest)
  = if is_source_file item
    then bind (call (cf_decoded item))
           (fun file_content =>
              if has_comment_marker file_content then ret true
              else scan_comments rest)
    else scan_comments rest.
Proof. reflexivity. Qed.

Lemma scan_comments_run (items : list ContentFile) (self : Checker) :
  scan_comments items self = (scan_outcome items, self).
Proof.
  induction items as [|item rest IH]; [reflexivity|].
  rewrite scan_comments_cons. simpl scan_outcome.
  destruct (is_source_file item); [|exact IH].
  unfold bind, call. destruct (cf_decoded item) as [e|file_content];
    [reflexivity|].
  destruct (has_comment_marker file_content); [reflexivity|exact IH].
Qed.

Lemma check_code_comments_run (repo : Repository) (self : Checker) :
  _check_code_comments repo self = (inr (comments_found repo), self).
Proof.
  unfold _check_code_comments, comments_found, try_except, bind, call.
  destruct (get_contents repo "") as [e|[f|items]]; try reflexivity.
  cbv beta iota delta [items_of]. rewrite scan_comments_run.
  destruct (scan_outcome (firstn 5 items)); reflexivity.
Qed.

Lemma any_file_exists_run (repo : Repository) (files : list string)
    (self : Checker) :
  any_file_exists repo files self = (inr (existsb (found repo) files), self).
Proof.
  induction files as [|f rest IH]; [reflexivity|].
  simpl. unfold bind. rewrite check_file_exists_run.
  destruct (found repo f); [reflexivity|exact IH].
Qed.

Lemma or_else_run (a b : M bool) (x y : bool) :
  (forall self, a self = (inr x, self)) ->
  (forall self, b self = (inr y, self)) ->
  forall self, or_else a b self = (inr (x || y)%bool, self).
Proof.
  intros Ha Hb self. unfold or_else, bind. rewrite Ha.
  destruct x; [reflexivity|apply Hb].
Qed.

(* ================================================================== *)
(** * C2: check records *)

Lemma all_checks_Forall (P : Check -> Prop) (cats : Dict.t Category) :
  Forall (fun kv => Forall P (checks (snd kv))) cats ->
  Forall P (all_checks cats).
Proof.
  induction 1 as [|kv cats Hkv Hcats IH]; simpl; [constructor|].
  apply Forall_app. split; assumption.
Qed.

(** ** Every call is one of the file *)

Lemma calls_ret P {A} (a : A) : calls_satisfy P (ret a).
Proof. exists (inr a), []. split; [apply writes_ret|constructor]. Qed.

Lemma calls_call P {A} (x : outcome A) : calls_satisfy P (call x).
Proof. exists x, []. split; [apply writes_call|constructor]. Qed.

Lemma calls_pure P {A} (m : M A) (a : A) :
  (forall self, m self = (inr a, self)) -> calls_satisfy P m.
Proof.
  intros H. exists (inr a), []. split; [|constructor].
  intros self rep _. apply H.
Qed.

Lemma calls_add (P : CheckArgs -> Prop) (c n : string) (p : bool) (pts : Z)
    (d f : string) :
  P (mkArgs c n p pts d f) -> calls_satisfy P (_add_check c n p pts d f).
Proof.
  intros H. exists (inr tt), [mkArgs c n p pts d f].
  split; [apply writes_add|]. constructor; [exact H|constructor].
Qed.

Lemma calls_bind P {A B} (m : M A) (f : A -> M B) :
  calls_satisfy P m -> (forall a, calls_satisfy P (f a)) ->
  calls_satisfy P (bind m f).
Proof.
  intros ([e|a] & l1 & Hw1 & H1) Hf.
  - exists (inl e), l1. split; [now apply writes_bind_exn|exact H1].
  - destruct (Hf a) as (r & l2 & Hw2 & H2).
    exists r, (l1 ++ l2)%list. split; [eapply writes_bind_ok; eauto|].
    apply Forall_app. split; assumption.
Qed.

Lemma calls_try P {A} (body : M A) (h : exn -> M A) :
  calls_satisfy P body -> (forall e, calls_satisfy P (h e)) ->
  calls_satisfy P (try_except body h).
Proof.
  intros ([e|a] & l1 & Hw1 & H1) Hh.
  - destruct (Hh e) as (r & l2 & Hw2 & H2).
    exists r, (l1 ++ l2)%list. split; [eapply writes_try_exn; eauto|].
    apply Forall_app. split; assumption.
  - exists (inr a), l1. split; [now apply writes_try_ok|exact H1].
Qed.

Lemma calls_or_else P (a b : M bool) :
  calls_satisfy P a -> calls_satisfy P b -> calls_satisfy P (or_else a b).
Proof.
  intros Ha Hb. unfold or_else. apply calls_bind; [exact Ha|].
  intros [|]; [apply calls_ret|exact Hb].
Qed.

Lemma declares_declared (a : CheckArgs) :
  declares (a_category a) (a_name a) (a_how_to_fix a) = true -> declared a.
Proof. exact (fun H => H). Qed.

Ltac run_calls :=
  cbv beta iota zeta;
  lazymatch goal with
  | |- calls_satisfy _ (ret _) => apply calls_ret
  | |- calls_satisfy _ (call _) => apply calls_call
  | |- calls_satisfy _ (_add_check _ _ _ _ _ _) =>
      apply calls_add; apply declares_declared;
      cbv beta iota delta [a_category a_name a_how_to_fix];
      vm_compute; reflexivity
  | |- calls_satisfy _ (_add_check_d _ _ _ _ _) =>
      apply calls_add; apply declares_declared;
      cbv beta iota delta [a_category a_name a_how_to_fix];
      vm_compute; reflexivity
  | |- calls_satisfy _ (_add_check_n _ _ _ _) =>
      apply calls_add; apply declares_declared;
      cbv beta iota delta [a_category a_name a_how_to_fix];
      vm_compute; reflexivity
  | |- calls_satisfy _ (_check_file_exists ?repo ?f) =>
      apply (calls_pure _ _ (found repo f)); intros self;
      apply check_file_exists_run
  | |- calls_satisfy _ (_check_directory_exists ?repo ?f) =>
      apply (calls_pure _ _ (found repo f)); intros self;
      exact (check_file_exists_run repo f self)
  | |- calls_satisfy _ (any_file_exists ?repo ?files) =>
      apply (calls_pure _ _ (existsb (found repo) files));
      apply any_file_exists_run
  | |- calls_satisfy _ (_check_code_comments ?repo) =>
      apply (calls_pure _ _ (comments_found repo));
      apply check_code_comments_run
  | |- calls_satisfy _ (_check_no_secrets _) =>
      apply (calls_pure _ _ true); intro; reflexivity
  | |- calls_satisfy _ (or_else _ _) =>
      apply calls_or_else; run_calls
  | |- calls_satisfy _ (try_except _ _) =>
      apply calls_try; [run_calls | intros ?; run_calls]
  | |- calls_satisfy _ (bind _ _) =>
      apply calls_bind; [run_calls | intros ?; run_calls]
  | |- calls_satisfy _ (match ?x with Some _ => _ | None => _ end) =>
      destruct x; run_calls
  end.

Lemma declared_catalog (repo : Repository) (owner : string) :
  calls_satisfy declared (catalog repo owner).
Proof.
  unfold catalog, _check_general_compliance, _check_documentation,
    _check_code_quality, _check_security, _check_cicd, _check_testing,
    _check_performance, _check_logging, _check_community, _check_legal.
  run_calls.
Qed.

Lemma declared_website (text : string) : Forall declared (website_checks text).
Proof. unfold website_checks. repeat constructor. Qed.

(** Every run that gets past [urlparse] is a sequence of calls of the
    file. *)
Lemma check_compliance_declared
    (urlparse : string -> outcome ParseResult)
    (page_text : string -> outcome string) (repo_url : string)
    (self : Checker) (parsed_url : ParseResult) :
  urlparse repo_url = inr parsed_url ->
  exists l err nt,
    check_compliance urlparse page_text repo_url self
    = finished repo_url self l err nt /\
    Forall declared l.
Proof.
  intros Hparse.
  destruct (is_github_netloc (netloc parsed_url)) eqn:Hhost.
  - destruct (owner_and_repo_name
                (PyStr.split "/" (PyStr.strip "/" (path parsed_url))))
      as [[owner repo_name]|] eqn:Hparts.
    + destruct (get_repo (github_client self) (owner ++ "/" ++ repo_name))
        as [e|repo] eqn:Hrepo.
      * exists [], (Some (github_repo_error e)), None.
        split; [|constructor].
        exact (check_compliance_unresolved urlparse page_text repo_url self
                 parsed_url Hparse owner repo_name e Hhost Hparts Hrepo).
      * destruct (declared_catalog repo owner) as (r & l & Hw & Hl).
        exists l, (catalog_error r), None. split; [|exact Hl].
        exact (check_compliance_catalog urlparse page_text repo_url self
                 parsed_url Hparse owner repo_name repo r l Hhost Hparts
                 Hrepo Hw).
    + exists [], None, None. split; [|constructor].
      exact (check_compliance_short_path urlparse page_text repo_url self
               parsed_url Hparse Hhost Hparts).
  - destruct (page_text repo_url) as [e|text] eqn:Htext.
    + exists [], (Some ("Failed to fetch website: " ++ exn_str e)), None.
      split; [|constructor].
      exact (check_compliance_website_failed urlparse page_text repo_url self
               parsed_url Hparse e Hhost Htext).
    + exists (website_checks text), None, (Some website_note).
      split; [|apply declared_website].
      exact (check_compliance_website_fetched urlparse page_text repo_url
               self parsed_url Hparse text Hhost Htext).
Qed.

(** ** From the calls to the records of the report *)

Lemma Dict_set_Forall_key {V} (P : string * V -> Prop) (k : string) (v : V)
    (d : Dict.t V) :
  Forall P d -> P (k, v) -> Forall P (Dict.set k v d).
Proof.
  intros Hd Hv. induction Hd as [|[k' v'] d Hx Hd IH]; simpl.
  - constructor; auto.
  - destruct (String.eqb k k') eqn:E; constructor; auto.
    apply String.eqb_eq in E. now subst k'.
Qed.

Lemma replay_categories_keyed (Q : string -> Check -> Prop)
    (l : list CheckArgs) :
  Forall (fun a => Q (a_category a) (record_of a)) l ->
  forall cats,
    Forall (fun kv => Forall (Q (fst kv)) (checks (snd kv))) cats ->
    Forall (fun kv => Forall (Q (fst kv)) (checks (snd kv)))
      (replay_categories l cats).
Proof.
  induction 1 as [|a l Ha Hl IH]; intros cats Hcats; [exact Hcats|].
  unfold replay_categories in *. simpl. apply IH.
  unfold add_to_categories. apply Dict_set_Forall_key; [exact Hcats|].
  simpl. apply Forall_app. split; [|constructor; [exact Ha|constructor]].
  destruct (Dict.get (a_category a) cats) as [v|] eqn:G; [|constructor].
  apply Dict_get_In in G. rewrite Forall_forall in Hcats.
  exact (Hcats _ G).
Qed.

Lemma check_as_amended_record (a : CheckArgs) :
  declared a -> check_as_amended (a_category a) (record_of a).
Proof.
  unfold declared, check_as_amended, record_of, awarded; simpl.
  intros Ha. destruct (a_passed a); simpl; split; intros H;
    try discriminate; auto.
Qed.

(** What one call appends, read off [_add_check] itself. *)
Lemma add_check_appends (self : Checker) (rep : Results)
    (category name : string) (passed : bool) (points : Z)
    (details how_to_fix : string) :
  results self = Report rep ->
  exists self' rep' v before,
    _add_check category name passed points details how_to_fix self
    = (inr tt, self') /\
    results self' = Report rep' /\
    Dict.get category (categories rep') = Some v /\
    checks v
    = (before
       ++ [mkCheck name passed (if passed then points else 0) points details
             (if passed then "" else how_to_fix)])%list.
Proof.
  intros Hres.
  pose (a := mkArgs category name passed points details how_to_fix).
  eexists _, _, _, _. split; [exact (add_check_run a self rep Hres)|].
  split; [reflexivity|]. unfold add_to_categories; simpl.
  split; [apply Dict_get_set_same|].
  simpl. unfold record_of, awarded; simpl. destruct passed; reflexivity.
Qed.

(** C2, as amended.  In every report, whatever the state of the checker: a
    failed check is awarded 0 points and carries the remediation text of an
    [_add_check] call of the file for its category and name - which is
    empty for the calls that pass none; a passed check is awarded its weight
    and carries no remediation text.  [_add_check] itself stores the text it
    is given exactly when the check failed.  Of the 107 calls of the file,
    60 pass a remediation text and 47 pass none. *)
Theorem check_record_points
    (urlparse : string -> outcome ParseResult)
    (page_text : string -> outcome string) (repo_url : string)
    (self : Checker) (report : Results) (self' : Checker) :
  check_compliance urlparse page_text repo_url self = (inr report, self') ->
  (forall c v k,
      In (c, v) (categories report) -> In k (checks v) ->
      (passed k = false ->
       points k = 0 /\ declares c (name k) (how_to_fix k) = true) /\
      (passed k = true -> points k = max_points k /\ how_to_fix k = "")) /\
  (forall checker rep category name passed points details how_to_fix,
      results checker = Report rep ->
      exists checker' rep' v before,
        _add_check category name passed points details how_to_fix checker
        = (inr tt, checker') /\
        results checker' = Report rep' /\
        Dict.get category (categories rep') = Some v /\
        checks v
        = (before
           ++ [mkCheck name passed (if passed then points else 0) points
                 details (if passed then "" else how_to_fix)])%list) /\
  length rule_calls = 107%nat /\
  length (filter (fun call => negb (String.eqb (snd call) "")) rule_calls)
  = 60%nat.
Proof.
  intros Hrun. split; [|split; [exact add_check_appends|split; reflexivity]].
  destruct (urlparse repo_url) as [e|parsed_url] eqn:Hparse.
  { rewrite (check_compliance_unparsed _ _ _ _ e Hparse) in Hrun.
    discriminate. }
  destruct (check_compliance_declared urlparse page_text repo_url self
              parsed_url Hparse) as (l & err & nt & Heq & Hl).
  rewrite Heq in Hrun.
  apply finished_report in Hrun. destruct Hrun as (p & _ & -> & _).
  unfold final_report; simpl.
  assert (Hall : Forall (fun kv => Forall (check_as_amended (fst kv))
                                     (checks (snd kv)))
                   (replay_categories l [])).
  { apply replay_categories_keyed; [|constructor].
    eapply Forall_impl; [|exact Hl].
    intros a Ha. now apply check_as_amended_record. }
  intros c v k Hcv Hk. rewrite Forall_forall in Hall.
  specialize (Hall _ Hcv). rewrite Forall_forall in Hall.
  exact (Hall _ Hk).
Qed.

Lemma check_record_points_witness :
  In Sample2.sparse_contributing (checks Sample2.sparse_general) /\
  points Sample2.sparse_contributing = 0 /\
  declares "General Compliance & Governance"
    (name Sample2.sparse_contributing)
    (how_to_fix Sample2.sparse_contributing) = true /\
  declares "General Compliance & Governance"
    (name Sample2.sparse_contributing) "" = false.
Proof.
  assert (Hk : In Sample2.sparse_contributing (checks Sample2.sparse_general)).
  { vm_compute. do 4 right. left. reflexivity. }
  split; [exact Hk|].
  refine (let H :=
            proj1 (check_record_points Sample.urlparse Sample.page_text
                     "https://github.com/OWASP/BLT" Sample2.sparse_checker
                     Sample2.sparse_report
                     (snd (check_compliance Sample.urlparse Sample.page_text
                             "https://github.com/OWASP/BLT"
                             Sample2.sparse_checker)) _)
              "General Compliance & Governance" Sample2.sparse_general
              Sample2.sparse_contributing _ Hk
          in _).
  - destruct (proj1 H eq_refl) as [Hpoints Hdeclared].
    split; [exact Hpoints|]. split; [exact Hdeclared|].
    vm_compute. reflexivity.
  Unshelve.
  + vm_compute. reflexivity.
  + vm_compute. left. reflexivity.
Defined.

(** C2 as the spec words it fails: in the report of the sample repository
    the check "Automated fuzz testing" failed and has no remediation text. *)
Lemma failed_check_without_remediation :
  In (mkCheck "Automated fuzz testing" false 0 1 "Advanced feature" "")
    (all_checks (categories Sample.repository_report)) /\
  Sample.run "https://github.com/OWASP/BLT" Sample.checker
  = (inr Sample.repository_report,
     snd (Sample.run "https://github.com/OWASP/BLT" Sample.checker)) /\
  ~ Forall check_as_specified (all_checks (categories Sample.repository_report)).
Proof.
  assert (Hin : In (mkCheck "Automated fuzz testing" false 0 1
                      "Advanced feature" "")
                  (all_checks (categories Sample.repository_report))).
  { vm_compute. do 60 right. left. reflexivity. }
  split; [exact Hin|]. split; [vm_compute; reflexivity|].
  intros Hall. rewrite Forall_forall in Hall.
  destruct (Hall _ Hin) as [Hfailed _].
  destruct (Hfailed eq_refl) as [_ Hfix]. now apply Hfix.
Qed.

(* ================================================================== *)
(** * C3: the repository report *)

(** ** Rules for [passes] *)

Lemma passes_ret {A} (a : A) : passes 0 0 (ret a) a.
Proof. exists []. split; [apply writes_ret|]. repeat split. constructor. Qed.

Lemma passes_call {A} (x : outcome A) (a : A) :
  x = inr a -> passes 0 0 (call x) a.
Proof.
  intros ->. exists []. split; [apply writes_call|]. repeat split. constructor.
Qed.

Lemma passes_pure {A} (m : M A) (a : A) :
  (forall self, m self = (inr a, self)) -> passes 0 0 m a.
Proof.
  intros H. exists []. split; [intros self rep _; apply H|].
  repeat split. constructor.
Qed.

Lemma passes_add (c n : string) (p : bool) (d f : string) :
  p = true -> passes 1 1 (_add_check c n p 1 d f) tt.
Proof.
  intros ->. eexists. split; [apply writes_add|].
  repeat split. constructor; [|constructor]. split; [reflexivity|now left].
Qed.

Lemma passes_add_quiet (c n : string) (d : string) :
  passes 1 0 (_add_check c n false 1 d "") tt.
Proof.
  eexists. split; [apply writes_add|].
  repeat split. constructor; [|constructor]. split; [reflexivity|now right].
Qed.

Lemma passes_bind {A B} n1 k1 n2 k2 (m : M A) (f : A -> M B) a b :
  passes n1 k1 m a -> passes n2 k2 (f a) b ->
  passes (n1 + n2) (k1 + k2) (bind m f) b.
Proof.
  intros (l1 & Hw1 & Hn1 & Hk1 & Hq1) (l2 & Hw2 & Hn2 & Hk2 & Hq2).
  exists (l1 ++ l2)%list. split; [eapply writes_bind_ok; eauto|].
  rewrite length_app, total_awarded_app.
  repeat split; [lia|lia|]. apply Forall_app. split; assumption.
Qed.

Lemma passes_try {A} n k (body : M A) (h : exn -> M A) a :
  passes n k body a -> passes n k (try_except body h) a.
Proof.
  intros (l & Hw & H). exists l. split; [now apply writes_try_ok|exact H].
Qed.

Lemma passes_eq {A} n n' k k' (m : M A) a :
  passes n k m a -> n = n' -> k = k' -> passes n' k' m a.
Proof. now intros H <- <-. Qed.

Lemma passes_found (repo : Repository) (filepath : string) :
  passes 0 0 (_check_file_exists repo filepath) (found repo filepath).
Proof. apply passes_pure. apply check_file_exists_run. Qed.

Lemma passes_directory_found (repo : Repository) (dirpath : string) :
  passes 0 0 (_check_directory_exists repo dirpath) (found repo dirpath).
Proof.
  apply passes_pure. intros self. exact (check_file_exists_run repo dirpath self).
Qed.

Lemma passes_any_found (repo : Repository) (files : list string) :
  passes 0 0 (any_file_exists repo files) (existsb (found repo) files).
Proof. apply passes_pure. apply any_file_exists_run. Qed.

Lemma passes_comments_found (repo : Repository) :
  passes 0 0 (_check_code_comments repo) (comments_found repo).
Proof. apply passes_pure. apply check_code_comments_run. Qed.

Lemma passes_or_else (a b : M bool) (x y : bool) :
  passes 0 0 a x -> passes 0 0 b y ->
  passes 0 0 (or_else a b) (x || y)%bool.
Proof.
  intros Ha Hb. unfold or_else.
  apply (passes_bind 0 0 0 0 _ _ x); [exact Ha|].
  destruct x; [apply passes_ret|exact Hb].
Qed.

(** ** Rules for [stops] *)

Lemma stops_call {A} (x : outcome A) (e : exn) :
  x = inl e -> stops 0 0 (call x) e.
Proof.
  intros ->. exists []. split; [apply writes_call|]. repeat split. constructor.
Qed.

Lemma stops_bind_l {A B} n k (m : M A) (f : A -> M B) e :
  stops n k m e -> stops n k (bind m f) e.
Proof.
  intros (l & Hw & H). exists l. split; [now apply writes_bind_exn|exact H].
Qed.

Lemma stops_bind_r {A B} n1 k1 n2 k2 (m : M A) (f : A -> M B) a e :
  passes n1 k1 m a -> stops n2 k2 (f a) e ->
  stops (n1 + n2) (k1 + k2) (bind m f) e.
Proof.
  intros (l1 & Hw1 & Hn1 & Hk1 & Hq1) (l2 & Hw2 & Hn2 & Hk2 & Hq2).
  exists (l1 ++ l2)%list. split; [eapply writes_bind_ok; eauto|].
  rewrite length_app, total_awarded_app.
  repeat split; [lia|lia|]. apply Forall_app. split; assumption.
Qed.

Lemma stops_eq {A} n n' k k' (m : M A) e :
  stops n k m e -> n = n' -> k = k' -> stops n' k' m e.
Proof. now intros H <- <-. Qed.

Lemma orb_true_weaken (a b c : bool) :
  (a || b)%bool = true -> (a || (b || c))%bool = true.
Proof. destruct a, b; simpl; congruence. Qed.

Ltac solve_true :=
  first [ reflexivity | eassumption
        | apply Z.ltb_lt; assumption | apply Z.leb_le; assumption
        | apply orb_true_weaken; eassumption ].

Ltac run_passes :=
  cbv beta iota;
  repeat match goal with
         | H : 0 < ?n |- context [0 <? ?n] =>
             rewrite (proj2 (Z.ltb_lt 0 n) H); cbv beta iota
         end;
  eapply passes_eq;
  [ lazymatch goal with
    | |- passes _ _ (ret _) _ => apply passes_ret
    | |- passes _ _ (call _) _ => apply passes_call; eassumption
    | |- passes _ _ (_add_check _ _ false _ _ _) _ => apply passes_add_quiet
    | |- passes _ _ (_add_check_d _ _ false _ _) _ => apply passes_add_quiet
    | |- passes _ _ (_add_check_n _ _ false _) _ => apply passes_add_quiet
    | |- passes _ _ (_add_check _ _ _ _ _ _) _ =>
        apply passes_add; solve_true
    | |- passes _ _ (_add_check_d _ _ _ _ _) _ =>
        apply passes_add; solve_true
    | |- passes _ _ (_add_check_n _ _ _ _) _ =>
        apply passes_add; solve_true
    | |- passes _ _ (_check_file_exists _ _) _ => apply passes_found
    | |- passes _ _ (_check_directory_exists _ _) _ =>
        apply passes_directory_found
    | |- passes _ _ (any_file_exists _ _) _ => apply passes_any_found
    | |- passes _ _ (_check_code_comments _) _ => apply passes_comments_found
    | |- passes _ _ (_check_no_secrets _) _ =>
        apply passes_pure; intro; reflexivity
    | |- passes _ _ (or_else _ _) _ =>
        apply passes_or_else; [run_passes | run_passes]
    | |- passes _ _ (try_except _ _) _ => apply passes_try; run_passes
    | |- passes _ _ (bind _ _) _ =>
        eapply passes_bind; [run_passes | run_passes]
    end
  | reflexivity | reflexivity ].

Ltac run_stops :=
  cbv beta iota;
  eapply stops_eq;
  [ lazymatch goal with
    | |- stops _ _ (call _) _ => apply stops_call; eassumption
    | |- stops _ _ (bind _ _) _ =>
        first [ eapply stops_bind_r; [solve [run_passes] | run_stops]
              | apply stops_bind_l; run_stops ]
    end
  | reflexivity | reflexivity ].

(** The facts of [favorable_facts], named, and the catalog unfolded into
    its calls. *)
Ltac open_facts Hfacts :=
  destruct Hfacts as ((?readme & ?text & ?Hreadme & ?Hdecoded & ?Hgoal
                       & ?Hinstall & ?Husage)
                      & (?lic & ?Hlic) & ?Howner & ?Hcontributing
                      & (?updated & ?Hupdated) & (?c & ?cs & ?Hcommits)
                      & ?Hcoc
                      & (?milestones & ?Hmilestones & ?Hroadmap)
                      & (?collaborators & ?Hcollaborators & ?Hcollab_pos)
                      & ?Hdocs & ?Hapi & ?Hcomments & ?Hscripts & ?Hfaq
                      & (?releases & ?tags & ?Hreleases & ?Htags
                         & ?Hversions)
                      & ?Hchangelog & ?Hlinter
                      & (?items & ?Hroot & ?Hdirs)
                      & ?Hsecurity & ?Hdependabot & ?Htests & ?Hci
                      & ?Hdiscussions & ?Hprivacy);
  assert (Hitems : items_of (Listing items) = inr items) by reflexivity;
  unfold catalog, _check_general_compliance, _check_documentation,
    _check_code_quality, _check_security, _check_cicd, _check_testing,
    _check_performance, _check_logging, _check_community, _check_legal;
  cbv zeta;
  rewrite ?Hupdated, ?Hdiscussions.

Lemma passes_catalog (repo : Repository) (owner : string) :
  favorable repo owner -> passes 100 95 (catalog repo owner) tt.
Proof.
  intros (Hfacts & pushed & Hpushed & Hnaive & Hwithin).
  assert (Hrecent : after_one_year_ago pushed = inr true).
  { unfold after_one_year_ago. now rewrite Hnaive, Hwithin. }
  open_facts Hfacts. rewrite ?Hpushed.
  run_passes.
Qed.

Lemma stops_catalog (repo : Repository) (owner : string) :
  favorable_but_aware repo owner ->
  stops 90 85 (catalog repo owner)
    (PyException "TypeError"
       "can't compare offset-naive and offset-aware datetimes").
Proof.
  intros (Hfacts & pushed & offset & Hpushed & Haware).
  assert (Hraised : after_one_year_ago pushed
                    = inl (PyException "TypeError"
                             "can't compare offset-naive and offset-aware datetimes")).
  { unfold after_one_year_ago. now rewrite Haware. }
  open_facts Hfacts. rewrite ?Hpushed.
  run_stops.
Qed.

Lemma quiet_record (a : CheckArgs) : quiet a -> how_to_fix (record_of a) = "".
Proof.
  intros [_ [Hp|Hf]]; unfold record_of; simpl.
  - now rewrite Hp.
  - rewrite Hf. now destruct (a_passed a).
Qed.

Lemma quiet_unit_weight (l : list CheckArgs) :
  Forall quiet l -> Forall unit_weight l.
Proof. apply Forall_impl. now intros a [H _]. Qed.

Lemma replay_categories_quiet (l : list CheckArgs) :
  Forall quiet l ->
  forall k, In k (all_checks (replay_categories l [])) -> how_to_fix k = "".
Proof.
  intros Hq. apply Forall_forall. apply all_checks_Forall.
  apply (replay_categories_Forall
           (fun v => Forall (fun k => how_to_fix k = "") (checks v)) quiet).
  - constructor.
  - intros a v Ha Hv. unfold add_to_category; simpl. apply Forall_app.
    split; [assumption|]. constructor; [now apply quiet_record|constructor].
  - exact Hq.
  - constructor.
Qed.

Lemma sample_facts (pushed : DateTime) :
  favorable_facts (Sample.repo_pushed pushed) "OWASP".
Proof.
  unfold favorable_facts.
  repeat match goal with
         | |- _ /\ _ => split
         | |- exists _, _ => eexists
         | |- _ = _ => vm_compute; reflexivity
         | |- _ < _ => reflexivity
         | |- _ <= _ => vm_compute; discriminate
         end.
Qed.

Lemma sample_repo_favorable : favorable Sample.favorable_repo "OWASP".
Proof.
  split; [apply sample_facts|]. eexists. repeat split.
Qed.

Lemma sample_repo_aware : favorable_but_aware Sample.aware_repo "OWASP".
Proof.
  split; [apply sample_facts|]. eexists _, _. split; reflexivity.
Qed.

(** C3, as amended.  A newly constructed checker returns, for every
    repository target, a report with 0 <= score <= max_score and max_score
    = 100; the weights of the whole catalog sum to exactly 100.  Five rules
    fail whatever the repository holds, so score <= 95: when every rule's
    underlying fact is favorable ([favorable]: each rule finds one of the
    facts it accepts, and the timestamp of the last push is one the code can
    compare with [datetime.now()], a naive one) the score is 95 and the
    percentage 95.0, with no remediation text anywhere in the report. *)
Theorem repository_report_score
    (urlparse : string -> outcome ParseResult)
    (page_text : string -> outcome string)
    (Github_new : option string -> Github) (github_token : option string)
    (repo_url : string) (parsed_url : ParseResult) :
  urlparse repo_url = inr parsed_url ->
  is_github_netloc (netloc parsed_url) = true ->
  exists report self',
    check_compliance urlparse page_text repo_url
      (__init__ Github_new github_token) = (inr report, self') /\
    0 <= r_score report <= r_max_score report /\
    r_score report <= 95 /\
    r_max_score report = 100 /\
    (error report = None ->
     categories report = [] \/ sum_max_scores (categories report) = 100) /\
    (forall owner repo_name repo,
        owner_and_repo_name
          (PyStr.split "/" (PyStr.strip "/" (path parsed_url)))
        = Some (owner, repo_name) ->
        get_repo (github_client (__init__ Github_new github_token))
          (owner ++ "/" ++ repo_name) = inr repo ->
        favorable repo owner ->
        r_score report = 95 /\
        percentage report = PyFloat 95%float /\
        error report = None /\
        sum_max_scores (categories report) = 100 /\
        forall k, In k (all_checks (categories report)) -> how_to_fix k = "").
Proof.
  intros Hparse Hhost.
  set (self := __init__ Github_new github_token).
  destruct (check_compliance_shape urlparse page_text repo_url self
              parsed_url Hparse)
    as (l & err & nt & Heq & Hpos & Hrepo).
  destruct (Hrepo Hhost) as (Hunit & Hlen & Hawarded & Hdone).
  assert (Hbounds : 0 <= total_awarded l <= total_points l).
  { apply total_awarded_bounds. eapply Forall_impl; [|exact Hpos].
    intros a Ha; simpl in Ha. lia. }
  assert (Hrun : check_compliance urlparse page_text repo_url self
                 = (inr (final_report repo_url self l err nt
                           (PyFloat (float_of_int (total_awarded l)))),
                    final_checker self l
                      (final_report repo_url self l err nt
                         (PyFloat (float_of_int (total_awarded l)))))).
  { rewrite Heq. unfold finished.
    change (current_score self) with 0. change (self_max_score self) with 100.
    rewrite Z.add_0_l, percentage_of_score by lia.
    unfold final_report. change (current_score self) with 0.
    now rewrite Z.add_0_l. }
  remember (final_report repo_url self l err nt
              (PyFloat (float_of_int (total_awarded l)))) as report
    eqn:Hreport0.
  exists report, (final_checker self l report). split; [exact Hrun|].
  split; [subst report; simpl; lia|].
  split; [subst report; simpl; lia|].
  split; [subst report; reflexivity|]. split.
  - subst report; simpl.
    intros Herr. destruct (Hdone Herr) as [->|Hfull]; [now left|right].
    rewrite sum_max_scores_replay, (unit_weight_total_points l Hunit), Hfull.
    reflexivity.
  - clear Hreport0. intros owner repo_name repo Hparts Hresolved Hfav.
    destruct (passes_catalog repo owner Hfav) as (l' & Hw & Hn & Hk & Hq).
    pose proof (check_compliance_catalog urlparse page_text repo_url self
                  parsed_url Hparse owner repo_name repo (inr tt) l'
                  Hhost Hparts Hresolved Hw) as Heq'.
    rewrite Hrun in Heq'. symmetry in Heq'.
    apply finished_report in Heq'. destruct Heq' as (p & Hp & Hreport & _).
    change (current_score self) with 0 in Hp.
    change (self_max_score self) with 100 in Hp.
    rewrite Hk in Hp. vm_compute in Hp. injection Hp as <-.
    rewrite Hreport. unfold final_report; simpl.
    rewrite Hk. repeat split.
    + rewrite sum_max_scores_replay,
        (unit_weight_total_points l' (quiet_unit_weight l' Hq)), Hn.
      reflexivity.
    + now apply replay_categories_quiet.
Qed.

Lemma repository_report_score_witness :
  exists report self',
    Sample.run "https://github.com/OWASP/BLT" Sample.checker
    = (inr report, self') /\
    0 <= r_score report <= r_max_score report /\
    r_score report = 95 /\
    r_max_score report = 100 /\
    percentage report = PyFloat 95%float /\
    forall k, In k (all_checks (categories report)) -> how_to_fix k = "".
Proof.
  destruct (repository_report_score Sample.urlparse Sample.page_text
              Sample.Github_new None "https://github.com/OWASP/BLT"
              (mkParseResult "github.com" "/OWASP/BLT") eq_refl eq_refl)
    as (report & self' & Hrun & Hbounds & _ & Hmax & _ & Hfav).
  destruct (Hfav "OWASP" "BLT" Sample.favorable_repo eq_refl eq_refl
              sample_repo_favorable) as (Hscore & Hpct & _ & _ & Hquiet).
  exists report, self'. repeat split; auto; lia.
Defined.

(** C3 as the spec words it fails.  Every rule of the sample repository
    finds a fact it accepts.  With the naive timestamps of PyGithub 1
    the report has score 95, not max_score = 100, and percentage 95.0;
    with the aware timestamps of PyGithub 2 the comparison with
    [datetime.now()] raises [TypeError] in the ninth category, and the
    report has score 85 and an ["error"]. *)
Lemma favorable_repository_scores_95 :
  favorable Sample.favorable_repo "OWASP" /\
  Sample.run "https://github.com/OWASP/BLT" Sample.checker
  = (inr Sample.repository_report,
     snd (Sample.run "https://github.com/OWASP/BLT" Sample.checker)) /\
  r_score Sample.repository_report = 95 /\
  r_max_score Sample.repository_report = 100 /\
  r_score Sample.repository_report <> r_max_score Sample.repository_report /\
  percentage Sample.repository_report = PyFloat 95%float /\
  percentage Sample.repository_report <> PyFloat 100%float /\
  favorable_but_aware Sample.aware_repo "OWASP" /\
  Sample.run "https://github.com/OWASP/BLT" Sample.aware_checker
  = (inr Sample.aware_report,
     snd (Sample.run "https://github.com/OWASP/BLT" Sample.aware_checker)) /\
  r_score Sample.aware_report = 85 /\
  r_max_score Sample.aware_report = 100 /\
  percentage Sample.aware_report = PyFloat 85%float /\
  error Sample.aware_report
  = Some "Unexpected error: TypeError: can't compare offset-naive and offset-aware datetimes".
Proof.
  split; [exact sample_repo_favorable|].
  split; [vm_compute; reflexivity|].
  split; [reflexivity|]. split; [reflexivity|]. split; [discriminate|].
  split; [reflexivity|].
  split.
  { intros H.
    apply (f_equal (fun n => match n with
                             | PyFloat f => PrimFloat.eqb f 100%float
                             | PyInt _ => false
                             end)) in H.
    vm_compute in H. discriminate. }
  split; [exact sample_repo_aware|].
  split; [vm_compute; reflexivity|].
  repeat split.
Qed.

(* ================================================================== *)
(** * C4: the final score and percentage *)

(** The final score is the running total [self.current_score], which is the
    total at entry plus the sum of the category scores; the percentage is
    [round(score / max_score * 100, 2)]. *)
Lemma check_compliance_total
    (urlparse : string -> outcome ParseResult)
    (page_text : string -> outcome string) (repo_url : string)
    (self : Checker) (report : Results) (self' : Checker) :
  check_compliance urlparse page_text repo_url self = (inr report, self') ->
  r_score report = current_score self' /\
  r_score report = current_score self + sum_scores (categories report) /\
  r_max_score report = self_max_score self /\
  exists p,
    percentage_of (r_score report) (r_max_score report) = inr p /\
    percentage report = PyFloat p.
Proof.
  intros Hrun.
  destruct (urlparse repo_url) as [e|parsed_url] eqn:Hparse.
  { rewrite (check_compliance_unparsed _ _ _ _ e Hparse) in Hrun.
    discriminate. }
  destruct (check_compliance_shape urlparse page_text repo_url self
              parsed_url Hparse) as (l & err & nt & Heq & _ & _).
  rewrite Heq in Hrun.
  apply finished_report in Hrun. destruct Hrun as (p & Hp & -> & ->).
  unfold final_report, final_checker; simpl.
  rewrite sum_scores_replay. simpl.
  repeat split; try reflexivity. exists p. split; [exact Hp|reflexivity].
Qed.

(** C4.  What the code does, for every state of the checker: the score of
    the report is the running total [self.current_score], which is the
    total at entry plus the sum of the category scores of this run, however
    few categories ran; max_score is [self.max_score], which [__init__] sets
    to 100 and nothing changes; the percentage is
    [round(score / max_score * 100, 2)], which is exactly 33.0 for score 33.
    The score is the sum of the category scores, as the claim has it, while
    the total at entry is 0; a checker that is used again enters with the
    total of its earlier runs, which [check_compliance] never resets. *)
Theorem final_score_and_percentage
    (urlparse : string -> outcome ParseResult)
    (page_text : string -> outcome string) (repo_url : string)
    (self : Checker) (report : Results) (self' : Checker) :
  check_compliance urlparse page_text repo_url self = (inr report, self') ->
  r_score report = current_score self' /\
  r_score report = current_score self + sum_scores (categories report) /\
  (current_score self = 0 ->
   r_score report = sum_scores (categories report)) /\
  r_max_score report = self_max_score self /\
  self_max_score self' = self_max_score self /\
  (forall Github_new github_token,
      self_max_score (__init__ Github_new github_token) = 100) /\
  (exists p,
      percentage_of (r_score report) (r_max_score report) = inr p /\
      percentage report = PyFloat p) /\
  percentage_of 33 100 = inr 33%float.
Proof.
  intros Hrun.
  destruct (check_compliance_total _ _ _ _ _ _ Hrun)
    as (Htotal & Hsum & Hmax & p & Hp & Hpct).
  split; [exact Htotal|]. split; [exact Hsum|].
  split; [intros H0; rewrite Hsum, H0; reflexivity|].
  split; [exact Hmax|]. split.
  { destruct (urlparse repo_url) as [e|parsed_url] eqn:Hparse.
    { rewrite (check_compliance_unparsed _ _ _ _ e Hparse) in Hrun.
      discriminate. }
    destruct (check_compliance_shape urlparse page_text repo_url self
                parsed_url Hparse) as (l & err & nt & Heq & _ & _).
    rewrite Heq in Hrun. apply finished_report in Hrun.
    destruct Hrun as (q & _ & _ & ->). reflexivity. }
  split; [reflexivity|]. split; [exists p; auto|reflexivity].
Qed.

(** The failing input of C4: the report of the second run on one checker has
    score 10, the total of both runs, while its category scores sum to 5. *)
Lemma final_score_and_percentage_witness :
  current_score Sample.used_checker = 5 /\
  r_score Sample.second_website_report = 10 /\
  sum_scores (categories Sample.second_website_report) = 5 /\
  r_score Sample.second_website_report
  = current_score Sample.used_checker
    + sum_scores (categories Sample.second_website_report) /\
  r_score Sample.second_website_report
  <> sum_scores (categories Sample.second_website_report) /\
  r_max_score Sample.second_website_report = 100 /\
  percentage Sample.second_website_report = PyFloat 10%float.
Proof.
  refine (let H :=
            final_score_and_percentage Sample.urlparse Sample.page_text
              "https://owasp.example.org/" Sample.used_checker
              Sample.second_website_report
              (snd (Sample.run "https://owasp.example.org/"
                      Sample.used_checker)) _ in _).
  - destruct H as (_ & Hsum & _).
    split; [vm_compute; reflexivity|]. split; [reflexivity|].
    split; [reflexivity|]. split; [exact Hsum|].
    split; [discriminate|]. split; reflexivity.
  Unshelve. vm_compute. reflexivity.
Defined.

(* ================================================================== *)
(** * C5: resolution failure *)

Lemma github_repo_error_nonempty (e : exn) : github_repo_error e <> "".
Proof.
  destruct e as [status text|type_name text]; simpl.
  - destruct (status =? 403); discriminate.
  - discriminate.
Qed.

(** C5.  What the code does when [get_repo] raises, for every state of the
    checker: no rule runs, the report has no category and an ["error"]
    message, which for a [GithubException] of status 403 is the rate-limit
    text that suggests a token; its score is the running total the checker
    entered with.  That is the score 0 of the claim while the total at entry
    is 0; a checker that is used again reports the points of its earlier
    runs for a repository it could not resolve. *)
Theorem resolution_failure
    (urlparse : string -> outcome ParseResult)
    (page_text : string -> outcome string)
    (repo_url : string) (self : Checker) (parsed_url : ParseResult)
    (owner repo_name : string) (e : exn) :
  urlparse repo_url = inr parsed_url ->
  is_github_netloc (netloc parsed_url) = true ->
  owner_and_repo_name (PyStr.split "/" (PyStr.strip "/" (path parsed_url)))
  = Some (owner, repo_name) ->
  get_repo (github_client self) (owner ++ "/" ++ repo_name) = inl e ->
  (forall report self',
      check_compliance urlparse page_text repo_url self = (inr report, self')
      ->
      categories report = [] /\
      error report = Some (github_repo_error e) /\
      note report = None /\
      r_score report = current_score self /\
      current_score self' = current_score self) /\
  (current_score self = 0 -> self_max_score self = 100 ->
   exists self',
     check_compliance urlparse page_text repo_url self
     = (inr (mkResults repo_url 0 100 (PyFloat 0%float) []
               (Some (github_repo_error e)) None),
        self')) /\
  github_repo_error e <> "" /\
  (forall text,
      e = GithubException 403 text ->
      github_repo_error e
      = "Failed to fetch repository. Status: 403. " ++ rate_limit_hint /\
      PyStr.contains "GitHub token" (github_repo_error e) = true).
Proof.
  intros Hparse Hhost Hparts Hrepo.
  pose proof (check_compliance_unresolved urlparse page_text repo_url self
                parsed_url Hparse owner repo_name e Hhost Hparts Hrepo)
    as Heq.
  split; [|split; [|split]].
  - intros report self' Hrun. rewrite Heq in Hrun.
    apply finished_report in Hrun. destruct Hrun as (p & _ & -> & ->).
    unfold final_report, final_checker; simpl.
    rewrite Z.add_0_r. repeat split.
  - intros Hcur Hmax. rewrite Heq. unfold finished, final_report.
    rewrite Hcur, Hmax.
    match goal with
    | |- context [percentage_of ?s 100] => change s with 0
    end.
    rewrite (percentage_of_score 0) by lia.
    eexists. reflexivity.
  - apply github_repo_error_nonempty.
  - intros text ->. split; reflexivity.
Qed.

(** The failing input of C5: a checker that scored 5 on a website and is
    then asked for a repository whose lookup is answered 403 returns no
    category, the rate-limit error, and score 5 with percentage 5.0. *)
Lemma resolution_failure_witness :
  current_score Sample.used_checker = 5 /\
  categories Sample.unresolved_after_use_report = [] /\
  error Sample.unresolved_after_use_report
  = Some ("Failed to fetch repository. Status: 403. " ++ rate_limit_hint) /\
  r_score Sample.unresolved_after_use_report = 5 /\
  r_score Sample.unresolved_after_use_report <> 0 /\
  percentage Sample.unresolved_after_use_report = PyFloat 5%float.
Proof.
  refine (let H :=
            proj1 (resolution_failure Sample.urlparse Sample.page_text
                     "https://github.com/a//b" Sample.used_checker
                     (mkParseResult "github.com" "/a//b") "a" ""
                     (GithubException 403 "403 Forbidden")
                     eq_refl eq_refl eq_refl _)
              Sample.unresolved_after_use_report
              (snd (Sample.run "https://github.com/a//b"
                      Sample.used_checker)) _ in _).
  - destruct H as (Hcats & Herr & _ & Hscore & _).
    assert (Hcur : current_score Sample.used_checker = 5)
      by (vm_compute; reflexivity).
    split; [exact Hcur|]. split; [exact Hcats|]. split; [exact Herr|].
    rewrite Hscore, Hcur. split; [reflexivity|]. split; [discriminate|].
    reflexivity.
  Unshelve.
  + vm_compute. reflexivity.
  + vm_compute. reflexivity.
Defined.

(* ================================================================== *)
(** * C6: a second evaluation on the same checker *)

(** What a second call does in general: [check_compliance] installs a new
    report but never resets [self.current_score], so the score of the report
    is the total of every earlier call plus the points of this one. *)
Lemma score_carries_over
    (urlparse : string -> outcome ParseResult)
    (page_text : string -> outcome string) (url1 url2 : string)
    (self : Checker) (r1 r2 : Results) (s1 s2 : Checker) :
  check_compliance urlparse page_text url1 self = (inr r1, s1) ->
  check_compliance urlparse page_text url2 s1 = (inr r2, s2) ->
  r_score r2 = r_score r1 + sum_scores (categories r2).
Proof.
  intros H1 H2.
  destruct (check_compliance_total _ _ _ _ _ _ H1) as (Ht1 & _).
  destruct (check_compliance_total _ _ _ _ _ _ H2) as (_ & Hs2 & _).
  congruence.
Qed.

(** C6 fails on the code.  The same page evaluated twice on one checker,
    with the same collaborators: the first report has score 5 and percentage
    5.0, the second has score 10 and percentage 10.0, although both hold the
    same categories, whose scores sum to 5. *)
Theorem second_evaluation_differs :
  exists r1 s1 r2 s2,
    Sample.run "https://owasp.example.org/" Sample.checker = (inr r1, s1) /\
    Sample.run "https://owasp.example.org/" s1 = (inr r2, s2) /\
    r_score r1 = 5 /\ percentage r1 = PyFloat 5%float /\
    r_score r2 = 10 /\ percentage r2 = PyFloat 10%float /\
    categories r1 = categories r2 /\
    sum_scores (categories r2) = 5 /\
    r1 <> r2.
Proof.
  eexists _, _, _, _.
  split; [vm_compute; reflexivity|].
  split; [vm_compute; reflexivity|].
  repeat split. discriminate.
Qed.

(* ================================================================== *)
(** * C8: a generic website *)

(** C8.  What the code does for a website target whose page text mentions
    "owasp" (in any case) and none of "security", "vulnerability",
    "privacy", for every state of the checker: the report holds the one
    category "Website Compliance" with two checks of weight 5, the first
    passed and the second failed, a category score of 5 of 10, and the note
    on limited analysis; its score is the running total the checker entered
    with plus 5.  That is the score 5 of the claim while the total at entry
    is 0; a checker that is used again adds the 5 to the points of its
    earlier runs. *)
Theorem website_mentions_owasp_only
    (urlparse : string -> outcome ParseResult)
    (page_text : string -> outcome string)
    (repo_url : string) (self : Checker) (parsed_url : ParseResult)
    (text : string) :
  urlparse repo_url = inr parsed_url ->
  is_github_netloc (netloc parsed_url) = false ->
  page_text repo_url = inr text ->
  PyStr.contains "owasp" (PyStr.lower text) = true ->
  PyStr.any_in ["security"; "vulnerability"; "privacy"] (PyStr.lower text)
  = false ->
  (forall report self',
      check_compliance urlparse page_text repo_url self = (inr report, self')
      ->
      categories report
      = [("Website Compliance",
          mkCategory
            [mkCheck "Mentions OWASP" true 5 5 "" "";
             mkCheck "Security-focused content" false 0 5 "" ""]
            5 10)] /\
      error report = None /\
      note report = Some website_note /\
      r_score report = current_score self + 5 /\
      current_score self' = current_score self + 5) /\
  (current_score self = 0 -> self_max_score self = 100 ->
   exists self',
     check_compliance urlparse page_text repo_url self
     = (inr (mkResults repo_url 5 100 (PyFloat 5%float)
               [("Website Compliance",
                 mkCategory
                   [mkCheck "Mentions OWASP" true 5 5 "" "";
                    mkCheck "Security-focused content" false 0 5 "" ""]
                   5 10)]
               None (Some website_note)),
        self')).
Proof.
  intros Hparse Hhost Htext Howasp Hsecurity.
  pose proof (check_compliance_website_fetched urlparse page_text repo_url
                self parsed_url Hparse text Hhost Htext) as Heq.
  unfold website_checks in Heq. rewrite Howasp, Hsecurity in Heq.
  split.
  - intros report self' Hrun. rewrite Heq in Hrun.
    apply finished_report in Hrun. destruct Hrun as (p & _ & -> & ->).
    unfold final_report, final_checker; simpl. repeat split.
  - intros Hcur Hmax. rewrite Heq. unfold finished, final_report.
    rewrite Hcur, Hmax.
    match goal with
    | |- context [percentage_of ?s 100] => change s with 5
    end.
    rewrite (percentage_of_score 5) by lia.
    eexists. reflexivity.
Qed.

(** The failing input of C8: the same page evaluated a second time on one
    checker gives the same category, one pass and one fail of weight 5, and
    score 10. *)
Lemma website_mentions_owasp_only_witness :
  current_score Sample.used_checker = 5 /\
  categories Sample.second_website_report
  = [("Website Compliance",
      mkCategory
        [mkCheck "Mentions OWASP" true 5 5 "" "";
         mkCheck "Security-focused content" false 0 5 "" ""]
        5 10)] /\
  note Sample.second_website_report = Some website_note /\
  r_score Sample.second_website_report = 10 /\
  r_score Sample.second_website_report <> 5.
Proof.
  refine (let H :=
            proj1 (website_mentions_owasp_only Sample.urlparse
                     Sample.page_text "https://owasp.example.org/"
                     Sample.used_checker
                     (mkParseResult "owasp.example.org" "/")
                     "Welcome to the OWASP chapter page"
                     eq_refl eq_refl eq_refl eq_refl eq_refl)
              Sample.second_website_report
              (snd (Sample.run "https://owasp.example.org/"
                      Sample.used_checker)) _ in _).
  - destruct H as (Hcats & _ & Hnote & Hscore & _).
    assert (Hcur : current_score Sample.used_checker = 5)
      by (vm_compute; reflexivity).
    split; [exact Hcur|]. split; [exact Hcats|]. split; [exact Hnote|].
    rewrite Hscore, Hcur. split; [reflexivity|discriminate].
  Unshelve. vm_compute. reflexivity.
Defined.

(* ================================================================== *)
(** * C9: a repository URL with a short path *)

Lemma short_path_no_owner (path_parts : list string) :
  (length path_parts < 2)%nat -> owner_and_repo_name path_parts = None.
Proof.
  destruct path_parts as [|owner [|repo_name rest]]; simpl; intros H;
    [reflexivity|reflexivity|lia].
Qed.

Lemma is_github_netloc_spec (host : string) :
  is_github_netloc host = true <->
  PyStr.lower host = "github.com" \/ PyStr.lower host = "www.github.com".
Proof.
  unfold is_github_netloc, github_hosts; simpl.
  rewrite !orb_true_iff, !String.eqb_eq. intuition discriminate.
Qed.

(** C9, as amended.  When the netloc of the URL, in lower case, is
    github.com or www.github.com and the path, stripped of its surrounding
    slashes, has fewer than two segments, a newly constructed checker
    returns a report with no category, score 0, percentage 0.0 and no
    ["error"] (and no ["note"]). *)
Theorem short_path_clean_zero
    (urlparse : string -> outcome ParseResult)
    (page_text : string -> outcome string)
    (Github_new : option string -> Github) (github_token : option string)
    (repo_url : string) (parsed_url : ParseResult) :
  urlparse repo_url = inr parsed_url ->
  PyStr.lower (netloc parsed_url) = "github.com" \/
  PyStr.lower (netloc parsed_url) = "www.github.com" ->
  (length (PyStr.split "/" (PyStr.strip "/" (path parsed_url))) < 2)%nat ->
  exists self',
    check_compliance urlparse page_text repo_url
      (__init__ Github_new github_token)
    = (inr (mkResults repo_url 0 100 (PyFloat 0%float) [] None None), self').
Proof.
  intros Hparse Hhost Hshort. apply is_github_netloc_spec in Hhost.
  rewrite (check_compliance_short_path urlparse page_text repo_url _
             parsed_url Hparse Hhost (short_path_no_owner _ Hshort)).
  unfold finished.
  change (current_score (__init__ Github_new github_token)
          + total_awarded []) with 0.
  change (self_max_score (__init__ Github_new github_token)) with 100.
  rewrite (percentage_of_score 0) by lia.
  eexists. reflexivity.
Qed.

Lemma short_path_clean_zero_witness :
  exists self',
    Sample.run "https://www.github.com/OWASP/" Sample.checker
    = (inr (mkResults "https://www.github.com/OWASP/" 0 100 (PyFloat 0%float)
              [] None None),
       self').
Proof.
  refine (short_path_clean_zero Sample.urlparse Sample.page_text
            Sample.Github_new None "https://www.github.com/OWASP/"
            (mkParseResult "www.github.com" "/OWASP/") eq_refl _ _).
  - right. reflexivity.
  - vm_compute. reflexivity.
Defined.

(** C9 as the spec words it fails: the host of https://github.com:443/OWASP
    is github.com and its path has one segment, but its netloc is
    github.com:443, so the page is fetched as a website: a newly constructed
    checker returns a category and a note, and score 10. *)
Lemma short_path_with_port :
  Sample2.urlparse "https://github.com:443/OWASP"
  = inr (mkParseResult "github.com:443" "/OWASP") /\
  hostname_of "github.com:443" = "github.com" /\
  (length (PyStr.split "/" (PyStr.strip "/" "/OWASP")) < 2)%nat /\
  is_github_netloc "github.com:443" = false /\
  check_compliance Sample2.urlparse Sample2.page_text
    "https://github.com:443/OWASP" Sample.checker
  = (inr Sample2.with_port_report,
     snd (check_compliance Sample2.urlparse Sample2.page_text
            "https://github.com:443/OWASP" Sample.checker)) /\
  keys (categories Sample2.with_port_report) = ["Website Compliance"] /\
  categories Sample2.with_port_report <> [] /\
  r_score Sample2.with_port_report = 10 /\
  r_score Sample2.with_port_report <> 0 /\
  note Sample2.with_port_report = Some website_note.
Proof.
  split; [reflexivity|]. split; [reflexivity|].
  split; [vm_compute; lia|]. split; [reflexivity|].
  split; [vm_compute; reflexivity|].
  split; [reflexivity|]. split; [discriminate|].
  split; [reflexivity|]. split; [discriminate|]. reflexivity.
Qed.

(* ================================================================== *)
(** * C7: classification of the target *)

(** C7, as amended.  The input is a repository target exactly when the
    lower-cased [netloc] of the parsed URL is github.com or www.github.com.
    Then owner and name are the first two of the segments obtained by
    splitting the path, stripped of its surrounding slashes, at "/" (the
    second may be empty); with fewer than two segments no rule runs.  Every
    other input is a website target. *)
Theorem target_classification
    (urlparse : string -> outcome ParseResult)
    (page_text : string -> outcome string) (repo_url : string)
    (parsed_url : ParseResult) (self : Checker) :
  urlparse repo_url = inr parsed_url ->
  let is_repository :=
    PyStr.lower (netloc parsed_url) = "github.com" \/
    PyStr.lower (netloc parsed_url) = "www.github.com" in
  let path_parts := PyStr.split "/" (PyStr.strip "/" (path parsed_url)) in
  (is_github_netloc (netloc parsed_url) = true <-> is_repository) /\
  (is_repository ->
   forall owner repo_name rest,
     path_parts = owner :: repo_name :: rest ->
     check_compliance urlparse page_text repo_url self
     = (begin_report repo_url ;;
        _check_github_repo owner repo_name ;;
        finalize) self) /\
  (is_repository ->
   (length path_parts < 2)%nat ->
   check_compliance urlparse page_text repo_url self
   = (begin_report repo_url ;; finalize) self) /\
  (~ is_repository ->
   check_compliance urlparse page_text repo_url self
   = (begin_report repo_url ;;
      _check_website_compliance page_text repo_url ;;
      finalize) self).
Proof.
  intros Hparse is_repository path_parts.
  assert (Hstart :
            check_compliance urlparse page_text repo_url self
            = (begin_report repo_url ;;
               dispatch page_text repo_url parsed_url ;;
               finalize) self).
  { unfold check_compliance, begin_report. unfold bind at 1.
    unfold put_results at 1. unfold bind at 1. unfold call at 1.
    rewrite Hparse. reflexivity. }
  split; [apply is_github_netloc_spec|]. split; [|split].
  - intros Hrepo owner repo_name rest Hparts.
    apply is_github_netloc_spec in Hrepo.
    rewrite Hstart. unfold dispatch. fold path_parts.
    rewrite Hrepo, Hparts. reflexivity.
  - intros Hrepo Hshort.
    apply is_github_netloc_spec in Hrepo.
    rewrite Hstart. unfold dispatch. fold path_parts.
    rewrite Hrepo, (short_path_no_owner _ Hshort). reflexivity.
  - intros Hweb.
    assert (Hhost : is_github_netloc (netloc parsed_url) = false).
    { destruct (is_github_netloc (netloc parsed_url)) eqn:E; [|reflexivity].
      apply is_github_netloc_spec in E. contradiction. }
    rewrite Hstart. unfold dispatch. rewrite Hhost. reflexivity.
Qed.

Lemma target_classification_witness :
  Sample.run "https://GitHub.com/OWASP/missing" Sample.checker
  = (begin_report "https://GitHub.com/OWASP/missing" ;;
     _check_github_repo "OWASP" "missing" ;;
     finalize) Sample.checker.
Proof.
  refine (proj1 (proj2 (target_classification Sample.urlparse
                          Sample.page_text "https://GitHub.com/OWASP/missing"
                          (mkParseResult "GitHub.com" "/OWASP/missing")
                          Sample.checker eq_refl))
            _ "OWASP" "missing" [] _).
  - left. reflexivity.
  - reflexivity.
Defined.

(** C7 as the spec words it fails.  The path "/a//b" has the non-empty
    segments "a" and "b", but the code takes owner "a" and the empty name:
    it asks the client for "a/" (answered 403 by the sample client, which
    answers 404 for "a/b"). *)
Lemma empty_second_segment :
  first_two_nonempty_segments "/a//b" = Some ("a", "b") /\
  owner_and_repo_name (PyStr.split "/" (PyStr.strip "/" "/a//b"))
  = Some ("a", "") /\
  owner_and_repo_name (PyStr.split "/" (PyStr.strip "/" "/a//b"))
  <> first_two_nonempty_segments "/a//b" /\
  get_repo Sample.client "a/b" = inl (GithubException 404 "404 Not Found") /\
  exists self',
    Sample.run "https://github.com/a//b" Sample.checker
    = (inr (mkResults "https://github.com/a//b" 0 100 (PyFloat 0%float) []
              (Some "Failed to fetch repository. Status: 403. API rate limit may be exceeded. Consider using a GitHub token with --token option.")
              None),
       self').
Proof.
  split; [reflexivity|]. split; [reflexivity|]. split; [discriminate|].
  split; [reflexivity|].
  eexists. vm_compute. reflexivity.
Qed.

(* ================================================================== *)
(** * C10: the secrets check *)

Lemma Dict_get_set_other {V} (k k' : string) (v : V) (d : Dict.t V) :
  String.eqb k k' = false -> Dict.get k' (Dict.set k v d) = Dict.get k' d.
Proof.
  intros Hne. induction d as [|[k0 v0] d IH]; simpl.
  - rewrite String.eqb_sym, Hne. reflexivity.
  - destruct (String.eqb k k0) eqn:E; simpl.
    + apply String.eqb_eq in E. subst k0.
      now rewrite String.eqb_sym, Hne.
    + now rewrite IH.
Qed.

Lemma add_to_categories_lands (a : CheckArgs) (cats : Dict.t Category) :
  exists v,
    Dict.get (a_category a) (add_to_categories a cats) = Some v /\
    In (record_of a) (checks v).
Proof.
  unfold add_to_categories. rewrite Dict_get_set_same.
  eexists. split; [reflexivity|]. simpl. apply in_or_app. right. now left.
Qed.

Lemma add_to_categories_keeps (b : CheckArgs) (c : string) (k : Check)
    (cats : Dict.t Category) :
  (exists v, Dict.get c cats = Some v /\ In k (checks v)) ->
  exists v, Dict.get c (add_to_categories b cats) = Some v /\ In k (checks v).
Proof.
  intros (v & Hget & Hin). unfold add_to_categories.
  destruct (String.eqb (a_category b) c) eqn:E.
  - apply String.eqb_eq in E. subst c. rewrite Dict_get_set_same, Hget.
    eexists. split; [reflexivity|]. simpl. apply in_or_app. now left.
  - rewrite (Dict_get_set_other _ _ _ _ E). now exists v.
Qed.

Lemma replay_categories_keeps (l : list CheckArgs) (c : string) (k : Check) :
  forall cats,
    (exists v, Dict.get c cats = Some v /\ In k (checks v)) ->
    exists v, Dict.get c (replay_categories l cats) = Some v /\ In k (checks v).
Proof.
  induction l as [|b l IH]; intros cats H; [exact H|].
  unfold replay_categories in *; simpl. apply IH.
  now apply add_to_categories_keeps.
Qed.

Lemma replay_categories_In (l : list CheckArgs) (a : CheckArgs) :
  In a l ->
  forall cats,
    exists v,
      Dict.get (a_category a) (replay_categories l cats) = Some v /\
      In (record_of a) (checks v).
Proof.
  induction l as [|b l IH]; intros Hin cats; [contradiction|].
  unfold replay_categories in *; simpl. destruct Hin as [->|Hin].
  - apply replay_categories_keeps. apply add_to_categories_lands.
  - now apply IH.
Qed.

Lemma runs_total_writes {A} n k (m : M A) :
  runs Total n k m -> exists a l, writes m (inr a) l.
Proof.
  intros (r & l & Hw & _ & _ & Hb). destruct r as [e|a]; [contradiction|].
  now exists a, l.
Qed.

Lemma writes_check_no_secrets (repo : Repository) :
  writes (_check_no_secrets repo) (inr true) [].
Proof. intros self rep _. reflexivity. Qed.

(** The calls of [_check_code_quality] include the secrets check, passed. *)
Lemma code_quality_calls (repo : Repository) :
  exists l how_to_fix,
    writes (_check_code_quality repo) (inr tt) l /\
    In (mkArgs "Code Quality & Best Practices"
          "No hardcoded credentials or secrets" true 1
          "Basic pattern check performed" how_to_fix) l.
Proof.
  unfold _check_code_quality; cbv zeta.
  destruct (runs_total_writes _ _ _ (runs_any_file_exists repo linter_files))
    as (has_linter & l1 & Hw1).
  match goal with
  | |- context [bind (try_except ?body ?handler) _] =>
      assert (Htry : runs Total 1 1 (try_except body handler)) by run_total;
      destruct (runs_total_writes _ _ _ Htry) as ([] & l2 & Hw2)
  end.
  eexists _, _. split.
  - eapply writes_bind_ok; [exact Hw1|]. cbv beta.
    eapply writes_bind_ok; [apply writes_add|].
    eapply writes_bind_ok; [apply writes_add|].
    eapply writes_bind_ok; [exact Hw2|].
    eapply writes_bind_ok; [apply writes_add|].
    eapply writes_bind_ok; [apply writes_add|].
    eapply writes_bind_ok; [apply writes_check_no_secrets|]. cbv beta.
    eapply writes_bind_ok; [apply writes_add|].
    eapply writes_bind_ok; [apply writes_add|].
    eapply writes_bind_ok; [apply writes_add|].
    eapply writes_bind_ok; [apply writes_add|].
    apply writes_add.
  - apply in_or_app. right. do 2 (apply in_or_app; right).
    apply in_or_app. right. do 2 (apply in_or_app; right).
    simpl. left. reflexivity.
Qed.

(** C10. [_check_no_secrets] returns [True] for every repository and never
    raises (its body returns [True], and so would its [except] branch), so
    [_check_code_quality] always records the check "No hardcoded credentials
    or secrets" as passed with its full point. *)
Theorem no_secrets_always_passes (repo : Repository) (self : Checker) :
  _check_no_secrets repo self = (inr true, self) /\
  (forall rep,
      results self = Report rep ->
      exists self' rep' v,
        _check_code_quality repo self = (inr tt, self') /\
        results self' = Report rep' /\
        Dict.get "Code Quality & Best Practices" (categories rep') = Some v /\
        In (mkCheck "No hardcoded credentials or secrets" true 1 1
              "Basic pattern check performed" "")
          (checks v)).
Proof.
  split; [reflexivity|].
  intros rep Hres.
  destruct (code_quality_calls repo) as (l & how_to_fix & Hw & Hin).
  destruct (replay_categories_In l _ Hin (categories rep)) as (v & Hget & Hrec).
  exists (replay l self),
    (with_categories rep (replay_categories l (categories rep))), v.
  split; [exact (Hw self rep Hres)|].
  split; [exact (replay_results l self rep Hres)|].
  split; [exact Hget|exact Hrec].
Qed.

Lemma no_secrets_always_passes_witness :
  exists self' rep' v,
    _check_code_quality Sample.favorable_repo
      (with_results Sample.checker
         (Report (init_results "https://github.com/OWASP/BLT" Sample.checker)))
    = (inr tt, self') /\
    results self' = Report rep' /\
    Dict.get "Code Quality & Best Practices" (categories rep') = Some v /\
    In (mkCheck "No hardcoded credentials or secrets" true 1 1
          "Basic pattern check performed" "")
      (checks v).
Proof.
  exact (proj2 (no_secrets_always_passes Sample.favorable_repo
                  (with_results Sample.checker
                     (Report (init_results "https://github.com/OWASP/BLT"
                                Sample.checker))))
           _ eq_refl).
Defined.

(* ================================================================== *)
(** * Further properties of [_add_check] *)

Lemma Dict_keys_set {V} (k : string) (v : V) (d : Dict.t V) :
  keys (Dict.set k v d) = if Dict.mem k d then keys d else (keys d ++ [k])%list.
Proof.
  unfold keys, Dict.mem. induction d as [|[k' v'] d IH]; simpl; [reflexivity|].
  destruct (String.eqb k k') eqn:E; simpl; [reflexivity|].
  rewrite IH. destruct (Dict.get k d); reflexivity.
Qed.

(** X1. Before [check_compliance] has installed a report, [self.results] is
    the empty dictionary of [__init__]: [_add_check] then raises
    [KeyError('categories')] and changes nothing, not even the running
    total. *)
Theorem add_check_before_report (self : Checker) (err nt : option string)
    (category name : string) (passed : bool) (points : Z)
    (details how_to_fix : string) :
  results self = Blank err nt ->
  _add_check category name passed points details how_to_fix self
  = (inl (PyException "KeyError" "'categories'"), self).
Proof.
  intros H. unfold _add_check, bind, get_results. now rewrite H.
Qed.

Lemma add_check_before_report_witness :
  _add_check "Website Compliance" "Mentions OWASP" true 5 "" ""
    (__init__ Sample.Github_new None)
  = (inl (PyException "KeyError" "'categories'"),
     __init__ Sample.Github_new None).
Proof.
  exact (add_check_before_report (__init__ Sample.Github_new None) None None
           "Website Compliance" "Mentions OWASP" true 5 "" "" eq_refl).
Defined.

(** X2. On an installed report one [_add_check] call appends exactly one
    record to the end of its category's checks (a category that is not
    there yet is created after the existing ones, an existing one keeps its
    place), leaves every other category and every other field of the report
    as it was, and adds the points to [self.current_score] only when the
    check passed; [results["score"]] is not touched. *)
Theorem add_check_effect (self : Checker) (rep : Results)
    (category name : string) (passed : bool) (points : Z)
    (details how_to_fix : string) :
  results self = Report rep ->
  exists self' rep' v',
    _add_check category name passed points details how_to_fix self
    = (inr tt, self') /\
    results self' = Report rep' /\
    current_score self' = current_score self + (if passed then points else 0) /\
    self_max_score self' = self_max_score self /\
    (url rep', r_score rep', r_max_score rep', percentage rep', error rep',
     note rep')
    = (url rep, r_score rep, r_max_score rep, percentage rep, error rep,
       note rep) /\
    Dict.get category (categories rep') = Some v' /\
    checks v'
    = (match Dict.get category (categories rep) with
       | Some v => checks v
       | None => []
       end
       ++ [mkCheck name passed (if passed then points else 0) points details
             (if negb passed then how_to_fix else "")])%list /\
    (forall other,
        other <> category ->
        Dict.get other (categories rep') = Dict.get other (categories rep)) /\
    keys (categories rep')
    = if Dict.mem category (categories rep) then keys (categories rep)
      else (keys (categories rep) ++ [category])%list.
Proof.
  intros Hres.
  pose (a := mkArgs category name passed points details how_to_fix).
  eexists _, _, _. split; [exact (add_check_run a self rep Hres)|].
  simpl. split; [reflexivity|]. split; [reflexivity|]. split; [reflexivity|].
  split; [reflexivity|]. unfold add_to_categories; simpl.
  split; [apply Dict_get_set_same|]. split.
  - simpl. destruct (Dict.get category (categories rep)); reflexivity.
  - split.
    + intros other Hne. apply Dict_get_set_other.
      apply String.eqb_neq. congruence.
    + apply Dict_keys_set.
Qed.

Lemma add_check_effect_witness :
  exists self' rep' v',
    _add_check "Website Compliance" "Security-focused content" false 5 "" ""
      (final_checker Sample.checker [] Sample.website_report)
    = (inr tt, self') /\
    results self' = Report rep' /\
    current_score self' = 0 /\
    Dict.get "Website Compliance" (categories rep') = Some v' /\
    length (checks v') = 3%nat /\
    keys (categories rep') = ["Website Compliance"].
Proof.
  destruct (add_check_effect
              (final_checker Sample.checker [] Sample.website_report)
              Sample.website_report
              "Website Compliance" "Security-focused content" false 5 "" ""
              eq_refl)
    as (self' & rep' & v' & Hrun & Hres & Hcur & _ & _ & Hget & Hchecks & _
        & Hkeys).
  exists self', rep', v'. repeat split; try assumption.
  rewrite Hchecks. reflexivity.
Defined.

(* ================================================================== *)
(** * The probes *)

(** X3. [_check_file_exists] and [_check_directory_exists] are the same
    probe: each returns [True] exactly when [repo.get_contents(path)]
    returns, whatever it returns (a file satisfies the directory probe and a
    directory the file probe); neither raises nor changes the checker. *)
Theorem probes_agree (repo : Repository) (path : string) (self : Checker) :
  _check_directory_exists repo path self = _check_file_exists repo path self /\
  _check_file_exists repo path self
  = (inr (match get_contents repo path with
          | inr _ => true
          | inl _ => false
          end), self).
Proof. split; [reflexivity|apply check_file_exists_run]. Qed.

(* ================================================================== *)
(** * [_check_code_comments] *)

Lemma scan_comments_none (items : list ContentFile) (self : Checker) :
  Forall (fun item => is_source_file item = false) items ->
  scan_comments items self = (inr false, self).
Proof.
  induction 1 as [|item rest Hitem Hrest IH]; [reflexivity|].
  now rewrite scan_comments_cons, Hitem.
Qed.

Lemma scan_comments_skip (pre rest : list ContentFile) (self : Checker) :
  Forall (fun item => is_source_file item = false) pre ->
  scan_comments (pre ++ rest) self = scan_comments rest self.
Proof.
  induction 1 as [|item pre Hitem Hpre IH]; [reflexivity|].
  rewrite <- app_comm_cons, scan_comments_cons, Hitem. exact IH.
Qed.

(** X4. [_check_code_comments] never raises and never changes the checker;
    it answers [False] when the root listing cannot be fetched and when
    [get_contents("")] returns a single file instead of a listing. *)
Theorem code_comments_fails_closed (repo : Repository) (self : Checker) :
  (exists b, _check_code_comments repo self = (inr b, self)) /\
  (forall e,
      get_contents repo "" = inl e ->
      _check_code_comments repo self = (inr false, self)) /\
  (forall f,
      get_contents repo "" = inr (OneFile f) ->
      _check_code_comments repo self = (inr false, self)).
Proof.
  split; [|split].
  - exists (comments_found repo). apply check_code_comments_run.
  - intros e H. rewrite check_code_comments_run. unfold comments_found.
    now rewrite H.
  - intros f H. rewrite check_code_comments_run. unfold comments_found.
    now rewrite H.
Qed.

Lemma code_comments_fails_closed_witness :
  _check_code_comments Sample2.single_file_repo Sample.checker
  = (inr false, Sample.checker).
Proof.
  exact (proj2 (proj2 (code_comments_fails_closed Sample2.single_file_repo
                         Sample.checker))
           (Sample2.plain "") eq_refl).
Defined.


(** X5. Only the first five entries of the root listing are looked at, and
    only those that are files named [*.py], [*.js], [*.java], [*.go] or
    [*.rs]: when none of the first five is one, the answer is [False]
    whatever the rest of the repository holds. *)
Theorem code_comments_first_five (repo : Repository)
    (items : list ContentFile) (self : Checker) :
  get_contents repo "" = inr (Listing items) ->
  Forall (fun item => is_source_file item = false) (firstn 5 items) ->
  _check_code_comments repo self = (inr false, self).
Proof.
  intros Hroot Hnone.
  unfold _check_code_comments, try_except, bind, call. rewrite Hroot.
  cbv beta iota delta [items_of].
  now rewrite (scan_comments_none _ self Hnone).
Qed.

Lemma code_comments_first_five_witness :
  _check_code_comments Sample2.late_source_repo Sample.checker
  = (inr false, Sample.checker).
Proof.
  apply (code_comments_first_five Sample2.late_source_repo
           Sample2.late_source_listing Sample.checker eq_refl).
  simpl. repeat (constructor; [reflexivity|]). constructor.
Defined.


(** X6. Among the first five entries the first source file decides: if it
    cannot be decoded the answer is [False] (the exception is swallowed and
    later files are not read); if it holds "#", "//" or "/*" the answer is
    [True]; otherwise the search goes on with the entries after it. *)
Theorem code_comments_first_source_file (repo : Repository)
    (items pre rest : list ContentFile) (item : ContentFile)
    (self : Checker) :
  get_contents repo "" = inr (Listing items) ->
  firstn 5 items = (pre ++ item :: rest)%list ->
  Forall (fun i => is_source_file i = false) pre ->
  is_source_file item = true ->
  _check_code_comments repo self
  = match cf_decoded item with
    | inl _ => (inr false, self)
    | inr file_content =>
        if has_comment_marker file_content then (inr true, self)
        else try_except (scan_comments rest) (fun _ => ret false) self
    end.
Proof.
  intros Hroot Hsplit Hpre Hitem.
  unfold _check_code_comments, try_except. unfold bind at 1. unfold call at 1.
  rewrite Hroot. unfold bind at 1. unfold call at 1. unfold items_of.
  rewrite Hsplit, (scan_comments_skip pre _ self Hpre).
  rewrite scan_comments_cons, Hitem.
  unfold bind, call.
  destruct (cf_decoded item) as [e|file_content]; [reflexivity|].
  destruct (has_comment_marker file_content); reflexivity.
Qed.

Lemma code_comments_first_source_file_witness :
  _check_code_comments Sample2.undecodable_repo Sample.checker
  = (inr false, Sample.checker).
Proof.
  refine (code_comments_first_source_file Sample2.undecodable_repo
            Sample2.undecodable_listing [Sample2.plain "README.md"]
            [mkContentFile "file" "main.py" (inr "# entry point")]
            (mkContentFile "file" "blob.py"
               (inl (PyException "UnicodeDecodeError" "invalid start byte")))
            Sample.checker eq_refl eq_refl _ eq_refl).
  constructor; [reflexivity|constructor].
Defined.


(* ================================================================== *)
(** * The categories of a completed catalog *)

(** ** Rules for [fills] *)

Lemma fills_ret c {A} (a : A) : fills Total c 0 0 0 (ret a).
Proof.
  exists (inr a), []. split; [apply writes_ret|].
  split; [constructor|]. simpl. split; [reflexivity|lia].
Qed.

Lemma fills_call c {A} (x : outcome A) : fills Atomic c 0 0 0 (call x).
Proof.
  exists x, []. split; [apply writes_call|]. split; [constructor|].
  destruct x; simpl; [reflexivity|split; [reflexivity|lia]].
Qed.

Lemma fills_pure c {A} (m : M A) (a : A) :
  (forall self, m self = (inr a, self)) -> fills Total c 0 0 0 m.
Proof.
  intros H. exists (inr a), []. split; [intros self rep _; apply H|].
  split; [constructor|]. simpl. split; [reflexivity|lia].
Qed.

Lemma fills_add c (n : string) (p : bool) (d f : string) :
  fills Total c 1 0 1 (_add_check c n p 1 d f).
Proof.
  eexists _, _. split; [apply writes_add|]. split.
  - constructor; [split; reflexivity|constructor].
  - simpl. split; [reflexivity|]. unfold awarded; simpl. destruct p; lia.
Qed.

Lemma fills_add_true c (n : string) (d f : string) :
  fills Total c 1 1 1 (_add_check c n true 1 d f).
Proof.
  eexists _, _. split; [apply writes_add|]. split.
  - constructor; [split; reflexivity|constructor].
  - simpl. split; [reflexivity|]. unfold awarded; simpl. lia.
Qed.

Lemma fills_add_false c (n : string) (d f : string) :
  fills Total c 1 0 0 (_add_check c n false 1 d f).
Proof.
  eexists _, _. split; [apply writes_add|]. split.
  - constructor; [split; reflexivity|constructor].
  - simpl. split; [reflexivity|]. unfold awarded; simpl. lia.
Qed.

Lemma fills_total_atomic c {A} n lo hi (m : M A) :
  fills Total c n lo hi m -> fills Atomic c n lo hi m.
Proof.
  intros (r & l & Hw & Hc & Hb). exists r, l. repeat split; auto.
  destruct r; [contradiction|assumption].
Qed.

Lemma fills_atomic_partial c {A} n lo hi (m : M A) :
  fills Atomic c n lo hi m -> fills Partial c n lo hi m.
Proof.
  intros (r & l & Hw & Hc & Hb). exists r, l. repeat split; auto.
  destruct r; [exact I|assumption].
Qed.

Lemma fills_bind_total c {A B} n1 lo1 hi1 n2 lo2 hi2 (m : M A)
    (f : A -> M B) :
  fills Total c n1 lo1 hi1 m -> (forall a, fills Total c n2 lo2 hi2 (f a)) ->
  fills Total c (n1 + n2) (lo1 + lo2) (hi1 + hi2) (bind m f).
Proof.
  intros (r & l & Hw & Hc & Hb) Hf. destruct r as [e|a]; [contradiction|].
  destruct (Hf a) as (r2 & l2 & Hw2 & Hc2 & Hb2).
  destruct r2 as [e|b]; [contradiction|].
  exists (inr b), (l ++ l2)%list. split; [eapply writes_bind_ok; eauto|].
  split; [apply Forall_app; auto|].
  rewrite length_app, total_awarded_app. simpl in *. lia.
Qed.

Lemma fills_bind_atomic c {A B} n lo hi (m : M A) (f : A -> M B) :
  fills Atomic c 0 0 0 m -> (forall a, fills Atomic c n lo hi (f a)) ->
  fills Atomic c n lo hi (bind m f).
Proof.
  intros (r & l & Hw & Hc & Hb) Hf. destruct r as [e|a].
  - simpl in Hb. subst l. exists (inl e), [].
    split; [now apply writes_bind_exn|]. split; [constructor|reflexivity].
  - destruct Hb as [Hlen _]. destruct l; [|discriminate].
    destruct (Hf a) as (r2 & l2 & Hw2 & Hb2).
    exists r2, l2. split; [|assumption].
    exact (writes_bind_ok m f a [] r2 l2 Hw Hw2).
Qed.

Lemma fills_bind_partial c {A B} n1 lo1 hi1 n2 lo2 hi2 (m : M A)
    (f : A -> M B) :
  fills Partial c n1 lo1 hi1 m ->
  (forall a, fills Partial c n2 lo2 hi2 (f a)) ->
  fills Partial c (n1 + n2) (lo1 + lo2) (hi1 + hi2) (bind m f).
Proof.
  intros (r & l & Hw & Hc & Hb) Hf. destruct r as [e|a].
  - exists (inl e), l. split; [now apply writes_bind_exn|].
    split; [assumption|exact I].
  - destruct (Hf a) as (r2 & l2 & Hw2 & Hc2 & Hb2).
    exists r2, (l ++ l2)%list. split; [eapply writes_bind_ok; eauto|].
    split; [apply Forall_app; auto|].
    destruct r2; [exact I|].
    rewrite length_app, total_awarded_app. simpl in *. lia.
Qed.

Lemma fills_try c {A} n lo hi (body : M A) (h : exn -> M A) :
  fills Atomic c n lo hi body -> (forall e, fills Total c n lo hi (h e)) ->
  fills Total c n lo hi (try_except body h).
Proof.
  intros (r & l & Hw & Hc & Hb) Hh. destruct r as [e|a].
  - simpl in Hb. subst l. destruct (Hh e) as (r2 & l2 & Hw2 & Hb2).
    exists r2, l2. split; [|assumption].
    exact (writes_try_exn body h e [] r2 l2 Hw Hw2).
  - exists (inr a), l. split; [now apply writes_try_ok|]. split; assumption.
Qed.

Lemma fills_le c {A} md n n' lo lo' hi hi' (m : M A) :
  fills md c n lo hi m -> n = n' -> lo' <= lo -> hi <= hi' ->
  fills md c n' lo' hi' m.
Proof.
  intros (r & l & Hw & Hc & Hb) <- Hlo Hhi. exists r, l.
  split; [assumption|]. split; [assumption|].
  destruct r; [assumption|]. simpl in *. lia.
Qed.

Lemma fills_bind_pure c {A B} md n lo hi (m : M A) (f : A -> M B) (a : A) :
  (forall self, m self = (inr a, self)) ->
  fills md c n lo hi (f a) -> fills md c n lo hi (bind m f).
Proof.
  intros Hm (r & l & Hw & Hb). exists r, l. split; [|assumption].
  apply (writes_bind_ok m f a [] r l); [|assumption].
  intros self rep _. apply Hm.
Qed.

Create HintDb fills.

Ltac fill_total :=
  cbv beta;
  eapply fills_le;
  [ lazymatch goal with
    | |- fills Total _ _ _ _ (ret _) => apply fills_ret
    | |- fills Total _ _ _ _ (_add_check _ _ true _ _ _) => apply fills_add_true
    | |- fills Total _ _ _ _ (_add_check_d _ _ true _ _) => apply fills_add_true
    | |- fills Total _ _ _ _ (_add_check_n _ _ true _) => apply fills_add_true
    | |- fills Total _ _ _ _ (_add_check _ _ false _ _ _) =>
        apply fills_add_false
    | |- fills Total _ _ _ _ (_add_check_d _ _ false _ _) =>
        apply fills_add_false
    | |- fills Total _ _ _ _ (_add_check_n _ _ false _) => apply fills_add_false
    | |- fills Total _ _ _ _ (_add_check _ _ _ _ _ _) => apply fills_add
    | |- fills Total _ _ _ _ (_add_check_d _ _ _ _ _) => apply fills_add
    | |- fills Total _ _ _ _ (_add_check_n _ _ _ _) => apply fills_add
    | |- fills Total _ _ _ _ (try_except _ _) =>
        eapply fills_try; [fill_atomic | intro; fill_total]
    | |- fills Total _ _ _ _ (bind (_check_no_secrets _) _) =>
        eapply (fills_bind_pure _ _ _ _ _ _ _ true);
        [ intro; reflexivity | fill_total ]
    | |- fills Total _ _ _ _ (bind _ _) =>
        eapply fills_bind_total; [fill_total | intro; fill_total]
    | |- fills Total _ _ _ _ (if ?b then _ else _) => destruct b; fill_total
    | |- fills Total _ _ _ _ (match ?x with _ => _ end) =>
        destruct x; fill_total
    | |- fills Total _ _ _ _ _ => solve [auto with fills]
    end
  | reflexivity | runs_side | runs_side ]
with fill_atomic :=
  cbv beta;
  eapply fills_le;
  [ lazymatch goal with
    | |- fills Atomic _ _ _ _ (call _) => apply fills_call
    | |- fills Atomic _ _ _ _ (bind (call _) _) =>
        eapply fills_bind_atomic; [apply fills_call | intro; fill_atomic]
    | |- fills Atomic _ _ _ _ (if ?b then _ else _) => destruct b; fill_atomic
    | |- fills Atomic _ _ _ _ _ =>
        first [ solve [auto with fills] | apply fills_total_atomic; fill_total ]
    end
  | reflexivity | runs_side | runs_side ].

Ltac fill_partial :=
  cbv beta;
  eapply fills_le;
  [ lazymatch goal with
    | |- fills Partial _ _ _ _ (bind _ _) =>
        eapply fills_bind_partial; [fill_partial | intro; fill_partial]
    | |- fills Partial _ _ _ _ (if ?b then _ else _) => destruct b; fill_partial
    | |- fills Partial _ _ _ _ (match ?x with _ => _ end) =>
        destruct x; fill_partial
    | |- fills Partial _ _ _ _ _ => apply fills_atomic_partial; fill_atomic
    end
  | reflexivity | runs_side | runs_side ].

Lemma fills_check_file_exists c (repo : Repository) (filepath : string) :
  fills Total c 0 0 0 (_check_file_exists repo filepath).
Proof.
  apply (fills_pure _ _ (found repo filepath)). apply check_file_exists_run.
Qed.

Lemma fills_check_directory_exists c (repo : Repository) (dirpath : string) :
  fills Total c 0 0 0 (_check_directory_exists repo dirpath).
Proof.
  apply (fills_pure _ _ (found repo dirpath)). apply check_file_exists_run.
Qed.

Lemma fills_check_code_comments c (repo : Repository) :
  fills Total c 0 0 0 (_check_code_comments repo).
Proof.
  apply (fills_pure _ _ (comments_found repo)). apply check_code_comments_run.
Qed.

Lemma fills_any_file_exists c (repo : Repository) (files : list string) :
  fills Total c 0 0 0 (any_file_exists repo files).
Proof.
  apply (fills_pure _ _ (existsb (found repo) files)).
  apply any_file_exists_run.
Qed.

#[local] Hint Resolve fills_check_file_exists fills_check_directory_exists
  fills_check_code_comments fills_any_file_exists : fills.

Lemma fills_general_compliance (repo : Repository) (owner : string) :
  fills Partial "General Compliance & Governance" 10 0 10
    (_check_general_compliance repo owner).
Proof. unfold _check_general_compliance, or_else; cbv zeta. fill_partial. Qed.

Lemma fills_documentation (repo : Repository) :
  fills Partial "Documentation & Usability" 10 1 10 (_check_documentation repo).
Proof. unfold _check_documentation, or_else; cbv zeta. fill_partial. Qed.

Lemma fills_code_quality (repo : Repository) :
  fills Total "Code Quality & Best Practices" 10 7 10
    (_check_code_quality repo).
Proof. unfold _check_code_quality; cbv zeta. fill_total. Qed.

Lemma fills_security (repo : Repository) :
  fills Total "Security & OWASP Compliance" 15 13 15 (_check_security repo).
Proof. unfold _check_security; cbv zeta. fill_total. Qed.

Lemma fills_cicd (repo : Repository) :
  fills Total "CI/CD & DevSecOps" 10 5 10 (_check_cicd repo).
Proof. unfold _check_cicd, or_else; cbv zeta. fill_total. Qed.

Lemma fills_testing (repo : Repository) :
  fills Total "Testing & Validation" 10 3 9 (_check_testing repo).
Proof. unfold _check_testing, or_else; cbv zeta. fill_total. Qed.

Lemma fills_performance (repo : Repository) :
  fills Total "Performance & Scalability" 10 9 9 (_check_performance repo).
Proof. unfold _check_performance; cbv zeta. fill_total. Qed.

Lemma fills_logging (repo : Repository) :
  fills Total "Logging & Monitoring" 10 7 7 (_check_logging repo).
Proof. unfold _check_logging; cbv zeta. fill_total. Qed.

Lemma fills_community (repo : Repository) :
  fills Partial "Community & Support" 10 5 10 (_check_community repo).
Proof. unfold _check_community; cbv zeta. fill_partial. Qed.

Lemma fills_legal (repo : Repository) :
  fills Partial "Legal & Compliance" 5 1 5 (_check_legal repo).
Proof. unfold _check_legal; cbv zeta. fill_partial. Qed.

(** ** A category that is built from nothing *)

Lemma Dict_set_fresh {V} (k : string) (v : V) (d : Dict.t V) :
  Dict.get k d = None -> Dict.set k v d = (d ++ [(k, v)])%list.
Proof.
  induction d as [|[k' v'] d IH]; simpl; [reflexivity|].
  destruct (String.eqb k k'); [discriminate|]. intros H. now rewrite IH.
Qed.

Lemma Dict_get_last {V} (k : string) (v : V) (d : Dict.t V) :
  Dict.get k d = None -> Dict.get k (d ++ [(k, v)])%list = Some v.
Proof.
  induction d as [|[k' v'] d IH]; simpl.
  - now rewrite String.eqb_refl.
  - destruct (String.eqb k k'); [discriminate|]. exact IH.
Qed.

Lemma Dict_set_last {V} (k : string) (v v' : V) (d : Dict.t V) :
  Dict.get k d = None ->
  Dict.set k v' (d ++ [(k, v)])%list = (d ++ [(k, v')])%list.
Proof.
  induction d as [|[k' v0] d IH]; simpl.
  - now rewrite String.eqb_refl.
  - destruct (String.eqb k k'); [discriminate|]. intros H. now rewrite IH.
Qed.

Lemma replay_categories_last (c : string) (l : list CheckArgs) :
  Forall (fun a => a_category a = c) l ->
  forall cats v,
    Dict.get c cats = None ->
    replay_categories l (cats ++ [(c, v)])%list
    = (cats ++ [(c, mkCategory (checks v ++ map record_of l)%list
                      (score v + total_awarded l)
                      (max_score v + total_points l))])%list.
Proof.
  induction 1 as [|a l Ha Hl IH]; intros cats v Hfresh.
  - simpl. rewrite app_nil_r, !Z.add_0_r. now destruct v.
  - unfold replay_categories in *. simpl.
    unfold add_to_categories at 2. rewrite Ha.
    rewrite (Dict_get_last c v cats Hfresh), (Dict_set_last c _ _ cats Hfresh).
    rewrite (IH cats _ Hfresh). unfold add_to_category; simpl.
    rewrite <- app_assoc, !Z.add_assoc. reflexivity.
Qed.

Lemma replay_categories_fresh (c : string) (l : list CheckArgs)
    (cats : Dict.t Category) :
  Forall (fun a => a_category a = c) l ->
  l <> [] ->
  Dict.get c cats = None ->
  replay_categories l cats = (cats ++ [(c, category_of l)])%list.
Proof.
  intros Hl Hne Hfresh. destruct l as [|a l]; [contradiction|].
  pose proof (Forall_inv Hl) as Ha. pose proof (Forall_inv_tail Hl) as Hl'.
  simpl in Ha.
  unfold replay_categories. simpl. fold (replay_categories l).
  unfold add_to_categories. rewrite Ha, Hfresh.
  rewrite (Dict_set_fresh _ _ _ Hfresh).
  rewrite (replay_categories_last _ l Hl' cats _ Hfresh).
  unfold add_to_category, category_of; simpl. reflexivity.
Qed.

Lemma in_category_unit (c : string) (l : list CheckArgs) :
  Forall (in_category c) l -> Forall unit_weight l.
Proof. apply Forall_impl. now intros a [_ H]. Qed.

Lemma in_category_name (c : string) (l : list CheckArgs) :
  Forall (in_category c) l -> Forall (fun a => a_category a = c) l.
Proof. apply Forall_impl. now intros a [H _]. Qed.

(** One more category at the end of the report matches its row. *)
Lemma filled_row (c : string) (n : nat) (lo hi : Z) (l : list CheckArgs)
    (cats : Dict.t Category) :
  Forall (in_category c) l ->
  length l = S n ->
  lo <= total_awarded l <= hi ->
  Dict.get c cats = None ->
  replay_categories l cats = (cats ++ [(c, category_of l)])%list /\
  matches_row (c, category_of l) (c, S n, lo, hi).
Proof.
  intros Hc Hlen Hb Hfresh. split.
  - apply replay_categories_fresh; [now apply in_category_name| |assumption].
    destruct l; [discriminate|congruence].
  - unfold matches_row, category_of. cbn [fst snd checks score max_score].
    rewrite length_map,
      (unit_weight_total_points l (in_category_unit c l Hc)), Hlen.
    auto.
Qed.

Lemma replay_categories_app (l1 l2 : list CheckArgs) (cats : Dict.t Category) :
  replay_categories (l1 ++ l2) cats
  = replay_categories l2 (replay_categories l1 cats).
Proof. unfold replay_categories. apply fold_left_app. Qed.

Ltac next_row l Hc Hb :=
  match goal with
  | |- context [replay_categories l ?cats] =>
      let E := fresh "E" in
      let R := fresh "R" in
      destruct (filled_row _ _ _ _ l cats Hc (proj1 Hb) (proj2 Hb) eq_refl)
        as [E R];
      rewrite E; simpl app
  end.

Ltac catalog_raised :=
  eexists (inl _), _; split;
  [ unfold catalog;
    repeat (eapply writes_bind_ok; [eassumption|]);
    first [ eassumption | apply writes_bind_exn; eassumption ]
  | intros u Hu; discriminate Hu ].

(** The calls of a catalog that ran to its end build the ten categories of
    the layout, in its order. *)
Lemma catalog_rows (repo : Repository) (owner : string) :
  exists r l,
    writes (catalog repo owner) r l /\
    (forall u, r = inr u ->
               Forall2 matches_row (replay_categories l []) catalog_layout).
Proof.
  destruct (fills_general_compliance repo owner)
    as ([e|[]] & l1 & Hw1 & Hc1 & Hb1); [catalog_raised|].
  destruct (fills_documentation repo)
    as ([e|[]] & l2 & Hw2 & Hc2 & Hb2); [catalog_raised|].
  destruct (fills_code_quality repo)
    as ([e|[]] & l3 & Hw3 & Hc3 & Hb3); [destruct Hb3|].
  destruct (fills_security repo)
    as ([e|[]] & l4 & Hw4 & Hc4 & Hb4); [destruct Hb4|].
  destruct (fills_cicd repo)
    as ([e|[]] & l5 & Hw5 & Hc5 & Hb5); [destruct Hb5|].
  destruct (fills_testing repo)
    as ([e|[]] & l6 & Hw6 & Hc6 & Hb6); [destruct Hb6|].
  destruct (fills_performance repo)
    as ([e|[]] & l7 & Hw7 & Hc7 & Hb7); [destruct Hb7|].
  destruct (fills_logging repo)
    as ([e|[]] & l8 & Hw8 & Hc8 & Hb8); [destruct Hb8|].
  destruct (fills_community repo)
    as ([e|[]] & l9 & Hw9 & Hc9 & Hb9); [catalog_raised|].
  destruct (fills_legal repo)
    as ([e|[]] & l10 & Hw10 & Hc10 & Hb10); [catalog_raised|].
  exists (inr tt),
    (l1 ++ l2 ++ l3 ++ l4 ++ l5 ++ l6 ++ l7 ++ l8 ++ l9 ++ l10)%list.
  split.
  - unfold catalog. repeat (eapply writes_bind_ok; [eassumption|]).
    eassumption.
  - intros _ _. rewrite !replay_categories_app.
    next_row l1 Hc1 Hb1.
    next_row l2 Hc2 Hb2.
    next_row l3 Hc3 Hb3.
    next_row l4 Hc4 Hb4.
    next_row l5 Hc5 Hb5.
    next_row l6 Hc6 Hb6.
    next_row l7 Hc7 Hb7.
    next_row l8 Hc8 Hb8.
    next_row l9 Hc9 Hb9.
    next_row l10 Hc10 Hb10.
    unfold catalog_layout. repeat (constructor; [assumption|]). constructor.
Qed.

Lemma matches_row_totals (cats : Dict.t Category)
    (rows : list (string * nat * Z * Z)) :
  Forall2 matches_row cats rows ->
  least_total rows <= sum_scores cats <= most_total rows /\
  keys cats = map (fun row => let '(cname, _, _, _) := row in cname) rows.
Proof.
  induction 1 as [|kv [[[cname n] lo] hi] cats rows Hrow Hrest IH]; simpl.
  - split; [lia|reflexivity].
  - destruct Hrow as (Hname & _ & _ & Hscore). destruct IH as [IH1 IH2].
    split; [lia|]. unfold keys in *. simpl. now rewrite Hname, IH2.
Qed.

Lemma completed_catalog_rows
    (urlparse : string -> outcome ParseResult)
    (page_text : string -> outcome string) (repo_url : string)
    (self : Checker) (parsed_url : ParseResult) (owner repo_name : string)
    (repo : Repository) (report : Results) (self' : Checker) :
  urlparse repo_url = inr parsed_url ->
  is_github_netloc (netloc parsed_url) = true ->
  owner_and_repo_name (PyStr.split "/" (PyStr.strip "/" (path parsed_url)))
  = Some (owner, repo_name) ->
  get_repo (github_client self) (owner ++ "/" ++ repo_name) = inr repo ->
  check_compliance urlparse page_text repo_url self = (inr report, self') ->
  error report = None ->
  Forall2 matches_row (categories report) catalog_layout.
Proof.
  intros Hparse Hhost Hparts Hrepo Hrun Herr.
  destruct (catalog_rows repo owner) as (r & l & Hw & Hrows).
  rewrite (check_compliance_catalog urlparse page_text repo_url self
             parsed_url Hparse owner repo_name repo r l Hhost Hparts Hrepo Hw)
    in Hrun.
  apply finished_report in Hrun. destruct Hrun as (p & _ & -> & _).
  unfold final_report in *; simpl in *.
  destruct r as [e|u]; [discriminate|]. exact (Hrows u eq_refl).
Qed.

Lemma completed_catalog_total
    (urlparse : string -> outcome ParseResult)
    (page_text : string -> outcome string)
    (Github_new : option string -> Github) (github_token : option string)
    (repo_url : string) (parsed_url : ParseResult) (owner repo_name : string)
    (repo : Repository) (report : Results) (self' : Checker) :
  urlparse repo_url = inr parsed_url ->
  is_github_netloc (netloc parsed_url) = true ->
  owner_and_repo_name (PyStr.split "/" (PyStr.strip "/" (path parsed_url)))
  = Some (owner, repo_name) ->
  get_repo (github_client (__init__ Github_new github_token))
    (owner ++ "/" ++ repo_name) = inr repo ->
  check_compliance urlparse page_text repo_url
    (__init__ Github_new github_token) = (inr report, self') ->
  error report = None ->
  51 <= r_score report <= 95.
Proof.
  intros Hparse Hhost Hparts Hrepo Hrun Herr.
  pose proof (completed_catalog_rows _ _ _ _ _ _ _ _ _ _
                Hparse Hhost Hparts Hrepo Hrun Herr) as Hrows.
  destruct (check_compliance_total _ _ _ _ _ _ Hrun) as (_ & Hsum & _).
  simpl in Hsum. rewrite Hsum.
  exact (proj1 (matches_row_totals _ _ Hrows)).
Qed.

(** X7. When the repository resolves and the catalog runs to its end (the
    report has no ["error"]), the report holds exactly the ten categories of
    the docstrings, in the order [_check_github_repo] calls them, with 10,
    10, 10, 15, 10, 10, 10, 10, 10 and 5 checks and as many points each; the
    score of each lies between the number of its constant passes and that
    number plus its probes - Performance is always 9 of 10 and Logging 7 of
    10. *)
Theorem completed_catalog_layout
    (urlparse : string -> outcome ParseResult)
    (page_text : string -> outcome string) (repo_url : string)
    (self : Checker) (parsed_url : ParseResult) (owner repo_name : string)
    (repo : Repository) (report : Results) (self' : Checker) :
  urlparse repo_url = inr parsed_url ->
  is_github_netloc (netloc parsed_url) = true ->
  owner_and_repo_name (PyStr.split "/" (PyStr.strip "/" (path parsed_url)))
  = Some (owner, repo_name) ->
  get_repo (github_client self) (owner ++ "/" ++ repo_name) = inr repo ->
  check_compliance urlparse page_text repo_url self = (inr report, self') ->
  error report = None ->
  Forall2 matches_row (categories report) catalog_layout.
Proof.
  intros Hparse Hhost Hparts Hrepo Hrun Herr.
  destruct (catalog_rows repo owner) as (r & l & Hw & Hrows).
  rewrite (check_compliance_catalog urlparse page_text repo_url self
             parsed_url Hparse owner repo_name repo r l Hhost Hparts Hrepo Hw)
    in Hrun.
  apply finished_report in Hrun. destruct Hrun as (p & _ & -> & _).
  unfold final_report in *; simpl in *.
  destruct r as [e|u]; [discriminate|]. exact (Hrows u eq_refl).
Qed.

Lemma completed_catalog_layout_witness :
  Forall2 matches_row (categories Sample.repository_report) catalog_layout.
Proof.
  refine (completed_catalog_layout Sample.urlparse Sample.page_text
            "https://github.com/OWASP/BLT" Sample.checker
            (mkParseResult "github.com" "/OWASP/BLT") "OWASP" "BLT"
            Sample.favorable_repo Sample.repository_report
            (snd (Sample.run "https://github.com/OWASP/BLT" Sample.checker))
            eq_refl eq_refl eq_refl eq_refl _ eq_refl).
  vm_compute. reflexivity.
Defined.

(** X8. A repository whose catalog runs to its end scores, on a newly
    constructed checker, at least 51 and at most 95 of 100: 51 checks are
    constant passes (or probes that cannot fail, as the secrets check) and 5
    are constant failures. *)
Theorem completed_catalog_score
    (urlparse : string -> outcome ParseResult)
    (page_text : string -> outcome string)
    (Github_new : option string -> Github) (github_token : option string)
    (repo_url : string) (parsed_url : ParseResult) (owner repo_name : string)
    (repo : Repository) (report : Results) (self' : Checker) :
  urlparse repo_url = inr parsed_url ->
  is_github_netloc (netloc parsed_url) = true ->
  owner_and_repo_name (PyStr.split "/" (PyStr.strip "/" (path parsed_url)))
  = Some (owner, repo_name) ->
  get_repo (github_client (__init__ Github_new github_token))
    (owner ++ "/" ++ repo_name) = inr repo ->
  check_compliance urlparse page_text repo_url
    (__init__ Github_new github_token) = (inr report, self') ->
  error report = None ->
  51 <= r_score report <= 95.
Proof.
  intros Hparse Hhost Hparts Hrepo Hrun Herr.
  pose proof (completed_catalog_rows _ _ _ _ _ _ _ _ _ _
                Hparse Hhost Hparts Hrepo Hrun Herr) as Hrows.
  destruct (check_compliance_total _ _ _ _ _ _ Hrun) as (_ & Hsum & _).
  simpl in Hsum. rewrite Hsum.
  exact (proj1 (matches_row_totals _ _ Hrows)).
Qed.

Lemma completed_catalog_score_witness :
  51 <= r_score Sample.repository_report <= 95.
Proof.
  refine (completed_catalog_score Sample.urlparse Sample.page_text
            Sample.Github_new None "https://github.com/OWASP/BLT"
            (mkParseResult "github.com" "/OWASP/BLT") "OWASP" "BLT"
            Sample.favorable_repo Sample.repository_report
            (snd (Sample.run "https://github.com/OWASP/BLT" Sample.checker))
            eq_refl eq_refl eq_refl eq_refl _ eq_refl).
  vm_compute. reflexivity.
Defined.

(* ================================================================== *)
(** * Checks that share a probe *)

Lemma writes_pure {A} (m : M A) (a : A) :
  (forall self, m self = (inr a, self)) -> writes m (inr a) [].
Proof. intros H self rep _. apply H. Qed.

Lemma total_awarded_flags (l : list CheckArgs) :
  Forall unit_weight l -> total_awarded l = count_passed (map a_passed l).
Proof.
  induction 1 as [|a l Ha Hl IH]; [reflexivity|].
  simpl. rewrite IH. unfold awarded. now rewrite Ha.
Qed.

(** A category function whose calls and flags are known, run on a report
    that does not have its category yet. *)
Lemma category_from_flags (c : string) (m : M unit) (l : list CheckArgs)
    (flags : list bool) (self : Checker) (rep : Results) :
  writes m (inr tt) l ->
  Forall (in_category c) l ->
  map a_passed l = flags ->
  flags <> [] ->
  results self = Report rep ->
  Dict.get c (categories rep) = None ->
  exists self' rep' v,
    m self = (inr tt, self') /\
    results self' = Report rep' /\
    categories rep' = (categories rep ++ [(c, v)])%list /\
    map passed (checks v) = flags /\
    max_score v = Z.of_nat (length flags) /\
    score v = count_passed flags /\
    current_score self' = current_score self + count_passed flags.
Proof.
  intros Hw Hc Hflags Hne Hres Hfresh.
  exists (replay l self),
    (with_categories rep (replay_categories l (categories rep))),
    (category_of l).
  split; [exact (Hw self rep Hres)|].
  split; [exact (replay_results l self rep Hres)|].
  pose proof (in_category_unit c l Hc) as Hunit.
  split; [|split; [|split; [|split]]].
  - simpl. apply replay_categories_fresh; [now apply in_category_name| |assumption].
    intros ->. now apply Hne.
  - simpl. rewrite map_map. exact Hflags.
  - simpl. rewrite (unit_weight_total_points l Hunit), <- Hflags.
    now rewrite length_map.
  - simpl. now rewrite (total_awarded_flags l Hunit), Hflags.
  - rewrite (replay_run l self rep Hres). simpl.
    now rewrite (total_awarded_flags l Hunit), Hflags.
Qed.

Ltac run_adds :=
  repeat (eapply writes_bind_ok; [apply writes_add|]); apply writes_add.

Lemma testing_calls (repo : Repository) :
  let has_tests := (found repo "tests" || found repo "test")%bool in
  exists l,
    writes (_check_testing repo) (inr tt) l /\
    Forall (in_category "Testing & Validation") l /\
    map a_passed l
    = [has_tests; has_tests; has_tests; has_tests; has_tests; false; true;
       true; true; has_tests].
Proof.
  intros has_tests. unfold _check_testing; cbv zeta.
  eexists. split; [|split].
  - eapply writes_bind_ok.
    + apply writes_pure.
      apply (or_else_run _ _ (found repo "tests") (found repo "test"));
        intro; apply check_file_exists_run.
    + cbv beta. run_adds.
  - simpl. repeat (constructor; [split; reflexivity|]). constructor.
  - reflexivity.
Qed.

(** X9. The Testing category is all or nothing.  On a report that does not
    have it yet, [_check_testing] adds it after the existing categories with
    10 points; six of its checks pass exactly when [tests] or [test] can be
    fetched from the repository, three always pass and "Automated fuzz
    testing" never does, so its score is 9 with such a directory and 3
    without. *)
Theorem testing_all_or_nothing (repo : Repository) (self : Checker)
    (rep : Results) :
  results self = Report rep ->
  Dict.get "Testing & Validation" (categories rep) = None ->
  let has_tests := (found repo "tests" || found repo "test")%bool in
  exists self' rep' v,
    _check_testing repo self = (inr tt, self') /\
    results self' = Report rep' /\
    categories rep'
    = (categories rep ++ [("Testing & Validation", v)])%list /\
    map passed (checks v)
    = [has_tests; has_tests; has_tests; has_tests; has_tests; false; true;
       true; true; has_tests] /\
    max_score v = 10 /\
    score v = (if has_tests then 9 else 3).
Proof.
  intros Hres Hfresh has_tests.
  destruct (testing_calls repo) as (l & Hw & Hc & Hflags).
  fold has_tests in Hflags.
  destruct (category_from_flags _ _ l _ self rep Hw Hc Hflags
              ltac:(discriminate) Hres Hfresh)
    as (self' & rep' & v & Hrun & Hres' & Hcats & Hpassed & Hmax & Hscore & _).
  exists self', rep', v. repeat split; try assumption.
  rewrite Hscore. destruct has_tests; reflexivity.
Qed.

Lemma testing_all_or_nothing_witness :
  exists self' rep' v,
    _check_testing Sample.favorable_repo
      (with_results Sample.checker
         (Report (init_results "https://github.com/OWASP/BLT" Sample.checker)))
    = (inr tt, self') /\
    results self' = Report rep' /\
    categories rep' = [("Testing & Validation", v)] /\
    max_score v = 10 /\ score v = 9.
Proof.
  destruct (testing_all_or_nothing Sample.favorable_repo
              (with_results Sample.checker
                 (Report (init_results "https://github.com/OWASP/BLT"
                            Sample.checker)))
              (init_results "https://github.com/OWASP/BLT" Sample.checker)
              eq_refl eq_refl)
    as (self' & rep' & v & Hrun & Hres & Hcats & _ & Hmax & Hscore).
  exists self', rep', v. repeat split; assumption.
Defined.

Lemma cicd_calls (repo : Repository) :
  let has_tests :=
    (found repo "tests" || (found repo "test" || found repo "__tests__"))%bool
  in
  let has_ci :=
    (found repo ".github/workflows"
     || (found repo ".gitlab-ci.yml"
         || (found repo ".travis.yml" || found repo "Jenkinsfile")))%bool in
  exists l,
    writes (_check_cicd repo) (inr tt) l /\
    Forall (in_category "CI/CD & DevSecOps") l /\
    map a_passed l
    = [has_tests; has_ci; has_ci; has_ci; has_ci; true; true; true; true;
       true].
Proof.
  intros has_tests has_ci. unfold _check_cicd; cbv zeta.
  eexists. split; [|split].
  - eapply writes_bind_ok.
    + apply writes_pure.
      apply (or_else_run _ _ (found repo "tests")
               (found repo "test" || found repo "__tests__"));
        [intro; apply check_file_exists_run|].
      apply or_else_run; intro; apply check_file_exists_run.
    + cbv beta. eapply writes_bind_ok; [apply writes_add|].
      eapply writes_bind_ok.
      * apply writes_pure.
        apply (or_else_run _ _ (found repo ".github/workflows")
                 (found repo ".gitlab-ci.yml"
                  || (found repo ".travis.yml" || found repo "Jenkinsfile")));
          [intro; apply check_file_exists_run|].
        apply (or_else_run _ _ (found repo ".gitlab-ci.yml")
                 (found repo ".travis.yml" || found repo "Jenkinsfile"));
          [intro; apply check_file_exists_run|].
        apply or_else_run; intro; apply check_file_exists_run.
      * cbv beta. run_adds.
  - simpl. repeat (constructor; [split; reflexivity|]). constructor.
  - reflexivity.
Qed.

(** X10. In the CI/CD category one probe decides four checks: "Continuous
    Integration configured", "CI/CD includes security scanning", "Dependency
    scanning automated" and "Code coverage reports generated" all pass
    exactly when one of [.github/workflows], [.gitlab-ci.yml], [.travis.yml]
    or [Jenkinsfile] can be fetched; the first check passes when [tests],
    [test] or [__tests__] can, and the last five always pass.  The score is
    5, 6, 9 or 10. *)
Theorem cicd_checks_share_probe (repo : Repository) (self : Checker)
    (rep : Results) :
  results self = Report rep ->
  Dict.get "CI/CD & DevSecOps" (categories rep) = None ->
  let has_tests :=
    (found repo "tests" || (found repo "test" || found repo "__tests__"))%bool
  in
  let has_ci :=
    (found repo ".github/workflows"
     || (found repo ".gitlab-ci.yml"
         || (found repo ".travis.yml" || found repo "Jenkinsfile")))%bool in
  exists self' rep' v,
    _check_cicd repo self = (inr tt, self') /\
    results self' = Report rep' /\
    categories rep' = (categories rep ++ [("CI/CD & DevSecOps", v)])%list /\
    map passed (checks v)
    = [has_tests; has_ci; has_ci; has_ci; has_ci; true; true; true; true;
       true] /\
    max_score v = 10 /\
    score v = 5 + (if has_tests then 1 else 0) + (if has_ci then 4 else 0).
Proof.
  intros Hres Hfresh has_tests has_ci.
  destruct (cicd_calls repo) as (l & Hw & Hc & Hflags).
  fold has_tests has_ci in Hflags.
  destruct (category_from_flags _ _ l _ self rep Hw Hc Hflags
              ltac:(discriminate) Hres Hfresh)
    as (self' & rep' & v & Hrun & Hres' & Hcats & Hpassed & Hmax & Hscore & _).
  exists self', rep', v. repeat split; try assumption.
  rewrite Hscore. destruct has_tests, has_ci; reflexivity.
Qed.

Lemma cicd_checks_share_probe_witness :
  exists self' rep' v,
    _check_cicd Sample.favorable_repo
      (with_results Sample.checker
         (Report (init_results "https://github.com/OWASP/BLT" Sample.checker)))
    = (inr tt, self') /\
    results self' = Report rep' /\
    categories rep' = [("CI/CD & DevSecOps", v)] /\
    max_score v = 10 /\ score v = 10.
Proof.
  destruct (cicd_checks_share_probe Sample.favorable_repo
              (with_results Sample.checker
                 (Report (init_results "https://github.com/OWASP/BLT"
                            Sample.checker)))
              (init_results "https://github.com/OWASP/BLT" Sample.checker)
              eq_refl eq_refl)
    as (self' & rep' & v & Hrun & Hres & Hcats & _ & Hmax & Hscore).
  exists self', rep', v. repeat split; assumption.
Defined.

(* ================================================================== *)
(** * Failures *)

Lemma general_first_check (repo : Repository) (owner : string) (e : exn) :
  get_license repo = inl e ->
  exists p d f,
    writes (_check_general_compliance repo owner) (inl e)
      [mkArgs "General Compliance & Governance"
         "Clearly defined project goal and scope" p 1 d f].
Proof.
  intros Hlic. unfold _check_general_compliance; cbv zeta.
  assert (Hrest : forall (k : option License -> M unit),
             writes (bind (call (get_license repo)) k) (inl e) []).
  { intros k. apply writes_bind_exn. rewrite Hlic. apply writes_call. }
  destruct (get_readme repo) as [e1|readme] eqn:Hreadme.
  - eexists _, _, _.
    apply (writes_bind_ok _ _ tt [_] (inl e) []); [|apply Hrest].
    apply (writes_try_exn _ _ e1 [] (inr tt) [_]);
      [apply writes_bind_exn, writes_call|apply writes_add].
  - destruct (cf_decoded readme) as [e2|text] eqn:Hdecoded.
    + eexists _, _, _.
      apply (writes_bind_ok _ _ tt [_] (inl e) []); [|apply Hrest].
      apply (writes_try_exn _ _ e2 [] (inr tt) [_]); [|apply writes_add].
      apply (writes_bind_ok _ _ readme [] (inl e2) []); [apply writes_call|].
      cbv beta. apply writes_bind_exn. rewrite Hdecoded. apply writes_call.
    + eexists _, _, _.
      apply (writes_bind_ok _ _ tt [_] (inl e) []); [|apply Hrest].
      apply writes_try_ok.
      apply (writes_bind_ok _ _ readme [] (inr tt) [_]); [apply writes_call|].
      cbv beta.
      apply (writes_bind_ok _ _ text [] (inr tt) [_]);
        [rewrite Hdecoded; apply writes_call|].
      apply writes_add.
Qed.

(** X11. [repo.get_license()] is called outside any [try]: when it raises
    (as it does for a repository without a license), the run stops after the
    first check.  The report then holds the one category "General Compliance
    & Governance" with the one check "Clearly defined project goal and
    scope", the ["error"] that [_check_github_repo] writes for the
    exception, and a score of 0 or 1. *)
Theorem license_failure_stops_the_run
    (urlparse : string -> outcome ParseResult)
    (page_text : string -> outcome string)
    (Github_new : option string -> Github) (github_token : option string)
    (repo_url : string) (parsed_url : ParseResult) (owner repo_name : string)
    (repo : Repository) (e : exn) :
  urlparse repo_url = inr parsed_url ->
  is_github_netloc (netloc parsed_url) = true ->
  owner_and_repo_name (PyStr.split "/" (PyStr.strip "/" (path parsed_url)))
  = Some (owner, repo_name) ->
  get_repo (github_client (__init__ Github_new github_token))
    (owner ++ "/" ++ repo_name) = inr repo ->
  get_license repo = inl e ->
  exists report self' k,
    check_compliance urlparse page_text repo_url
      (__init__ Github_new github_token) = (inr report, self') /\
    categories report
    = [("General Compliance & Governance", mkCategory [k] (points k) 1)] /\
    name k = "Clearly defined project goal and scope" /\
    error report = Some (github_repo_error e) /\
    r_score report = points k /\
    (points k = 0 \/ points k = 1).
Proof.
  intros Hparse Hhost Hparts Hrepo Hlic.
  destruct (general_first_check repo owner e Hlic) as (p & d & f & Hw).
  assert (Hcat : writes (catalog repo owner) (inl e)
                   [mkArgs "General Compliance & Governance"
                      "Clearly defined project goal and scope" p 1 d f]).
  { unfold catalog. now apply writes_bind_exn. }
  rewrite (check_compliance_catalog urlparse page_text repo_url _
             parsed_url Hparse owner repo_name repo _ _ Hhost Hparts Hrepo
             Hcat).
  unfold finished.
  change (current_score (__init__ Github_new github_token)) with 0.
  change (self_max_score (__init__ Github_new github_token)) with 100.
  rewrite percentage_of_score
    by (unfold total_awarded, awarded; simpl; destruct p; lia).
  eexists _, _,
    (record_of (mkArgs "General Compliance & Governance"
                  "Clearly defined project goal and scope" p 1 d f)).
  split; [reflexivity|].
  unfold final_report, record_of, awarded; simpl.
  split; [reflexivity|]. split; [reflexivity|]. split; [reflexivity|].
  destruct p; simpl; split; auto.
Qed.

Lemma license_failure_stops_the_run_witness :
  exists report self' k,
    check_compliance Sample.urlparse Sample.page_text
      "https://github.com/OWASP/BLT" Sample2.unlicensed_checker
    = (inr report, self') /\
    categories report
    = [("General Compliance & Governance", mkCategory [k] (points k) 1)] /\
    name k = "Clearly defined project goal and scope" /\
    error report = Some (github_repo_error Sample2.not_found) /\
    r_score report = points k /\
    (points k = 0 \/ points k = 1).
Proof.
  exact (license_failure_stops_the_run Sample.urlparse Sample.page_text
           (fun _ => Sample2.unlicensed_client) None
           "https://github.com/OWASP/BLT"
           (mkParseResult "github.com" "/OWASP/BLT") "OWASP" "BLT"
           Sample2.unlicensed_repo Sample2.not_found
           eq_refl eq_refl eq_refl eq_refl eq_refl).
Defined.

(** X12. When the page of a website target cannot be fetched, a newly
    constructed checker returns a report with no category, no ["note"],
    score 0 and the ["error"] "Failed to fetch website: " followed by the
    text of the exception. *)
Theorem website_fetch_failure
    (urlparse : string -> outcome ParseResult)
    (page_text : string -> outcome string)
    (Github_new : option string -> Github) (github_token : option string)
    (repo_url : string) (parsed_url : ParseResult) (e : exn) :
  urlparse repo_url = inr parsed_url ->
  is_github_netloc (netloc parsed_url) = false ->
  page_text repo_url = inl e ->
  exists self',
    check_compliance urlparse page_text repo_url
      (__init__ Github_new github_token)
    = (inr (mkResults repo_url 0 100 (PyFloat 0%float) []
              (Some ("Failed to fetch website: " ++ exn_str e)) None),
       self').
Proof.
  intros Hparse Hhost Htext.
  rewrite (check_compliance_website_failed urlparse page_text repo_url _
             parsed_url Hparse e Hhost Htext).
  unfold finished.
  change (current_score (__init__ Github_new github_token)
          + total_awarded []) with 0.
  change (self_max_score (__init__ Github_new github_token)) with 100.
  rewrite (percentage_of_score 0) by lia.
  eexists. reflexivity.
Qed.

Lemma website_fetch_failure_witness :
  exists self',
    check_compliance Sample.urlparse
      (fun _ => inl (PyException "ConnectionError" "Max retries exceeded"))
      "https://example.org/" Sample.checker
    = (inr (mkResults "https://example.org/" 0 100 (PyFloat 0%float) []
              (Some "Failed to fetch website: Max retries exceeded") None),
       self').
Proof.
  exact (website_fetch_failure Sample.urlparse
           (fun _ => inl (PyException "ConnectionError" "Max retries exceeded"))
           Sample.Github_new None "https://example.org/"
           (mkParseResult "example.org" "/")
           (PyException "ConnectionError" "Max retries exceeded")
           eq_refl eq_refl eq_refl).
Defined.

Lemma website_checks_awarded (text : string) :
  total_awarded (website_checks text) = 0 \/
  total_awarded (website_checks text) = 5 \/
  total_awarded (website_checks text) = 10.
Proof.
  unfold website_checks.
  generalize (PyStr.contains "owasp" (PyStr.lower text)),
    (PyStr.any_in ["security"; "vulnerability"; "privacy"] (PyStr.lower text)).
  intros [|] [|]; cbv; auto.
Qed.

(** X13. A website target can earn at most 10 of the 100 points: for every
    page that can be fetched, a newly constructed checker returns one
    category "Website Compliance" with 10 points and a score of 0, 5 or 10,
    while the report's max_score stays 100, so its percentage is 0.0, 5.0
    or 10.0. *)
Theorem website_score_cap
    (urlparse : string -> outcome ParseResult)
    (page_text : string -> outcome string)
    (Github_new : option string -> Github) (github_token : option string)
    (repo_url : string) (parsed_url : ParseResult) (text : string) :
  urlparse repo_url = inr parsed_url ->
  is_github_netloc (netloc parsed_url) = false ->
  page_text repo_url = inr text ->
  exists report self' v,
    check_compliance urlparse page_text repo_url
      (__init__ Github_new github_token) = (inr report, self') /\
    categories report = [("Website Compliance", v)] /\
    max_score v = 10 /\
    score v = r_score report /\
    (r_score report = 0 \/ r_score report = 5 \/ r_score report = 10) /\
    r_max_score report = 100 /\
    percentage report = PyFloat (float_of_int (r_score report)).
Proof.
  intros Hparse Hhost Htext.
  rewrite (check_compliance_website_fetched urlparse page_text repo_url _
             parsed_url Hparse text Hhost Htext).
  unfold finished.
  change (current_score (__init__ Github_new github_token)) with 0.
  change (self_max_score (__init__ Github_new github_token)) with 100.
  rewrite Z.add_0_l.
  pose proof (website_checks_awarded text) as Hs.
  rewrite percentage_of_score by lia.
  eexists _, _, _. split; [reflexivity|].
  unfold final_report.
  change (current_score (__init__ Github_new github_token)) with 0.
  rewrite Z.add_0_l. cbn [categories r_score r_max_score percentage].
  split; [reflexivity|]. cbn [max_score score].
  split; [reflexivity|]. split; [|auto].
  unfold website_checks.
  generalize (PyStr.contains "owasp" (PyStr.lower text)),
    (PyStr.any_in ["security"; "vulnerability"; "privacy"] (PyStr.lower text)).
  intros [|] [|]; reflexivity.
Qed.

Lemma website_score_cap_witness :
  exists report self' v,
    Sample.run "https://owasp.example.org/" Sample.checker
    = (inr report, self') /\
    categories report = [("Website Compliance", v)] /\
    max_score v = 10 /\
    score v = r_score report /\
    (r_score report = 0 \/ r_score report = 5 \/ r_score report = 10) /\
    r_max_score report = 100 /\
    percentage report = PyFloat (float_of_int (r_score report)).
Proof.
  exact (website_score_cap Sample.urlparse Sample.page_text Sample.Github_new
           None "https://owasp.example.org/"
           (mkParseResult "owasp.example.org" "/")
           "Welcome to the OWASP chapter page" eq_refl eq_refl eq_refl).
Defined.

(** X14. [urlparse] is called outside any [try]: when it raises,
    [check_compliance] raises the same exception after installing the empty
    report, with the running total as it was; [main] does not catch it, so
    the command line ends with that exception after its two progress
    lines. *)
Theorem unparsed_url_is_not_caught
    (urlparse : string -> outcome ParseResult)
    (page_text : string -> outcome string)
    (Github_new : option string -> Github)
    (float_str : float -> string) (json_dumps : Results -> string)
    (args : Args) (e : exn) :
  urlparse (args_url args) = inl e ->
  (forall self,
      exists self',
        check_compliance urlparse page_text (args_url args) self
        = (inl e, self') /\
        current_score self' = current_score self /\
        results self'
        = Report (mkResults (args_url args) 0 (self_max_score self) (PyInt 0)
                    [] None None)) /\
  main urlparse page_text Github_new float_str json_dumps args
  = (["Checking compliance for: " ++ args_url args;
      "This may take a moment..." ++ Render.nl],
     inl e).
Proof.
  intros Hparse. split.
  - intros self. eexists. split; [now apply check_compliance_unparsed|].
    split; reflexivity.
  - unfold main. now rewrite (check_compliance_unparsed _ _ _ _ e Hparse).
Qed.

Lemma unparsed_url_is_not_caught_witness :
  main Sample.urlparse Sample.page_text Sample.Github_new Sample2.float_str
    Sample2.json_dumps (mkCliArgs "http://[::1" None false)
  = (["Checking compliance for: http://[::1";
      "This may take a moment..." ++ Render.nl],
     inl (PyException "ValueError" "Invalid URL")).
Proof.
  exact (proj2 (unparsed_url_is_not_caught Sample.urlparse Sample.page_text
                  Sample.Github_new Sample2.float_str Sample2.json_dumps
                  (mkCliArgs "http://[::1" None false)
                  (PyException "ValueError" "Invalid URL") eq_refl)).
Defined.

(* ================================================================== *)
(** * A checker that is used again *)

(** What a branch adds to the report depends on the client, not on the
    checker's history. *)
Lemma dispatch_uniform (page_text : string -> outcome string)
    (repo_url : string) (parsed_url : ParseResult) (client : Github) :
  exists l err nt,
    forall self rep,
      github_client self = client ->
      results self = Report rep ->
      dispatch page_text repo_url parsed_url self
      = (inr tt, ran l err nt self rep).
Proof.
  unfold dispatch. destruct (is_github_netloc (netloc parsed_url)).
  - destruct (owner_and_repo_name
                (PyStr.split "/" (PyStr.strip "/" (path parsed_url))))
      as [[owner repo_name]|].
    + destruct (get_repo client (owner ++ "/" ++ repo_name))
        as [e|repo] eqn:Hrepo.
      * exists [], (Some (github_repo_error e)), None.
        intros self rep Hclient Hres.
        apply check_github_repo_unresolved; [assumption|].
        now rewrite Hclient.
      * destruct (runs_catalog repo owner) as (r & l & Hw & _).
        exists l, (catalog_error r), None.
        intros self rep Hclient Hres.
        apply (check_github_repo_catalog owner repo_name self rep repo);
          [assumption| |assumption].
        now rewrite Hclient.
    + exists [], None, None. intros self rep _ Hres.
      destruct self, rep. simpl in Hres. subst.
      unfold ret, ran; simpl. now rewrite Z.add_0_r.
  - destruct (page_text repo_url) as [e|text] eqn:Htext.
    + exists [], (Some ("Failed to fetch website: " ++ exn_str e)), None.
      intros self rep _ Hres. now apply check_website_failed.
    + exists (website_checks text), None, (Some website_note).
      intros self rep _ Hres. now apply check_website_fetched.
Qed.

(** X15. Evaluating the same target again on the same checker, with the same
    collaborators, reproduces the categories, the ["error"], the ["note"],
    the url and max_score of the first report exactly; only the score (and
    with it the percentage) differs: it is the first score plus the points
    of the run. *)
Theorem second_run_keeps_categories
    (urlparse : string -> outcome ParseResult)
    (page_text : string -> outcome string) (repo_url : string)
    (self : Checker) (r1 r2 : Results) (s1 s2 : Checker) :
  check_compliance urlparse page_text repo_url self = (inr r1, s1) ->
  check_compliance urlparse page_text repo_url s1 = (inr r2, s2) ->
  categories r2 = categories r1 /\
  error r2 = error r1 /\
  note r2 = note r1 /\
  url r2 = url r1 /\
  r_max_score r2 = r_max_score r1 /\
  r_score r2 = r_score r1 + sum_scores (categories r1).
Proof.
  intros H1 H2.
  destruct (urlparse repo_url) as [e|parsed_url] eqn:Hparse.
  { rewrite (check_compliance_unparsed _ _ _ _ e Hparse) in H1. discriminate. }
  destruct (dispatch_uniform page_text repo_url parsed_url
              (github_client self)) as (l & err & nt & Hrun).
  assert (Hfin : forall c,
             github_client c = github_client self ->
             check_compliance urlparse page_text repo_url c
             = finished repo_url c l err nt).
  { intros c Hc.
    apply (check_compliance_finish _ _ _ _ _ _ _ _ Hparse).
    apply Hrun; [exact Hc|reflexivity]. }
  rewrite (Hfin self eq_refl) in H1.
  apply finished_report in H1. destruct H1 as (p1 & _ & Hr1 & Hs1).
  assert (Hc1 : github_client s1 = github_client self) by now subst s1.
  assert (Hm1 : self_max_score s1 = self_max_score self) by now subst s1.
  assert (Hsc1 : current_score s1 = current_score self + total_awarded l)
    by now subst s1.
  rewrite (Hfin s1 Hc1) in H2.
  apply finished_report in H2. destruct H2 as (p2 & _ & Hr2 & _).
  subst r1 r2. unfold final_report; simpl.
  rewrite sum_scores_replay, Hm1, Hsc1. simpl. repeat split; lia.
Qed.

Lemma second_run_keeps_categories_witness :
  exists r2,
    fst (Sample.run "https://owasp.example.org/"
           (snd (Sample.run "https://owasp.example.org/" Sample.checker)))
    = inr r2 /\
    categories r2 = categories Sample.website_report /\
    note r2 = note Sample.website_report /\
    r_score r2
    = r_score Sample.website_report
      + sum_scores (categories Sample.website_report).
Proof.
  eexists. split; [vm_compute; reflexivity|].
  match goal with
  | |- categories ?r2 = _ /\ _ =>
      refine (let H :=
                second_run_keeps_categories Sample.urlparse Sample.page_text
                  "https://owasp.example.org/" Sample.checker
                  Sample.website_report r2
                  (snd (Sample.run "https://owasp.example.org/"
                          Sample.checker))
                  (snd (Sample.run "https://owasp.example.org/"
                          (snd (Sample.run "https://owasp.example.org/"
                                  Sample.checker))))
                  _ _ in _)
  end.
  - destruct H as (Hc & _ & Hn & _ & _ & Hs). auto.
  Unshelve.
  + vm_compute. reflexivity.
  + vm_compute. reflexivity.
Defined.

(* ================================================================== *)
(** * The command line *)

Lemma status_line_band (s : Z) :
  0 <= s <= 100 -> Render.status_line (PyFloat (float_of_int s)) = band s.
Proof.
  intros H.
  assert (exists n, s = Z.of_nat n /\ (n <= 100)%nat) as (n & -> & Hn).
  { exists (Z.to_nat s). lia. }
  clear H. do 101 (destruct n as [|n]; [vm_compute; reflexivity|]). lia.
Qed.

(** The score of a report of a newly constructed checker. *)
Lemma new_checker_score
    (urlparse : string -> outcome ParseResult)
    (page_text : string -> outcome string)
    (Github_new : option string -> Github) (github_token : option string)
    (repo_url : string) (parsed_url : ParseResult) :
  urlparse repo_url = inr parsed_url ->
  exists l err nt,
    check_compliance urlparse page_text repo_url
      (__init__ Github_new github_token)
    = finished repo_url (__init__ Github_new github_token) l err nt /\
    0 <= total_awarded l <= 95 /\
    (is_github_netloc (netloc parsed_url) = false -> total_awarded l <= 10).
Proof.
  intros Hparse. set (self := __init__ Github_new github_token).
  destruct (is_github_netloc (netloc parsed_url)) eqn:Hhost.
  - destruct (check_compliance_shape urlparse page_text repo_url self
                parsed_url Hparse) as (l & err & nt & Heq & Hpos & Hrepo).
    destruct (Hrepo Hhost) as (_ & _ & Hawarded & _).
    exists l, err, nt. split; [exact Heq|]. split; [|discriminate].
    split; [|exact Hawarded].
    apply total_awarded_bounds. eapply Forall_impl; [|exact Hpos].
    intros a Ha; simpl in Ha. lia.
  - destruct (page_text repo_url) as [e|text] eqn:Htext.
    + exists [], (Some ("Failed to fetch website: " ++ exn_str e)), None.
      split; [|simpl; lia].
      exact (check_compliance_website_failed urlparse page_text repo_url self
               parsed_url Hparse e Hhost Htext).
    + exists (website_checks text), None, (Some website_note).
      split.
      * exact (check_compliance_website_fetched urlparse page_text repo_url
                 self parsed_url Hparse text Hhost Htext).
      * pose proof (website_checks_awarded text). lia.
Qed.

Lemma finished_new (Github_new : option string -> Github)
    (github_token : option string) (repo_url : string) (l : list CheckArgs)
    (err nt : option string) :
  0 <= total_awarded l <= 100 ->
  exists report self',
    finished repo_url (__init__ Github_new github_token) l err nt
    = (inr report, self') /\
    r_score report = total_awarded l /\
    percentage report = PyFloat (float_of_int (total_awarded l)).
Proof.
  intros H. unfold finished.
  change (current_score (__init__ Github_new github_token)) with 0.
  change (self_max_score (__init__ Github_new github_token)) with 100.
  rewrite Z.add_0_l, percentage_of_score by lia.
  eexists _, _. split; [reflexivity|]. split; reflexivity.
Qed.

Lemma main_pretty
    (urlparse : string -> outcome ParseResult)
    (page_text : string -> outcome string)
    (Github_new : option string -> Github)
    (float_str : float -> string) (json_dumps : Results -> string)
    (args : Args) (report : Results) (self' : Checker) :
  check_compliance urlparse page_text (args_url args)
    (__init__ Github_new (args_token args)) = (inr report, self') ->
  args_json args = false ->
  exists before after,
    main urlparse page_text Github_new float_str json_dumps args
    = ((before
        ++ [(Render.nl ++ Render.repeat "=" 80)%string;
            Render.status_line (percentage report);
            Render.repeat "=" 80]
        ++ after)%list,
       inr tt).
Proof.
  intros Hrun Hjson. unfold main. rewrite Hrun, Hjson. unfold pretty_lines.
  eexists (_ :: _ :: _ :: _ :: _ :: _ :: _ :: _
           :: flat_map Render.category_lines (categories report))%list, _.
  reflexivity.
Qed.

Lemma new_checker_report
    (urlparse : string -> outcome ParseResult)
    (page_text : string -> outcome string)
    (Github_new : option string -> Github) (github_token : option string)
    (repo_url : string) (report : Results) (self' : Checker) :
  check_compliance urlparse page_text repo_url
    (__init__ Github_new github_token) = (inr report, self') ->
  0 <= r_score report <= 95 /\
  percentage report = PyFloat (float_of_int (r_score report)) /\
  (forall parsed_url,
      urlparse repo_url = inr parsed_url ->
      is_github_netloc (netloc parsed_url) = false -> r_score report <= 10).
Proof.
  intros Hrun.
  destruct (urlparse repo_url) as [e|parsed_url] eqn:Hparse.
  { rewrite (check_compliance_unparsed _ _ _ _ e Hparse) in Hrun.
    discriminate. }
  destruct (new_checker_score urlparse page_text Github_new github_token
              repo_url parsed_url Hparse)
    as (l & err & nt & Heq & Hbounds & Hsite).
  destruct (finished_new Github_new github_token repo_url l err nt)
    as (report0 & self0 & Hfin & Hscore & Hpct); [lia|].
  rewrite Heq, Hfin in Hrun. injection Hrun as <- _.
  rewrite Hscore, Hpct. split; [exact Hbounds|]. split; [reflexivity|].
  intros parsed [= <-]. exact Hsite.
Qed.

Lemma new_checker_returns
    (urlparse : string -> outcome ParseResult)
    (page_text : string -> outcome string)
    (Github_new : option string -> Github) (github_token : option string)
    (repo_url : string) (parsed_url : ParseResult) :
  urlparse repo_url = inr parsed_url ->
  exists report self',
    check_compliance urlparse page_text repo_url
      (__init__ Github_new github_token) = (inr report, self').
Proof.
  intros Hparse.
  destruct (new_checker_score urlparse page_text Github_new github_token
              repo_url parsed_url Hparse)
    as (l & err & nt & Heq & Hbounds & _).
  destruct (finished_new Github_new github_token repo_url l err nt)
    as (report & self' & Hfin & _); [lia|].
  exists report, self'. now rewrite Heq.
Qed.

(** X16. Once the URL parses, [main] ends normally whatever happens to the
    target: with [--json] it prints the progress lines and the dumped report
    and nothing else; without, the status it prints is decided by the
    integer score alone - EXCELLENT from 80, GOOD from 60, NEEDS IMPROVEMENT
    from 40, SIGNIFICANT IMPROVEMENTS NEEDED below - the float arithmetic
    and rounding of the percentage never move a score across a threshold. *)
Theorem main_status_by_score
    (urlparse : string -> outcome ParseResult)
    (page_text : string -> outcome string)
    (Github_new : option string -> Github)
    (float_str : float -> string) (json_dumps : Results -> string)
    (args : Args) (parsed_url : ParseResult) :
  urlparse (args_url args) = inr parsed_url ->
  exists report self' printed,
    check_compliance urlparse page_text (args_url args)
      (__init__ Github_new (args_token args)) = (inr report, self') /\
    main urlparse page_text Github_new float_str json_dumps args
    = (printed, inr tt) /\
    (args_json args = true ->
     printed = (progress_lines (args_url args) ++ [json_dumps report])%list) /\
    (args_json args = false ->
     exists before after,
       printed
       = (before ++ status_block (band (r_score report)) ++ after)%list).
Proof.
  intros Hparse.
  destruct (new_checker_score urlparse page_text Github_new (args_token args)
              (args_url args) parsed_url Hparse)
    as (l & err & nt & Heq & Hbounds & _).
  destruct (finished_new Github_new (args_token args) (args_url args) l err nt)
    as (report & self' & Hfin & Hscore & Hpct); [lia|].
  rewrite Hfin in Heq.
  destruct (args_json args) eqn:Hjson.
  - exists report, self', (progress_lines (args_url args)
                           ++ [json_dumps report])%list.
    split; [exact Heq|]. split.
    + unfold main. now rewrite Heq, Hjson.
    + split; [reflexivity|discriminate].
  - destruct (main_pretty urlparse page_text Github_new float_str json_dumps
                args report self' Heq Hjson) as (before & after & Hmain).
    eexists report, self', _. split; [exact Heq|]. split; [exact Hmain|].
    split; [discriminate|]. intros _. exists before, after.
    rewrite Hpct, Hscore, status_line_band by lia. reflexivity.
Qed.

Lemma main_status_by_score_witness :
  exists report self' printed,
    Sample.run "https://github.com/OWASP/BLT" Sample.checker
    = (inr report, self') /\
    main Sample.urlparse Sample.page_text Sample.Github_new Sample2.float_str
      Sample2.json_dumps (mkCliArgs "https://github.com/OWASP/BLT" None false)
    = (printed, inr tt) /\
    exists before after,
      printed
      = (before ++ status_block (band (r_score report)) ++ after)%list.
Proof.
  destruct (main_status_by_score Sample.urlparse Sample.page_text
              Sample.Github_new Sample2.float_str Sample2.json_dumps
              (mkCliArgs "https://github.com/OWASP/BLT" None false)
              (mkParseResult "github.com" "/OWASP/BLT") eq_refl)
    as (report & self' & printed & Hrun & Hmain & _ & Hpretty).
  exists report, self', printed.
  split; [exact Hrun|]. split; [exact Hmain|]. exact (Hpretty eq_refl).
Defined.

Lemma main_band
    (urlparse : string -> outcome ParseResult)
    (page_text : string -> outcome string)
    (Github_new : option string -> Github)
    (float_str : float -> string) (json_dumps : Results -> string)
    (args : Args) (report : Results) (self' : Checker) :
  check_compliance urlparse page_text (args_url args)
    (__init__ Github_new (args_token args)) = (inr report, self') ->
  args_json args = false ->
  exists before after,
    main urlparse page_text Github_new float_str json_dumps args
    = ((before ++ status_block (band (r_score report)) ++ after)%list,
       inr tt).
Proof.
  intros Hrun Hjson.
  destruct (new_checker_report _ _ _ _ _ _ _ Hrun) as (Hbounds & Hpct & _).
  destruct (main_pretty urlparse page_text Github_new float_str json_dumps
              args report self' Hrun Hjson) as (before & after & Hmain).
  exists before, after.
  rewrite Hmain, Hpct, status_line_band by lia. reflexivity.
Qed.

Lemma band_low (s : Z) :
  s < 40 -> band s = "Status: SIGNIFICANT IMPROVEMENTS NEEDED".
Proof.
  intros H. unfold band.
  destruct (Z.leb_spec 80 s); [lia|]. destruct (Z.leb_spec 60 s); [lia|].
  destruct (Z.leb_spec 40 s); [lia|]. reflexivity.
Qed.

Lemma band_not_low (s : Z) :
  40 <= s ->
  band s = "Status: EXCELLENT COMPLIANCE " ++ Render.check_mark \/
  band s = "Status: GOOD COMPLIANCE" \/
  band s = "Status: NEEDS IMPROVEMENT".
Proof.
  intros H. unfold band.
  destruct (Z.leb_spec 80 s); [now left|].
  destruct (Z.leb_spec 60 s); [now right; left|].
  destruct (Z.leb_spec 40 s); [now right; right|lia].
Qed.

(** X17. For a target that is not on GitHub, the human-readable output of a
    run always carries the lowest status, whatever the page says: the two
    website checks are worth 10 of 100. *)
Theorem website_status
    (urlparse : string -> outcome ParseResult)
    (page_text : string -> outcome string)
    (Github_new : option string -> Github)
    (float_str : float -> string) (json_dumps : Results -> string)
    (args : Args) (parsed_url : ParseResult) :
  urlparse (args_url args) = inr parsed_url ->
  is_github_netloc (netloc parsed_url) = false ->
  args_json args = false ->
  exists before after,
    main urlparse page_text Github_new float_str json_dumps args
    = ((before
        ++ status_block "Status: SIGNIFICANT IMPROVEMENTS NEEDED"
        ++ after)%list,
       inr tt).
Proof.
  intros Hparse Hhost Hjson.
  destruct (new_checker_returns urlparse page_text Github_new
              (args_token args) (args_url args) parsed_url Hparse)
    as (report & self' & Hrun).
  destruct (new_checker_report _ _ _ _ _ _ _ Hrun) as (_ & _ & Hsite).
  destruct (main_band urlparse page_text Github_new float_str json_dumps
              args report self' Hrun Hjson) as (before & after & Hmain).
  exists before, after. rewrite Hmain, band_low; [reflexivity|].
  pose proof (Hsite parsed_url Hparse Hhost). lia.
Qed.

Lemma website_status_witness :
  exists before after,
    main Sample.urlparse Sample.page_text Sample.Github_new Sample2.float_str
      Sample2.json_dumps (mkCliArgs "https://owasp.example.org/" None false)
    = ((before
        ++ status_block "Status: SIGNIFICANT IMPROVEMENTS NEEDED"
        ++ after)%list,
       inr tt).
Proof.
  exact (website_status Sample.urlparse Sample.page_text Sample.Github_new
           Sample2.float_str Sample2.json_dumps
           (mkCliArgs "https://owasp.example.org/" None false)
           (mkParseResult "owasp.example.org" "/") eq_refl eq_refl eq_refl).
Defined.

(** X18. When the repository resolves and the catalog runs to its end, the
    human-readable output never carries the lowest status: it is EXCELLENT
    COMPLIANCE, GOOD COMPLIANCE or NEEDS IMPROVEMENT, because the checks
    that pass whatever the repository holds are 51 of 100. *)
Theorem completed_catalog_status
    (urlparse : string -> outcome ParseResult)
    (page_text : string -> outcome string)
    (Github_new : option string -> Github)
    (float_str : float -> string) (json_dumps : Results -> string)
    (args : Args) (parsed_url : ParseResult) (owner repo_name : string)
    (repo : Repository) (report : Results) (self' : Checker) :
  urlparse (args_url args) = inr parsed_url ->
  is_github_netloc (netloc parsed_url) = true ->
  owner_and_repo_name (PyStr.split "/" (PyStr.strip "/" (path parsed_url)))
  = Some (owner, repo_name) ->
  get_repo (github_client (__init__ Github_new (args_token args)))
    (owner ++ "/" ++ repo_name) = inr repo ->
  check_compliance urlparse page_text (args_url args)
    (__init__ Github_new (args_token args)) = (inr report, self') ->
  error report = None ->
  args_json args = false ->
  exists before status after,
    main urlparse page_text Github_new float_str json_dumps args
    = ((before ++ status_block status ++ after)%list, inr tt) /\
    status = band (r_score report) /\
    (status = "Status: EXCELLENT COMPLIANCE " ++ Render.check_mark \/
     status = "Status: GOOD COMPLIANCE" \/
     status = "Status: NEEDS IMPROVEMENT") /\
    status <> "Status: SIGNIFICANT IMPROVEMENTS NEEDED".
Proof.
  intros Hparse Hhost Hparts Hrepo Hrun Herr Hjson.
  destruct (main_band urlparse page_text Github_new float_str json_dumps
              args report self' Hrun Hjson) as (before & after & Hmain).
  exists before, (band (r_score report)), after.
  split; [exact Hmain|]. split; [reflexivity|].
  pose proof (completed_catalog_total _ _ _ _ _ _ _ _ _ _ _
                Hparse Hhost Hparts Hrepo Hrun Herr) as Hscore.
  assert (Hband := band_not_low (r_score report) ltac:(lia)).
  split; [exact Hband|].
  destruct Hband as [H | [H | H]]; rewrite H; discriminate.
Qed.

Lemma completed_catalog_status_witness :
  exists before after,
    main Sample.urlparse Sample.page_text Sample.Github_new Sample2.float_str
      Sample2.json_dumps (mkCliArgs "https://github.com/OWASP/BLT" None false)
    = ((before
        ++ status_block ("Status: EXCELLENT COMPLIANCE " ++ Render.check_mark)
        ++ after)%list,
       inr tt).
Proof.
  refine (let H :=
            completed_catalog_status Sample.urlparse Sample.page_text
              Sample.Github_new Sample2.float_str Sample2.json_dumps
              (mkCliArgs "https://github.com/OWASP/BLT" None false)
              (mkParseResult "github.com" "/OWASP/BLT") "OWASP" "BLT"
              Sample.favorable_repo Sample.repository_report
              (snd (Sample.run "https://github.com/OWASP/BLT" Sample.checker))
              eq_refl eq_refl eq_refl eq_refl _ eq_refl eq_refl in _).
  - destruct H as (before & status & after & Hmain & Hstatus & _).
    exists before, after. rewrite Hmain, Hstatus. reflexivity.
  Unshelve. vm_compute. reflexivity.
Defined.

(* ================================================================== *)
(** * Addresses of one repository *)

(** On a GitHub host the run depends on the URL only through the owner and
    the repository name read off its path. *)
Lemma dispatch_github (page_text : string -> outcome string)
    (client : Github) (target : option (string * string)) :
  exists l err nt,
    forall repo_url parsed_url self rep,
      is_github_netloc (netloc parsed_url) = true ->
      owner_and_repo_name
        (PyStr.split "/" (PyStr.strip "/" (path parsed_url))) = target ->
      github_client self = client ->
      results self = Report rep ->
      dispatch page_text repo_url parsed_url self
      = (inr tt, ran l err nt self rep).
Proof.
  destruct target as [[owner repo_name]|].
  - destruct (get_repo client (owner ++ "/" ++ repo_name))
      as [e|repo] eqn:Hrepo.
    + exists [], (Some (github_repo_error e)), None.
      intros repo_url parsed_url self rep Hhost Hparts Hclient Hres.
      unfold dispatch. rewrite Hhost, Hparts.
      apply check_github_repo_unresolved; [assumption|].
      now rewrite Hclient.
    + destruct (runs_catalog repo owner) as (r & l & Hw & _).
      exists l, (catalog_error r), None.
      intros repo_url parsed_url self rep Hhost Hparts Hclient Hres.
      unfold dispatch. rewrite Hhost, Hparts.
      apply (check_github_repo_catalog owner repo_name self rep repo);
        [assumption| |assumption].
      now rewrite Hclient.
  - exists [], None, None.
    intros repo_url parsed_url self rep Hhost Hparts _ Hres.
    unfold dispatch. rewrite Hhost, Hparts.
    destruct self, rep. simpl in Hres. subst.
    unfold ret, ran; simpl. now rewrite Z.add_0_r.
Qed.

(** X19. Two URLs on GitHub hosts whose paths start with the same owner and
    repository name - a deep link into the tree, a trailing slash, [www.] or
    another letter case of the host - are evaluated alike: from the same
    checker state the two reports agree in score, max_score, percentage,
    categories and ["error"], and differ only in the ["url"] they echo. *)
Theorem same_repository_same_report
    (urlparse : string -> outcome ParseResult)
    (page_text : string -> outcome string) (self : Checker)
    (url1 url2 : string) (parsed1 parsed2 : ParseResult)
    (r1 r2 : Results) (s1 s2 : Checker) :
  urlparse url1 = inr parsed1 ->
  urlparse url2 = inr parsed2 ->
  is_github_netloc (netloc parsed1) = true ->
  is_github_netloc (netloc parsed2) = true ->
  owner_and_repo_name (PyStr.split "/" (PyStr.strip "/" (path parsed1)))
  = owner_and_repo_name (PyStr.split "/" (PyStr.strip "/" (path parsed2))) ->
  check_compliance urlparse page_text url1 self = (inr r1, s1) ->
  check_compliance urlparse page_text url2 self = (inr r2, s2) ->
  r_score r1 = r_score r2 /\
  r_max_score r1 = r_max_score r2 /\
  percentage r1 = percentage r2 /\
  categories r1 = categories r2 /\
  error r1 = error r2 /\
  note r1 = note r2 /\
  url r1 = url1 /\ url r2 = url2.
Proof.
  intros Hparse1 Hparse2 Hhost1 Hhost2 Hsame Hrun1 Hrun2.
  destruct (dispatch_github page_text (github_client self)
              (owner_and_repo_name
                 (PyStr.split "/" (PyStr.strip "/" (path parsed2)))))
    as (l & err & nt & Hrun).
  rewrite (check_compliance_finish urlparse page_text url1 self parsed1
             l err nt Hparse1
             (Hrun url1 parsed1
                (with_results self (Report (init_results url1 self)))
                (init_results url1 self) Hhost1 Hsame eq_refl eq_refl))
    in Hrun1.
  rewrite (check_compliance_finish urlparse page_text url2 self parsed2
             l err nt Hparse2
             (Hrun url2 parsed2
                (with_results self (Report (init_results url2 self)))
                (init_results url2 self) Hhost2 eq_refl eq_refl eq_refl))
    in Hrun2.
  unfold finished in Hrun1, Hrun2.
  destruct (percentage_of _ _) as [e|p]; [discriminate|].
  assert (H1 : r1 = final_report url1 self l err nt (PyFloat p)) by congruence.
  assert (H2 : r2 = final_report url2 self l err nt (PyFloat p)) by congruence.
  subst r1 r2. unfold final_report; simpl. repeat split.
Qed.

Lemma same_repository_same_report_witness :
  exists r2 s2,
    check_compliance Sample2.urlparse Sample.page_text
      "https://github.com/OWASP/BLT/tree/main/docs" Sample.checker
    = (inr r2, s2) /\
    r_score Sample.repository_report = r_score r2 /\
    percentage Sample.repository_report = percentage r2 /\
    categories Sample.repository_report = categories r2 /\
    url r2 = "https://github.com/OWASP/BLT/tree/main/docs".
Proof.
  eexists _, _. split; [vm_compute; reflexivity|].
  match goal with
  | |- _ = r_score ?r2 /\ _ =>
      refine (let H :=
                same_repository_same_report Sample2.urlparse Sample.page_text
                  Sample.checker "https://github.com/OWASP/BLT"
                  "https://github.com/OWASP/BLT/tree/main/docs"
                  (mkParseResult "github.com" "/OWASP/BLT")
                  (mkParseResult "github.com" "/OWASP/BLT/tree/main/docs")
                  Sample.repository_report r2
                  (snd (Sample.run "https://github.com/OWASP/BLT"
                          Sample.checker))
                  (snd (check_compliance Sample2.urlparse Sample.page_text
                          "https://github.com/OWASP/BLT/tree/main/docs"
                          Sample.checker))
                  eq_refl eq_refl eq_refl eq_refl eq_refl _ _ in _)
  end.
  - destruct H as (Hs & _ & Hp & Hc & _ & _ & _ & Hu). auto.
  Unshelve.
  + vm_compute. reflexivity.
  + vm_compute. reflexivity.
Defined.

(* ================================================================== *)
(** * Timezone-aware timestamps *)

Definition naive_and_aware : exn :=
  PyException "TypeError"
    "can't compare offset-naive and offset-aware datetimes".

(** With an aware [pushed_at], [_check_community] adds its first five
    checks and raises at the comparison. *)
Lemma community_aware (repo : Repository) (d : DateTime) (offset : string) :
  pushed_at repo = Some d -> utcoffset d = Some offset ->
  exists l,
    writes (_check_community repo) (inl naive_and_aware) l /\
    Forall unit_weight l /\ total_awarded l <= 5.
Proof.
  intros Hpushed Haware.
  assert (Hraised : after_one_year_ago d = inl naive_and_aware).
  { unfold after_one_year_ago. now rewrite Haware. }
  unfold _check_community; cbv zeta. rewrite Hpushed, Hraised.
  eexists. split.
  - eapply writes_bind_ok; [apply writes_add|].
    eapply writes_bind_ok;
      [apply writes_pure; apply check_file_exists_run|].
    cbv beta.
    do 4 (eapply writes_bind_ok; [apply writes_add|]).
    apply writes_bind_exn. apply writes_call.
  - simpl app. split; [repeat constructor|].
    destruct (found repo "SECURITY.md"); vm_compute; discriminate.
Qed.

(** The catalog of a repository with an aware [pushed_at] always raises,
    after checks of weight 1 that award at most 85 points. *)
Lemma catalog_aware (repo : Repository) (owner : string) (d : DateTime)
    (offset : string) :
  pushed_at repo = Some d -> utcoffset d = Some offset ->
  exists e l,
    writes (catalog repo owner) (inl e) l /\
    Forall unit_weight l /\ total_awarded l <= 85.
Proof.
  intros Hpushed Haware.
  destruct (runs_general_compliance repo owner)
    as ([e|[]] & l1 & Hw1 & Hu1 & Hk1 & _).
  { exists e, l1. split; [|split; [exact Hu1|lia]].
    unfold catalog. now apply writes_bind_exn. }
  destruct (runs_documentation repo)
    as ([e|[]] & l2 & Hw2 & Hu2 & Hk2 & _).
  { exists e, (l1 ++ l2)%list.
    split; [|split; [now apply Forall_app|rewrite total_awarded_app; lia]].
    unfold catalog. eapply writes_bind_ok; [eassumption|].
    now apply writes_bind_exn. }
  destruct (runs_code_quality repo)
    as ([e|[]] & l3 & Hw3 & Hu3 & Hk3 & Hb3); [destruct Hb3|].
  destruct (runs_security repo)
    as ([e|[]] & l4 & Hw4 & Hu4 & Hk4 & Hb4); [destruct Hb4|].
  destruct (runs_cicd repo)
    as ([e|[]] & l5 & Hw5 & Hu5 & Hk5 & Hb5); [destruct Hb5|].
  destruct (runs_testing repo)
    as ([e|[]] & l6 & Hw6 & Hu6 & Hk6 & Hb6); [destruct Hb6|].
  destruct (runs_performance repo)
    as ([e|[]] & l7 & Hw7 & Hu7 & Hk7 & Hb7); [destruct Hb7|].
  destruct (runs_logging repo)
    as ([e|[]] & l8 & Hw8 & Hu8 & Hk8 & Hb8); [destruct Hb8|].
  destruct (community_aware repo d offset Hpushed Haware)
    as (l9 & Hw9 & Hu9 & Hk9).
  exists naive_and_aware,
    (l1 ++ l2 ++ l3 ++ l4 ++ l5 ++ l6 ++ l7 ++ l8 ++ l9)%list.
  split; [|split].
  - unfold catalog.
    repeat (eapply writes_bind_ok; [eassumption|]).
    now apply writes_bind_exn.
  - repeat (apply Forall_app; split; [assumption|]). assumption.
  - rewrite !total_awarded_app. lia.
Qed.

(** X20. PyGithub 2 returns timezone-aware timestamps, and the code
    compares [repo.pushed_at] with the naive
    [datetime.now() - timedelta(days=365)] outside any [try].  So for a
    repository whose [pushed_at] is aware no run completes the catalog: a
    newly constructed checker returns a report that carries an ["error"] and
    at most 85 of the 100 points.  When every rule finds a fact it accepts,
    the score is exactly 85, the percentage 85.0, the error is the
    [TypeError] of the comparison, and no check carries a remediation
    text. *)
Theorem aware_timestamp_stops_the_run
    (urlparse : string -> outcome ParseResult)
    (page_text : string -> outcome string)
    (Github_new : option string -> Github) (github_token : option string)
    (repo_url : string) (parsed_url : ParseResult) (owner repo_name : string)
    (repo : Repository) (d : DateTime) (offset : string) :
  urlparse repo_url = inr parsed_url ->
  is_github_netloc (netloc parsed_url) = true ->
  owner_and_repo_name (PyStr.split "/" (PyStr.strip "/" (path parsed_url)))
  = Some (owner, repo_name) ->
  get_repo (github_client (__init__ Github_new github_token))
    (owner ++ "/" ++ repo_name) = inr repo ->
  pushed_at repo = Some d ->
  utcoffset d = Some offset ->
  exists report self' msg,
    check_compliance urlparse page_text repo_url
      (__init__ Github_new github_token) = (inr report, self') /\
    error report = Some msg /\
    0 <= r_score report <= 85 /\
    (favorable_facts repo owner ->
     msg = "Unexpected error: TypeError: can't compare offset-naive and offset-aware datetimes" /\
     r_score report = 85 /\
     percentage report = PyFloat 85%float /\
     forall k, In k (all_checks (categories report)) -> how_to_fix k = "").
Proof.
  intros Hparse Hhost Hparts Hrepo Hpushed Haware.
  set (self := __init__ Github_new github_token) in *.
  destruct (catalog_aware repo owner d offset Hpushed Haware)
    as (e & l & Hw & Hu & Hk).
  assert (Hpos : 0 <= total_awarded l).
  { apply total_awarded_bounds. eapply Forall_impl; [|exact Hu].
    unfold unit_weight. intros a Ha. lia. }
  pose proof (check_compliance_catalog urlparse page_text repo_url self
                parsed_url Hparse owner repo_name repo (inl e) l
                Hhost Hparts Hrepo Hw) as Heq.
  destruct (finished_new Github_new github_token repo_url l
              (catalog_error (inl e)) None)
    as (report & self' & Hfin & Hscore & Hpct); [lia|].
  fold self in Hfin. rewrite Hfin in Heq.
  exists report, self', (github_repo_error e).
  split; [exact Heq|].
  pose proof Hfin as Hrep. apply finished_report in Hrep.
  destruct Hrep as (p & _ & Hreport & _).
  split; [rewrite Hreport; reflexivity|]. split; [lia|].
  intros Hfacts.
  destruct (stops_catalog repo owner)
    as (l' & Hw' & _ & Hk' & Hq').
  { split; [exact Hfacts|]. now exists d, offset. }
  pose proof (check_compliance_catalog urlparse page_text repo_url self
                parsed_url Hparse owner repo_name repo _ l'
                Hhost Hparts Hrepo Hw') as Heq'.
  rewrite Heq in Heq'. symmetry in Heq'.
  apply finished_report in Heq'. destruct Heq' as (p' & Hp' & Hreport' & _).
  change (current_score self) with 0 in Hp'.
  change (self_max_score self) with 100 in Hp'.
  rewrite Hk' in Hp'. change (0 + 85) with 85 in Hp'.
  rewrite (percentage_of_score 85) in Hp' by lia.
  assert (Hmsg : error report
                 = Some "Unexpected error: TypeError: can't compare offset-naive and offset-aware datetimes")
    by (rewrite Hreport'; reflexivity).
  assert (Herr : error report = Some (github_repo_error e))
    by (rewrite Hreport; reflexivity).
  split; [congruence|].
  split; [rewrite Hreport'; unfold final_report; simpl; now rewrite Hk'|].
  split.
  - rewrite Hreport'. unfold final_report; simpl.
    assert (Hp : p' = float_of_int 85) by congruence.
    rewrite Hp. vm_compute. reflexivity.
  - rewrite Hreport'. unfold final_report; simpl.
    now apply replay_categories_quiet.
Qed.

Lemma aware_timestamp_stops_the_run_witness :
  exists report self' msg,
    Sample.run "https://github.com/OWASP/BLT" Sample.aware_checker
    = (inr report, self') /\
    error report = Some msg /\
    msg = "Unexpected error: TypeError: can't compare offset-naive and offset-aware datetimes" /\
    r_score report = 85 /\
    percentage report = PyFloat 85%float.
Proof.
  destruct (aware_timestamp_stops_the_run Sample.urlparse Sample.page_text
              (fun _ => Sample.client_of Sample.aware_repo) None
              "https://github.com/OWASP/BLT"
              (mkParseResult "github.com" "/OWASP/BLT") "OWASP" "BLT"
              Sample.aware_repo Sample.last_push_aware "+00:00"
              eq_refl eq_refl eq_refl eq_refl eq_refl eq_refl)
    as (report & self' & msg & Hrun & Herr & Hbound & Hfav).
  destruct (Hfav (sample_facts Sample.last_push_aware))
    as (Hmsg & Hscore & Hpct & _).
  exists report, self', msg.
  split; [exact Hrun|]. split; [exact Herr|]. split; [exact Hmsg|].
  split; [exact Hscore|exact Hpct].
Defined.
